(** * The resource actor of remix-guide: a shallow embedding

    This development embeds the Durable Object [ResourcesStore] with the
    store object it creates (src/worker/context/store.ts, from the import of
    nanoid on: [createResourceStore] and the class [ResourcesStore]) and
    proves the properties the specification states about it.

    Modelling conventions.
    - A JS string is a [string]; its elements stand for UTF-16 code units.
    - A JS object used as a dictionary (the two indices, the KV namespaces)
      is a [gmap string _]; inherited prototype properties are not modelled.
    - The Durable Object storage is one key space: resource ids share it
      with the keys index/URL and index/PackageName.  [Storage] keeps the
      summaries and the two index blobs apart, and [state.storage.get] looks
      a key up in all of it, so that [getResource] finds an index blob when
      it is asked for one of the two keys.  Values are copied when they are
      put and when they are read, so storage shares nothing with the
      in-memory indices.
    - The stores hold values of their declared types.  The object that
      [getResource] builds from an index blob is not a [ResourceSummary]:
      the model follows the code on it as far as the language decides what
      happens, and where the object is handed on to [updateResource] or
      [updateResourceCache], or a missing field of it to the page store and
      the collaborators, the outcome is an answer of the environment
      ([untyped]); the stores keep what they hold.
    - Asynchronous code is run in program order.  A promise that the source
      does not await is run at the point where it is created and its
      rejection, if any, is recorded as [UnhandledRejection] instead of being
      propagated to the caller.
    - Collaborators that live outside the file (scraper, safety check,
      integration detection, id generator, clock) are fields of [Env]; the
      scraper, the page details and the safety check may reject.  Reads and
      writes of the three stores always succeed.
    - [viewCounts] is an integer; number arithmetic is exact on it. *)

From Stdlib Require Import ZArith String List Lia.
From stdpp Require Import base option list strings pretty gmap fin_maps.

Local Open Scope string_scope.
Local Open Scope Z_scope.

(** ** Data model *)

Inductive SubmissionStatus := INVALID | PUBLISHED | RESUBMITTED.

Module Page.
(** [Page]: what the PAGE namespace stores for a URL. *)
Record t := mk {
  url : string;
  category : string;
  author : option string;
  title : string;
  description : option string;
  image : option string;
  video : option string;
  isSafe : bool;
  dependencies : option (list (string * string));
  configs : option (list string);
  createdAt : string;
  updatedAt : string;
}.
End Page.

Module PageDetails.
(** [Partial<Page>] as [getPageDetails] returns it: a field is either
    present, and then overrides the page's field when spread over it, or
    absent. *)
Record t := mk {
  url : option string;
  category : option string;
  author : option (option string);
  title : option string;
  description : option (option string);
  image : option (option string);
  video : option (option string);
  dependencies : option (option (list (string * string)));
  configs : option (option (list string));
}.
End PageDetails.

Module ResourceSummary.
Record t := mk {
  id : string;
  url : string;
  bookmarked : list string;
  viewCounts : Z;
  createdAt : string;
  createdBy : string;
  updatedAt : string;
  updatedBy : string;
}.
End ResourceSummary.

Module Resource.
Record t := mk {
  id : string;
  url : string;
  bookmarked : list string;
  viewCounts : Z;
  createdAt : string;
  createdBy : string;
  updatedAt : string;
  updatedBy : string;
  category : string;
  author : option string;
  title : string;
  description : option string;
  image : option string;
  video : option string;
  isSafe : bool;
  dependencies : option (list (string * string));
  configs : option (list string);
  integrations : list string;
}.
End Resource.

Module ResourceMetadata.
Record t := mk {
  id : string;
  url : string;
  category : string;
  author : option string;
  title : string;
  description : option string;
  viewCounts : Z;
  bookmarkCounts : nat;
  integrations : list string;
  createdAt : string;
}.
End ResourceMetadata.

Module IndexRecord.
(** The object [getResource] builds when the stored value is an index blob:
    each of the eight properties is the blob's property of that name, an id
    when the blob has such a key and undefined otherwise. *)
Record t := mk {
  id : option string;
  url : option string;
  bookmarked : option string;
  viewCounts : option string;
  createdAt : option string;
  createdBy : option string;
  updatedAt : option string;
  updatedBy : option string;
}.
End IndexRecord.

(** The durable key space of the actor: [{resourceId} -> ResourceSummary],
    [index/URL] and [index/PackageName]. *)
Record Storage := mkStorage {
  summaries : gmap string ResourceSummary.t;
  index_URL : option (gmap string string);
  index_PackageName : option (gmap string string);
}.

(** A value of the key space: a summary or an index blob. *)
Inductive Stored :=
| StoredSummary (r : ResourceSummary.t)
| StoredIndex (index : gmap string string).

(** What [getResource] returns for a key that holds a value: the summary
    read from a stored summary, or the fields read from an index blob. *)
Inductive Found :=
| Summary (r : ResourceSummary.t)
| Fields (x : IndexRecord.t).

(** ** Exceptions and results *)

(** A thrown value: an instance of [Error] with its message, or any other
    value (the catch clause of [fetch] tells them apart). *)
Inductive Thrown :=
| ThrownError (message : string)
| ThrownValue (v : string).

Inductive Result (A : Type) :=
| Ok (a : A)
| Throw (e : Thrown).
Arguments Ok {A} a.
Arguments Throw {A} e.

(** ** Responses and requests *)

Inductive Body :=
| Text (s : string)
| JsonSubmission (id : option string) (status : SubmissionStatus)
| JsonSummary (r : ResourceSummary.t)
| JsonFields (x : IndexRecord.t)
| JsonEntries (data : Storage).

Record Response := mkResponse { body : Body; status : nat }.

(** The parsed body of a request, typed as the handlers use it: the
    properties they destructure, and the body seen as a dump of storage
    entries (restore).  A property that is missing or null is falsy like the
    empty string, which stands for it. *)
Record Json := mkJson {
  json_url : string;
  json_userId : string;
  json_resourceId : string;
  json_entries : Storage;
}.

Record Request := mkRequest {
  req_url : string;                      (* request.url *)
  req_pathname : string;                 (* new URL(request.url).pathname *)
  req_resourceId : option string;        (* searchParams.get('resourceId') *)
  req_method : string;                   (* request.method.toUpperCase() *)
  req_json : Result Json;                (* await request.json() *)
}.

(** ** Observable effects *)

Inductive Effect :=
| StoragePut (key : string)
| StoragePutEntries (data : Storage)
| PagePut (key : string)
| ContentPut (key : string)
| LoggerError (e : Thrown)
| LoggerLog (message : string)
| LoggerReport (response : Response)
| UnhandledRejection (e : Thrown).

(** ** The environment and the state *)

Record Env := mkEnv {
  USER_AGENT : string;
  GOOGLE_API_KEY : option string;
  scrapeHTML : string -> string -> Result Page.t;
  getPageDetails : string -> Result PageDetails.t;
  checkSafeBrowsingAPI : list string -> string -> Result bool;
  getIntegrations :
    list string -> list string -> list (string * string) -> list string;
  getIntegrationsFromPage : Page.t -> list string -> list string;
  (** the n-th string drawn from [generateId] *)
  generateId : nat -> string;
  (** the n-th reading of [new Date().toISOString()] *)
  toISOString : nat -> string;
  (** what comes of handing on an object built from an index blob: the
      method, the user and the object are given, the promise is fulfilled or
      rejects *)
  untyped : string -> string -> IndexRecord.t -> Result unit;
}.

(** [resourceIdByURL] and [resourceIdByPackageName] are the two variables
    the store object closes over; [store_ready] says that [this.store] is
    not null.  [effects] lists the effects performed so far, latest first. *)
Record Sys := mkSys {
  storage : Storage;
  PAGE : gmap string Page.t;
  CONTENT : gmap string (Resource.t * ResourceMetadata.t);
  store_ready : bool;
  resourceIdByURL : gmap string string;
  resourceIdByPackageName : gmap string string;
  effects : list Effect;
  clock : nat;
  nonce : nat;
}.

Definition set_storage (f : Storage -> Storage) (s : Sys) : Sys :=
  mkSys (f (storage s)) (PAGE s) (CONTENT s) (store_ready s)
    (resourceIdByURL s) (resourceIdByPackageName s) (effects s)
    (clock s) (nonce s).

Definition set_PAGE (f : gmap string Page.t -> gmap string Page.t)
    (s : Sys) : Sys :=
  mkSys (storage s) (f (PAGE s)) (CONTENT s) (store_ready s)
    (resourceIdByURL s) (resourceIdByPackageName s) (effects s)
    (clock s) (nonce s).

Definition set_CONTENT
    (f : gmap string (Resource.t * ResourceMetadata.t) ->
         gmap string (Resource.t * ResourceMetadata.t))
    (s : Sys) : Sys :=
  mkSys (storage s) (PAGE s) (f (CONTENT s)) (store_ready s)
    (resourceIdByURL s) (resourceIdByPackageName s) (effects s)
    (clock s) (nonce s).

Definition set_store (urls packages : gmap string string) (s : Sys) : Sys :=
  mkSys (storage s) (PAGE s) (CONTENT s) true urls packages (effects s)
    (clock s) (nonce s).

Definition set_resourceIdByURL (f : gmap string string -> gmap string string)
    (s : Sys) : Sys :=
  mkSys (storage s) (PAGE s) (CONTENT s) (store_ready s)
    (f (resourceIdByURL s)) (resourceIdByPackageName s) (effects s)
    (clock s) (nonce s).

Definition set_resourceIdByPackageName
    (f : gmap string string -> gmap string string) (s : Sys) : Sys :=
  mkSys (storage s) (PAGE s) (CONTENT s) (store_ready s)
    (resourceIdByURL s) (f (resourceIdByPackageName s)) (effects s)
    (clock s) (nonce s).

Definition emit (x : Effect) (s : Sys) : Sys :=
  mkSys (storage s) (PAGE s) (CONTENT s) (store_ready s)
    (resourceIdByURL s) (resourceIdByPackageName s) (x :: effects s)
    (clock s) (nonce s).

Definition tick (s : Sys) : Sys :=
  mkSys (storage s) (PAGE s) (CONTENT s) (store_ready s)
    (resourceIdByURL s) (resourceIdByPackageName s) (effects s)
    (S (clock s)) (nonce s).

Definition draw (s : Sys) : Sys :=
  mkSys (storage s) (PAGE s) (CONTENT s) (store_ready s)
    (resourceIdByURL s) (resourceIdByPackageName s) (effects s)
    (clock s) (S (nonce s)).

(** ** The monad of the actor's code: environment, state, exceptions *)

Definition M (A : Type) : Type := Env -> Sys -> Result A * Sys.

Definition ret {A} (a : A) : M A := fun _ s => (Ok a, s).

Definition bind {A B} (m : M A) (k : A -> M B) : M B :=
  fun e s =>
    match m e s with
    | (Ok a, s') => k a e s'
    | (Throw x, s') => (Throw x, s')
    end.

Definition throw {A} (x : Thrown) : M A := fun _ s => (Throw x, s).

Definition gets {A} (f : Sys -> A) : M A := fun _ s => (Ok (f s), s).

Definition modify (f : Sys -> Sys) : M unit := fun _ s => (Ok tt, f s).

(** A collaborator call that may reject. *)
Definition call {A} (f : Env -> Result A) : M A := fun e s => (f e, s).

(** A property of the environment. *)
Definition asks {A} (f : Env -> A) : M A := fun e s => (Ok (f e), s).

Definition try_catch {A} (m : M A) (handler : Thrown -> M A) : M A :=
  fun e s =>
    match m e s with
    | (Ok a, s') => (Ok a, s')
    | (Throw x, s') => handler x e s'
    end.

(** A promise that is created and not awaited. *)
Definition detached (m : M unit) : M unit :=
  try_catch m (fun x => modify (emit (UnhandledRejection x))).

Notation "'let*' x ':=' m 'in' k" := (bind m (fun x => k))
  (at level 10, x name, m at level 100, k at level 200).
Notation "m ';;' k" := (bind m (fun _ => k))
  (at level 100, k at level 200, right associativity).

(** ** Truthiness and small JS helpers *)

(** [!!s] for a string. *)
Definition truthy (s : string) : bool := negb (String.eqb s "").

(** [!!id] for [string | null]. *)
Definition truthy_id (o : option string) : bool :=
  match o with
  | Some s => truthy s
  | None => false
  end.

(** [s.includes(x)] for a string [s]: [x] occurs in it. *)
Definition String_includes (x s : string) : bool :=
  match index 0 x s with
  | Some _ => true
  | None => false
  end.

(** [array.includes(x)] *)
Definition includes (x : string) (l : list string) : bool :=
  existsb (String.eqb x) l.

(** [Object.keys(o)], in the order of the map (the insertion order of the
    JS object is not kept). *)
Definition Object_keys (o : gmap string string) : list string :=
  (map_to_list o).*1.

(** [s.slice(0, n)] *)
Definition slice0 (n : nat) (s : string) : string := substring 0 n s.

(** ** Primitive operations on the three stores *)

(** What the key space holds under [key].  A summary is found under its
    key; the blobs are found under index/URL and index/PackageName (a
    summary under one of these two keys, which only a dump can bring in, is
    found first). *)
Definition stored (st : Storage) (key : string) : option Stored :=
  match summaries st !! key with
  | Some r => Some (StoredSummary r)
  | None =>
      if String.eqb key "index/URL" then StoredIndex <$> index_URL st
      else if String.eqb key "index/PackageName"
      then StoredIndex <$> index_PackageName st
      else None
  end.

(** [state.storage.get(key)] *)
Definition storage_get (key : string) : M (option Stored) :=
  gets (fun s => stored (storage s) key).

(** An object built from an index blob is handed on where a ResourceSummary
    or a field of one is expected. *)
Definition untyped_call (method userId : string) (record : IndexRecord.t)
    : M unit :=
  call (fun e => untyped e method userId record).

Definition storage_get_index_URL : M (option (gmap string string)) :=
  gets (fun s => index_URL (storage s)).

Definition storage_get_index_PackageName : M (option (gmap string string)) :=
  gets (fun s => index_PackageName (storage s)).

Definition storage_put (key : string) (value : ResourceSummary.t) : M unit :=
  modify (fun s =>
    emit (StoragePut key)
      (set_storage (fun st =>
         mkStorage (<[key := value]> (summaries st))
           (index_URL st) (index_PackageName st)) s)).

Definition storage_put_index_URL (value : gmap string string) : M unit :=
  modify (fun s =>
    emit (StoragePut "index/URL")
      (set_storage (fun st =>
         mkStorage (summaries st) (Some value) (index_PackageName st)) s)).

Definition storage_put_index_PackageName (value : gmap string string)
    : M unit :=
  modify (fun s =>
    emit (StoragePut "index/PackageName")
      (set_storage (fun st =>
         mkStorage (summaries st) (index_URL st) (Some value)) s)).

(** [state.storage.list()] *)
Definition storage_list : M Storage := gets storage.

(** The entries of [data] written over those of [st]; a key that [data]
    does not have keeps its value. *)
Definition put_entries (data st : Storage) : Storage :=
  mkStorage (summaries data ∪ summaries st)
    (match index_URL data with
     | Some m => Some m
     | None => index_URL st
     end)
    (match index_PackageName data with
     | Some m => Some m
     | None => index_PackageName st
     end).

(** [state.storage.put(entries)] *)
Definition storage_put_entries (data : Storage) : M unit :=
  modify (fun s =>
    emit (StoragePutEntries data) (set_storage (put_entries data) s)).

Definition PAGE_get (key : string) : M (option Page.t) :=
  gets (fun s => PAGE s !! key).

Definition PAGE_put (key : string) (page : Page.t) : M unit :=
  modify (fun s => emit (PagePut key) (set_PAGE (insert key page) s)).

Definition CONTENT_put (key : string) (resource : Resource.t)
    (metadata : ResourceMetadata.t) : M unit :=
  modify (fun s =>
    emit (ContentPut key) (set_CONTENT (insert key (resource, metadata)) s)).

(** [new Date().toISOString()] *)
Definition Date_now : M string :=
  fun e s => (Ok (toISOString e (clock s)), tick s).

(** [generateId()] *)
Definition newId : M string :=
  fun e s => (Ok (generateId e (nonce s)), draw s).

(** [GOOGLE_API_KEY ? checkSafeBrowsingAPI([url], GOOGLE_API_KEY) : true] *)
Definition safeBrowsing (e : Env) (url : string) : Result bool :=
  match GOOGLE_API_KEY e with
  | Some key =>
      if truthy key then checkSafeBrowsingAPI e [url] key else Ok true
  | None => Ok true
  end.

Definition checkSafe (url : string) : M bool :=
  call (fun e => safeBrowsing e url).

(** [{ ...page, ...pageDetails, isSafe, createdAt, updatedAt }] *)
Definition spread (page : Page.t) (d : PageDetails.t) (isSafe : bool)
    (createdAt updatedAt : string) : Page.t :=
  Page.mk
    (default (Page.url page) (PageDetails.url d))
    (default (Page.category page) (PageDetails.category d))
    (default (Page.author page) (PageDetails.author d))
    (default (Page.title page) (PageDetails.title d))
    (default (Page.description page) (PageDetails.description d))
    (default (Page.image page) (PageDetails.image d))
    (default (Page.video page) (PageDetails.video d))
    isSafe
    (default (Page.dependencies page) (PageDetails.dependencies d))
    (default (Page.configs page) (PageDetails.configs d))
    createdAt
    updatedAt.

(** ** createResourceStore *)

(** The [Resource] that [updateResourceCache] builds from a summary, the
    page and the integrations. *)
Definition mkResource (summary : ResourceSummary.t) (page : Page.t)
    (integrations : list string) : Resource.t :=
  Resource.mk
    (ResourceSummary.id summary)
    (ResourceSummary.url summary)
    (ResourceSummary.bookmarked summary)
    (ResourceSummary.viewCounts summary)
    (ResourceSummary.createdAt summary)
    (ResourceSummary.createdBy summary)
    (ResourceSummary.updatedAt summary)
    (ResourceSummary.updatedBy summary)
    (Page.category page)
    (Page.author page)
    (Page.title page)
    (Page.description page)
    (Page.image page)
    (Page.video page)
    (Page.isSafe page)
    (Page.dependencies page)
    (Page.configs page)
    integrations.

(** The [ResourceMetadata] that [updateResourceCache] attaches. *)
Definition mkMetadata (resource : Resource.t) : ResourceMetadata.t :=
  ResourceMetadata.mk
    (Resource.id resource)
    (Resource.url resource)
    (Resource.category resource)
    (Resource.author resource)
    (Resource.title resource)
    (slice0 80 <$> Resource.description resource)
    (Resource.viewCounts resource)
    (length (Resource.bookmarked resource))
    (Resource.integrations resource)
    (Resource.createdAt resource).

Definition integrationsOf (e : Env) (page : Page.t)
    (packages : list string) : list string :=
  if String.eqb (Page.category page) "package"
     || String.eqb (Page.category page) "repository"
  then getIntegrations e (default [] (Page.configs page)) packages
         (default [] (Page.dependencies page))
  else getIntegrationsFromPage e page packages.

Definition updateResourceCache (summary : ResourceSummary.t)
    (pageData : option Page.t) : M unit :=
  let* page :=
    match pageData with
    | Some page => ret (Some page)
    | None => PAGE_get (ResourceSummary.url summary)
    end in
  match page with
  | None => throw (ThrownError "No page data found for the corresponding URL")
  | Some page =>
      let* index := gets resourceIdByPackageName in
      let packages := Object_keys index in
      let* integrations := asks (fun e => integrationsOf e page packages) in
      let resource := mkResource summary page integrations in
      let metadata := mkMetadata resource in
      CONTENT_put ("resources/" +:+ Resource.id resource) resource metadata
  end.

Definition updateResource (resource : ResourceSummary.t)
    (page : option Page.t) : M unit :=
  storage_put (ResourceSummary.id resource) resource ;;
  updateResourceCache resource page.

Definition createResource (page : Page.t) (userId : string)
    : M (option string * SubmissionStatus) :=
  if negb (Page.isSafe page) then ret (None, INVALID)
  else
    let* id := newId in
    let* now := Date_now in
    updateResource
      (ResourceSummary.mk id (Page.url page) [] 0 now userId now userId)
      (Some page) ;;
    (if String.eqb (Page.category page) "package" then
       modify (set_resourceIdByPackageName (insert (Page.title page) id)) ;;
       let* index := gets resourceIdByPackageName in
       storage_put_index_PackageName index
     else ret tt) ;;
    ret (Some id, PUBLISHED).

(** [getResource]: the stored value is tested for truthiness only, so an
    index blob, the empty one included, passes the test and its properties
    named like the fields of a summary are read. *)
Definition getResource (resourceId : string) : M (option Found) :=
  let* resource := storage_get resourceId in
  match resource with
  | None => ret None
  | Some (StoredSummary resource) =>
      ret (Some (Summary (ResourceSummary.mk
        (ResourceSummary.id resource)
        (ResourceSummary.url resource)
        (ResourceSummary.bookmarked resource)
        (ResourceSummary.viewCounts resource)
        (ResourceSummary.createdAt resource)
        (ResourceSummary.createdBy resource)
        (ResourceSummary.updatedAt resource)
        (ResourceSummary.updatedBy resource))))
  | Some (StoredIndex resource) =>
      ret (Some (Fields (IndexRecord.mk
        (resource !! "id")
        (resource !! "url")
        (resource !! "bookmarked")
        (resource !! "viewCounts")
        (resource !! "createdAt")
        (resource !! "createdBy")
        (resource !! "updatedAt")
        (resource !! "updatedBy"))))
  end.

(** [resourceId ? await getResource(resourceId) : null] *)
Definition getResourceOrNull (resourceId : option string)
    : M (option Found) :=
  match resourceId with
  | Some resourceId =>
      if truthy resourceId then getResource resourceId else ret None
  | None => ret None
  end.

(** ** The methods of the store object *)

(** The first statements of [submit]: the page stored for [url] or, when
    there is none, the scraped page, which is then stored under its own URL.
    The two promises of [Promise.all] are taken in the order they are
    listed. *)
Definition loadPage (url : string) : M Page.t :=
  let* cached := PAGE_get url in
  match cached with
  | Some page => ret page
  | None =>
      let* page := call (fun e => scrapeHTML e url (USER_AGENT e)) in
      let* pageDetails := call (fun e => getPageDetails e (Page.url page)) in
      let* isSafe := checkSafe (Page.url page) in
      let* now := Date_now in
      let page := spread page pageDetails isSafe now now in
      PAGE_put (Page.url page) page ;;
      ret page
  end.

Definition submit (userId url : string)
    : M (option string * SubmissionStatus) :=
  let* page := loadPage url in
  let* index := gets resourceIdByURL in
  let id := index !! Page.url page in
  if negb (truthy_id id) then
    let* result := createResource page userId in
    match fst result with
    | Some id =>
        if truthy id then
          modify (set_resourceIdByURL (insert (Page.url page) id)) ;;
          let* index := gets resourceIdByURL in
          storage_put_index_URL index
        else ret tt
    | None => ret tt
    end ;;
    ret result
  else ret (id, RESUBMITTED).

(** [refresh] after its null test, on an object built from an index blob.
    With no [url] the stores and the collaborators are asked about
    undefined.  With one, the code runs as for a summary up to the call of
    [updateResource], which receives the object. *)
Definition refresh_fields (userId : string) (resource : IndexRecord.t)
    : M bool :=
  match IndexRecord.url resource with
  | None => untyped_call "refresh" userId resource ;; ret true
  | Some url =>
      let* currentPage := PAGE_get url in
      let* updatedPage := call (fun e => scrapeHTML e url (USER_AGENT e)) in
      let* pageMetadata := call (fun e => getPageDetails e url) in
      let* isSafe := checkSafe url in
      let* now := Date_now in
      let page :=
        spread updatedPage pageMetadata isSafe
          (match currentPage with
           | Some currentPage => Page.createdAt currentPage
           | None => default now (IndexRecord.createdAt resource)
           end)
          now in
      PAGE_put (Page.url page) page ;;
      let* resource :=
        if negb (String.eqb url (Page.url page))
        then
          PAGE_put url page ;;
          ret (IndexRecord.mk
            (IndexRecord.id resource)
            (Some (Page.url page))
            (IndexRecord.bookmarked resource)
            (IndexRecord.viewCounts resource)
            (IndexRecord.createdAt resource)
            (IndexRecord.createdBy resource)
            (Some now)
            (Some userId))
        else ret resource in
      untyped_call "refresh" userId resource ;;
      ret true
  end.

Definition refresh (userId resourceId : string) : M bool :=
  let* resource := getResource resourceId in
  match resource with
  | None => ret false
  | Some (Fields resource) => refresh_fields userId resource
  | Some (Summary resource) =>
      let* currentPage := PAGE_get (ResourceSummary.url resource) in
      let* updatedPage :=
        call (fun e =>
          scrapeHTML e (ResourceSummary.url resource) (USER_AGENT e)) in
      let* pageMetadata :=
        call (fun e => getPageDetails e (ResourceSummary.url resource)) in
      let* isSafe := checkSafe (ResourceSummary.url resource) in
      let* now := Date_now in
      let page :=
        spread updatedPage pageMetadata isSafe
          (match currentPage with
           | Some currentPage => Page.createdAt currentPage
           | None => ResourceSummary.createdAt resource
           end)
          now in
      PAGE_put (Page.url page) page ;;
      let* resource :=
        if negb (String.eqb (ResourceSummary.url resource) (Page.url page))
        then
          PAGE_put (ResourceSummary.url resource) page ;;
          ret (ResourceSummary.mk
            (ResourceSummary.id resource)
            (Page.url page)
            (ResourceSummary.bookmarked resource)
            (ResourceSummary.viewCounts resource)
            (ResourceSummary.createdAt resource)
            (ResourceSummary.createdBy resource)
            now
            userId)
        else ret resource in
      updateResource resource (Some page) ;;
      ret true
  end.

Definition getDetails (resourceId : option string) : M (option Found) :=
  let* resource := getResourceOrNull resourceId in
  match resource with
  | None => ret None
  | Some (Summary resource) =>
      detached (updateResourceCache resource None) ;;
      ret (Some (Summary resource))
  | Some (Fields resource) =>
      detached (untyped_call "getDetails" "" resource) ;;
      ret (Some (Fields resource))
  end.

Definition view (resourceId : option string) : M bool :=
  let* resource := getResourceOrNull resourceId in
  match resource with
  | None => ret false
  | Some (Fields resource) =>
      detached (untyped_call "view" "" resource) ;;
      ret true
  | Some (Summary resource) =>
      detached (updateResource
        (ResourceSummary.mk
          (ResourceSummary.id resource)
          (ResourceSummary.url resource)
          (ResourceSummary.bookmarked resource)
          (ResourceSummary.viewCounts resource + 1)
          (ResourceSummary.createdAt resource)
          (ResourceSummary.createdBy resource)
          (ResourceSummary.updatedAt resource)
          (ResourceSummary.updatedBy resource))
        None) ;;
      ret true
  end.

(** An array value together with its identity: the array the stored record
    holds ([resource.bookmarked]) or one allocated by [concat] or [filter].
    [!==] on arrays compares identities. *)
Inductive ArrayRef := StoredArray | FreshArray.

Definition same_array (a b : ArrayRef) : bool :=
  match a, b with
  | StoredArray, StoredArray => true
  | _, _ => false
  end.

Definition with_bookmarked (resource : ResourceSummary.t)
    (bookmarked : list string) : ResourceSummary.t :=
  ResourceSummary.mk
    (ResourceSummary.id resource)
    (ResourceSummary.url resource)
    bookmarked
    (ResourceSummary.viewCounts resource)
    (ResourceSummary.createdAt resource)
    (ResourceSummary.createdBy resource)
    (ResourceSummary.updatedAt resource)
    (ResourceSummary.updatedBy resource).

(** The array [bookmark] ends up with. *)
Definition bookmark_array (userId : string) (stored : list string)
    : ArrayRef * list string :=
  let bookmarked := (StoredArray, stored) in
  if negb (includes userId (snd bookmarked))
  then (FreshArray, (snd bookmarked ++ [userId])%list)
  else bookmarked.

(** The array [unbookmark] ends up with. *)
Definition unbookmark_array (userId : string) (stored : list string)
    : ArrayRef * list string :=
  let bookmarked := (StoredArray, stored) in
  if includes userId (snd bookmarked)
  then (FreshArray,
        List.filter (fun id => negb (String.eqb id userId)) (snd bookmarked))
  else bookmarked.

(** [bookmark] after its null test, on an object built from an index blob:
    [resource.bookmarked] is undefined, and then [[]] takes its place, or a
    string, on which [includes] and [concat] are those of strings and [!==]
    compares values. *)
Definition bookmark_fields (userId : string) (resource : IndexRecord.t)
    : M bool :=
  match IndexRecord.bookmarked resource with
  | None => detached (untyped_call "bookmark" userId resource) ;; ret true
  | Some text =>
      let bookmarked :=
        if negb (String_includes userId text) then text +:+ userId
        else text in
      (if negb (String.eqb bookmarked text)
       then detached (untyped_call "bookmark" userId resource)
       else ret tt) ;;
      ret true
  end.

(** [unbookmark] likewise; a string has no [filter]. *)
Definition unbookmark_fields (userId : string) (resource : IndexRecord.t)
    : M bool :=
  match IndexRecord.bookmarked resource with
  | None => detached (untyped_call "unbookmark" userId resource) ;; ret true
  | Some text =>
      if String_includes userId text
      then throw (ThrownError "bookmarked.filter is not a function")
      else ret true
  end.

Definition bookmark (userId : string) (resourceId : option string)
    : M bool :=
  let* resource := getResourceOrNull resourceId in
  match resource with
  | None => ret false
  | Some (Fields resource) => bookmark_fields userId resource
  | Some (Summary resource) =>
      let bookmarked :=
        bookmark_array userId (ResourceSummary.bookmarked resource) in
      (if negb (same_array (fst bookmarked) StoredArray)
       then detached
              (updateResource (with_bookmarked resource (snd bookmarked)) None)
       else ret tt) ;;
      ret true
  end.

Definition unbookmark (userId : string) (resourceId : option string)
    : M bool :=
  let* resource := getResourceOrNull resourceId in
  match resource with
  | None => ret false
  | Some (Fields resource) => unbookmark_fields userId resource
  | Some (Summary resource) =>
      let bookmarked :=
        unbookmark_array userId (ResourceSummary.bookmarked resource) in
      (if negb (same_array (fst bookmarked) StoredArray)
       then detached
              (updateResource (with_bookmarked resource (snd bookmarked)) None)
       else ret tt) ;;
      ret true
  end.

(** [createResourceStore]: the two indices read from storage, an empty
    dictionary standing in for a missing one. *)
Definition createResourceStore
    : M (gmap string string * gmap string string) :=
  let* resourceIdByURL := storage_get_index_URL in
  let* resourceIdByPackageName := storage_get_index_PackageName in
  ret (default ∅ resourceIdByURL, default ∅ resourceIdByPackageName).

(** [this.store = await createResourceStore(state, env)] *)
Definition initialise : M unit :=
  let* store := createResourceStore in
  modify (set_store (fst store) (snd store)).

(** ** The class ResourcesStore *)

(** The state right after the constructor ran on a given storage. *)
Definition ResourcesStore (e : Env) (st : Storage) (pages : gmap string Page.t)
    (content : gmap string (Resource.t * ResourceMetadata.t)) : Sys :=
  snd (initialise e (mkSys st pages content false ∅ ∅ [] 0 0)).

Definition OK : Response := mkResponse (Text "OK") 200.

(** The body of the [try] block of [fetch]; its value is the final value of
    the variable [response]. *)
Definition handle (request : Request) : M Response :=
  let response := mkResponse (Text "Not found") 404 in
  let pathname := req_pathname request in
  let method := req_method request in
  let* ready := gets store_ready in
  if negb ready then throw (ThrownError "")
  else if String.eqb pathname "/submit" && String.eqb method "POST" then
    let* j := call (fun _ => req_json request) in
    let* result := submit (json_userId j) (json_url j) in
    ret (mkResponse (JsonSubmission (fst result) (snd result)) 201)
  else if String.eqb pathname "/refresh" && String.eqb method "POST" then
    let* j := call (fun _ => req_json request) in
    let* success := refresh (json_userId j) (json_resourceId j) in
    ret (if success : bool then OK else response)
  else if String.eqb pathname "/details" && String.eqb method "GET" then
    let* resource := getDetails (req_resourceId request) in
    ret (match resource with
         | Some (Summary resource) => mkResponse (JsonSummary resource) 200
         | Some (Fields resource) => mkResponse (JsonFields resource) 200
         | None => response
         end)
  else if String.eqb pathname "/view" && String.eqb method "PUT" then
    let* j := call (fun _ => req_json request) in
    let* success := view (Some (json_resourceId j)) in
    ret (if success : bool then OK else response)
  else if String.eqb pathname "/bookmark" && String.eqb method "PUT" then
    let* j := call (fun _ => req_json request) in
    let* success := bookmark (json_userId j) (Some (json_resourceId j)) in
    ret (if success : bool then OK else response)
  else if String.eqb pathname "/bookmark" && String.eqb method "DELETE" then
    let* j := call (fun _ => req_json request) in
    let* success := unbookmark (json_userId j) (Some (json_resourceId j)) in
    ret (if success : bool then OK else response)
  else if String.eqb pathname "/backup" && String.eqb method "POST" then
    let* data := storage_list in
    ret (mkResponse (JsonEntries data) 200)
  else if String.eqb pathname "/restore" && String.eqb method "POST" then
    let* j := call (fun _ => req_json request) in
    storage_put_entries (json_entries j) ;;
    initialise ;;
    ret OK
  else ret response.

Definition InternalServerError : Response :=
  mkResponse (Text "Internal Server Error") 500.

(** The message [fetch] logs for an Error. *)
Definition failure_message (request : Request) (message : string) : string :=
  "ResourcesStore failed while handling fetch - " +:+ req_url request
  +:+ "; Received message: " +:+ message.

(** The catch clause of [fetch]. *)
Definition on_exception (request : Request) (e : Thrown) : M Response :=
  match e with
  | ThrownError message =>
      modify (emit (LoggerError e)) ;;
      modify (emit (LoggerLog (failure_message request message)))
  | ThrownValue _ => ret tt
  end ;;
  ret InternalServerError.

Definition fetch (request : Request) : M Response :=
  let* response := try_catch (handle request) (on_exception request) in
  modify (emit (LoggerReport response)) ;;
  ret response.

(** ** Running the model *)

(** The value and the final state of a computation. *)
Definition value {A} (m : M A) (e : Env) (s : Sys) : Result A := fst (m e s).
Definition run {A} (m : M A) (e : Env) (s : Sys) : Sys := snd (m e s).

(** Calls of [submit] by several users, one after the other. *)
Fixpoint submit_each (users : list string) (url : string) (e : Env) (s : Sys)
    : list (Result (option string * SubmissionStatus)) * Sys :=
  match users with
  | [] => ([], s)
  | userId :: users =>
      let r := submit userId url e s in
      let rs := submit_each users url e (snd r) in
      (fst r :: fst rs, snd rs)
  end.


(** The actor serving a sequence of requests, each in its environment. *)
Fixpoint serve (requests : list (Env * Request)) (s : Sys) : Sys :=
  match requests with
  | [] => s
  | (e, request) :: requests => serve requests (run (fetch request) e s)
  end.

(** ** Notions used in the statements *)

(** What an operation may not touch: the durable storage, the two
    in-memory indices and the content store. *)
Definition same_records (s s' : Sys) : Prop :=
  storage s' = storage s /\
  resourceIdByURL s' = resourceIdByURL s /\
  resourceIdByPackageName s' = resourceIdByPackageName s /\
  CONTENT s' = CONTENT s.

(** [resolves_to e url u pages]: with the page store [pages], [submit]
    works for [url] with a page whose own URL is [u]: either such a page is
    stored for [url], or none is and the scraper and the page details yield
    one. *)
Definition resolves_to (e : Env) (url u : string)
    (pages : gmap string Page.t) : Prop :=
  (exists page, pages !! url = Some page /\ Page.url page = u) \/
  (pages !! url = None /\
   exists page details isSafe,
     scrapeHTML e url (USER_AGENT e) = Ok page /\
     getPageDetails e (Page.url page) = Ok details /\
     safeBrowsing e (Page.url page) = Ok isSafe /\
     default (Page.url page) (PageDetails.url details) = u).

(** The summary [createResource] stores for a page. *)
Definition newSummary (e : Env) (s : Sys) (page : Page.t) (userId : string)
    : ResourceSummary.t :=
  ResourceSummary.mk (generateId e (nonce s)) (Page.url page) [] 0
    (toISOString e (clock s)) userId (toISOString e (clock s)) userId.


(** The page [refresh] builds for a stored summary from what the scraper,
    the page details and the safety check answer. *)
Definition refreshedPage (e : Env) (s : Sys) (r : ResourceSummary.t)
    (updatedPage : Page.t) (pageMetadata : PageDetails.t) (isSafe : bool)
    : Page.t :=
  spread updatedPage pageMetadata isSafe
    (match PAGE s !! ResourceSummary.url r with
     | Some currentPage => Page.createdAt currentPage
     | None => ResourceSummary.createdAt r
     end)
    (toISOString e (clock s)).

(** The summary [refresh] stores: the old one, or, when the page's URL
    differs from the summary's, the old one with [url], [updatedAt] and
    [updatedBy] replaced. *)
Definition refreshedSummary (r : ResourceSummary.t) (page : Page.t)
    (now userId : string) : ResourceSummary.t :=
  if String.eqb (ResourceSummary.url r) (Page.url page) then r
  else
    ResourceSummary.mk
      (ResourceSummary.id r)
      (Page.url page)
      (ResourceSummary.bookmarked r)
      (ResourceSummary.viewCounts r)
      (ResourceSummary.createdAt r)
      (ResourceSummary.createdBy r)
      now
      userId.

(** Every entry of the content store carries the metadata computed from
    its own Resource. *)
Definition sidecars_derived
    (content : gmap string (Resource.t * ResourceMetadata.t)) : Prop :=
  forall key resource metadata,
    content !! key = Some (resource, metadata) ->
    metadata = mkMetadata resource.

(** [keeps Q m]: running [m] keeps the property [Q] of the content store,
    whether [m] returns or throws. *)
Definition keeps {A}
    (Q : gmap string (Resource.t * ResourceMetadata.t) -> Prop)
    (m : M A) : Prop :=
  forall e s, Q (CONTENT s) -> Q (CONTENT (snd (m e s))).

(** An effect is a log entry of an exception. *)
Definition is_error_log (x : Effect) : bool :=
  match x with
  | LoggerError _ | LoggerLog _ => true
  | _ => false
  end.

Definition empty_storage : Storage := mkStorage ∅ None None.

(** The dump a request carries (restore). *)
Definition dump_of (request : Request) : Storage :=
  match req_json request with
  | Ok j => json_entries j
  | Throw _ => empty_storage
  end.

(** The invariants of the data model: every summary is stored under its own
    id and its [bookmarked] list has no duplicate. *)
Definition summaries_wf (m : gmap string ResourceSummary.t) : Prop :=
  forall k r, m !! k = Some r ->
    ResourceSummary.id r = k /\ NoDup (ResourceSummary.bookmarked r).

(** A well-formed state of a constructed actor: well-formed summaries, and
    in-memory indices that are the ones storage holds. *)
Definition well_formed (s : Sys) : Prop :=
  summaries_wf (summaries (storage s)) /\
  resourceIdByURL s = default ∅ (index_URL (storage s)) /\
  resourceIdByPackageName s = default ∅ (index_PackageName (storage s)).

(** ** Concrete deployments, used to run the model *)

(** A platform that rejects what is not of the declared type, and one that
    takes it. *)
Definition rejects_untyped : string -> string -> IndexRecord.t -> Result unit :=
  fun _ _ _ => Throw (ThrownError "Invalid argument").


Definition docs_url : string := "https://remix.run/docs".

Definition docs_page : Page.t :=
  Page.mk docs_url "others" None "Remix Docs"
    (Some "Documentation of Remix") None None true None None "" "".

Definition no_details : PageDetails.t :=
  PageDetails.mk None None None None None None None None None.

Definition ids (n : nat) : string :=
  match n with
  | O => "Xk3v9QmT2LpA"
  | _ => "b7RzW0cYh5Ns"
  end.

Definition env0 : Env :=
  mkEnv "remix-guide" None
    (fun _ _ => Ok docs_page)
    (fun _ => Ok no_details)
    (fun _ _ => Ok true)
    (fun _ _ _ => [])
    (fun _ _ => [])
    ids
    (fun _ => "2022-01-01T00:00:00.000Z")
    rejects_untyped.


(** A freshly constructed actor on empty stores. *)
Definition sys0 : Sys := ResourcesStore env0 empty_storage ∅ ∅.

(** The actor after userA submitted the docs URL. *)
Definition sys1 : Sys := run (submit "userA" docs_url) env0 sys0.

(** The page [submit] stores for the docs URL in [sys0]. *)
Definition docs_loaded : Page.t :=
  spread docs_page no_details true
    "2022-01-01T00:00:00.000Z" "2022-01-01T00:00:00.000Z".

(** The summary stored in [sys1]. *)
Definition docs_summary : ResourceSummary.t :=
  ResourceSummary.mk "Xk3v9QmT2LpA" docs_url [] 0
    "2022-01-01T00:00:00.000Z" "userA" "2022-01-01T00:00:00.000Z" "userA".

(** Another address of the docs page; the scraper resolves it to the docs
    URL. *)
Definition alias_url : string := "https://remix.run/docs/".

(** A deployment with a Safe Browsing key whose check flags every URL. *)
Definition env_flagged : Env :=
  mkEnv "remix-guide" (Some "key")
    (fun _ _ => Ok docs_page)
    (fun _ => Ok no_details)
    (fun _ _ => Ok false)
    (fun _ _ _ => [])
    (fun _ _ => [])
    ids
    (fun _ => "2022-02-02T00:00:00.000Z")
    rejects_untyped.

(** The docs page as scraped while the check flags it. *)
Definition docs_scraped_flagged : Page.t :=
  spread docs_page no_details false
    "2022-02-02T00:00:00.000Z" "2022-02-02T00:00:00.000Z".

(** The actor after the docs resource was published and then refreshed
    while the check flags its URL. *)
Definition sys_flagged : Sys :=
  run (refresh "userA" "Xk3v9QmT2LpA") env_flagged sys1.

(** The page the page store then holds for the docs URL. *)
Definition docs_flagged : Page.t :=
  spread docs_page no_details false
    "2022-01-01T00:00:00.000Z" "2022-02-02T00:00:00.000Z".

(** A deployment in which the docs page has moved to a new URL. *)
Definition moved_url : string := "https://remix.run/docs/en/v1".

Definition moved_page : Page.t :=
  Page.mk moved_url "others" None "Remix Docs"
    (Some "Documentation of Remix") None None true None None "" "".

Definition env_moved : Env :=
  mkEnv "remix-guide" None
    (fun _ _ => Ok moved_page)
    (fun _ => Ok no_details)
    (fun _ _ => Ok true)
    (fun _ _ _ => [])
    (fun _ _ => [])
    ids
    (fun _ => "2022-03-03T00:00:00.000Z")
    rejects_untyped.

(** Requests as the facade sends them. *)
Definition no_body : Result Json :=
  Throw (ThrownError "Unexpected end of JSON input").

Definition json_of (url userId resourceId : string) : Result Json :=
  Ok (mkJson url userId resourceId empty_storage).

Definition submit_request (userId url : string) : Request :=
  mkRequest "http://resources/submit" "/submit" None "POST"
    (json_of url userId "").

Definition details_request (resourceId : string) : Request :=
  mkRequest ("http://resources/details?resourceId=" +:+ resourceId)
    "/details" (Some resourceId) "GET" no_body.

Definition backup_request : Request :=
  mkRequest "http://resources/backup" "/backup" None "POST" no_body.

Definition restore_request (data : Storage) : Request :=
  mkRequest "http://resources/restore" "/restore" None "POST"
    (Ok (mkJson "" "" "" data)).

(** A dump taken from another deployment: one summary whose URL the page
    store of this deployment does not know. *)
Definition foreign_summary : ResourceSummary.t :=
  ResourceSummary.mk "Qw8eRt1yUi2o" "https://example.com/guide" ["userC"] 7
    "2021-12-01T00:00:00.000Z" "userC" "2021-12-01T00:00:00.000Z" "userC".

Definition foreign_dump : Storage :=
  mkStorage {["Qw8eRt1yUi2o" := foreign_summary]} None None.

(** The fresh actor after that dump was restored into it. *)
Definition sys_restored : Sys :=
  run (fetch (restore_request foreign_dump)) env0 sys0.

(** A deployment whose scraper rejects with a value that is not an Error. *)
Definition env_rejecting : Env :=
  mkEnv "remix-guide" None
    (fun _ _ => Throw (ThrownValue "timeout"))
    (fun _ => Ok no_details)
    (fun _ _ => Ok true)
    (fun _ _ _ => [])
    (fun _ _ => [])
    ids
    (fun _ => "2022-01-01T00:00:00.000Z")
    rejects_untyped.

(** A deployment whose scraper rejects with an Error. *)
Definition env_down : Env :=
  mkEnv "remix-guide" None
    (fun _ _ => Throw (ThrownError "connection refused"))
    (fun _ => Ok no_details)
    (fun _ _ => Ok true)
    (fun _ _ _ => [])
    (fun _ _ => [])
    ids
    (fun _ => "2022-01-01T00:00:00.000Z")
    rejects_untyped.

(** An actor whose store was never created ([this.store] is null). *)
Definition sys_null : Sys := mkSys empty_storage ∅ ∅ false ∅ ∅ [] 0 0.

(** ** Further notions, for the properties beyond the specification *)

(** The two in-memory indices and the two index blobs of storage. *)
Definition same_indices (s s' : Sys) : Prop :=
  resourceIdByURL s' = resourceIdByURL s /\
  resourceIdByPackageName s' = resourceIdByPackageName s /\
  index_URL (storage s') = index_URL (storage s) /\
  index_PackageName (storage s') = index_PackageName (storage s).

(** The test [url.pathname === path && method === m] of [fetch]. *)
Definition is_route (path method : string) (request : Request) : bool :=
  String.eqb (req_pathname request) path
  && String.eqb (req_method request) method.

(** The request matches one of the eight routes of [fetch]. *)
Definition routed (request : Request) : bool :=
  is_route "/submit" "POST" request
  || is_route "/refresh" "POST" request
  || is_route "/details" "GET" request
  || is_route "/view" "PUT" request
  || is_route "/bookmark" "PUT" request
  || is_route "/bookmark" "DELETE" request
  || is_route "/backup" "POST" request
  || is_route "/restore" "POST" request.

(** The request matches a route whose handler parses the body. *)
Definition needs_body (request : Request) : bool :=
  is_route "/submit" "POST" request
  || is_route "/refresh" "POST" request
  || is_route "/view" "PUT" request
  || is_route "/bookmark" "PUT" request
  || is_route "/bookmark" "DELETE" request
  || is_route "/restore" "POST" request.

(** The response [fetch] starts with. *)
Definition NotFound : Response := mkResponse (Text "Not found") 404.

(** The state after [fetch] returned [response] without an exception. *)
Definition reported (response : Response) (s : Sys) : Sys :=
  emit (LoggerReport response) s.

(** The rejection [submit] meets when it has to scrape [url], if any: of
    the scraper, else of the page details, else of the safety check. *)
Definition submit_rejection (e : Env) (url : string) : option Thrown :=
  match scrapeHTML e url (USER_AGENT e) with
  | Throw x => Some x
  | Ok page =>
      match getPageDetails e (Page.url page) with
      | Throw x => Some x
      | Ok _ =>
          match safeBrowsing e (Page.url page) with
          | Throw x => Some x
          | Ok _ => None
          end
      end
  end.

(** The rejection [refresh] meets for a summary's URL, if any. *)
Definition refresh_rejection (e : Env) (url : string) : option Thrown :=
  match scrapeHTML e url (USER_AGENT e) with
  | Throw x => Some x
  | Ok _ =>
      match getPageDetails e url with
      | Throw x => Some x
      | Ok _ =>
          match safeBrowsing e url with
          | Throw x => Some x
          | Ok _ => None
          end
      end
  end.


(** [bookmarked.filter((id) => id !== userId)] *)
Definition without (userId : string) (bookmarked : list string) : list string :=
  List.filter (fun id => negb (String.eqb id userId)) bookmarked.

(** Every id the URL index holds has a stored summary. *)
Definition index_backed (s : Sys) : Prop :=
  forall u id, resourceIdByURL s !! u = Some id ->
    is_Some (summaries (storage s) !! id).

(** A dump whose URL index, if it has one, only holds ids of summaries of
    the dump. *)
Definition dump_backed (data : Storage) : Prop :=
  forall index u id,
    index_URL data = Some index -> index !! u = Some id ->
    is_Some (summaries data !! id).

(** What a dump must satisfy for a restore to keep the invariants. *)
Definition dump_ok (data : Storage) : Prop :=
  summaries_wf (summaries data) /\ dump_backed data.

(** The invariants of a running actor. *)
Definition consistent (s : Sys) : Prop := well_formed s /\ index_backed s.

(** A deployment whose scraper finds an npm package. *)
Definition package_url : string := "https://www.npmjs.com/package/remix-auth".

Definition package_page : Page.t :=
  Page.mk package_url "package" (Some "sergiodxa") "remix-auth"
    (Some "Simple Authentication for Remix") None None true
    (Some [("react", "^17.0.2")]) (Some []) "" "".

Definition env_package : Env :=
  mkEnv "remix-guide" None
    (fun _ _ => Ok package_page)
    (fun _ => Ok no_details)
    (fun _ _ => Ok true)
    (fun _ _ _ => [])
    (fun _ _ => [])
    ids
    (fun _ => "2022-01-01T00:00:00.000Z")
    rejects_untyped.

(** The package page as [submit] stores it in [sys0]. *)
Definition package_loaded : Page.t :=
  spread package_page no_details true
    "2022-01-01T00:00:00.000Z" "2022-01-01T00:00:00.000Z".



(** ** The facade: createStore

    The store object of the first part of the source file, which talks to
    the actor through [resourcesStore.fetch].  Its methods [submit],
    [refresh], [view], [bookmark], [unbookmark], [backupResources] and
    [restoreResources] are embedded.  The cache module and the user store
    live outside the file: of the cache, the calls of [removeCache] are
    recorded; the methods of the user store are answers of the bindings. *)

(** What the worker is bound to. *)
Record Bindings := mkBindings {
  (** the environment the actor runs in *)
  actorEnv : Env;
  (** [env.LOGGER] is defined *)
  LOGGER : bool;
  (** [getUserStore(env, userId).view(userId, resourceId)] *)
  userStore_view : string -> string -> Result unit;
  userStore_bookmark : string -> string -> Result unit;
  userStore_unbookmark : string -> string -> Result unit;
  (** [response.statusText], which the runtime chooses: the source sets
      none *)
  statusText : Response -> string;
}.

(** The state the facade works on: the actor behind [resourcesStore], the
    keys [removeCache] was called with and the values [env.LOGGER.error]
    was called with, latest first. *)
Record World := mkWorld {
  actor : Sys;
  removed : list string;
  logged : list Thrown;
}.

Definition F (A : Type) : Type := Bindings -> World -> Result A * World.

Definition fret {A} (a : A) : F A := fun _ w => (Ok a, w).

Definition fbind {A B} (m : F A) (k : A -> F B) : F B :=
  fun b w =>
    match m b w with
    | (Ok a, w') => k a b w'
    | (Throw x, w') => (Throw x, w')
    end.

Definition fthrow {A} (x : Thrown) : F A := fun _ w => (Throw x, w).

Notation "'let+' x ':=' m 'in' k" := (fbind m (fun x => k))
  (at level 10, x name, m at level 100, k at level 200).
Notation "m ';;+' k" := (fbind m (fun _ => k))
  (at level 100, k at level 200, right associativity).

(** [try { ... } catch (e) { env.LOGGER?.error(e); throw e; }] *)
Definition logging {A} (m : F A) : F A :=
  fun b w =>
    match m b w with
    | (Ok a, w') => (Ok a, w')
    | (Throw x, w') =>
        (Throw x,
         if LOGGER b then mkWorld (actor w') (removed w') (x :: logged w')
         else w')
    end.

(** [ctx.waitUntil(promise)]: the promise runs, its outcome is dropped. *)
Definition waitUntil {A} (m : F A) : F unit :=
  fun b w => (Ok tt, snd (m b w)).

(** [removeCache(key)] *)
Definition removeCache (key : string) : F unit :=
  fun _ w => (Ok tt, mkWorld (actor w) (key :: removed w) (logged w)).

(** [resourcesStore.fetch(url, init)] *)
Definition resourcesStore_fetch (request : Request) : F Response :=
  fun b w =>
    let r := fetch request (actorEnv b) (actor w) in
    (fst r, mkWorld (snd r) (removed w) (logged w)).

(** A property of the bindings. *)
Definition fasks {A} (f : Bindings -> A) : F A := fun b w => (Ok (f b), w).

(** A call of the user store. *)
Definition userStore (f : Bindings -> Result unit) : F unit :=
  fun b w => (f b, w).

(** [response.ok] *)
Definition ok (response : Response) : bool :=
  Nat.leb 200 (status response) && Nat.leb (status response) 299.

(** [const { id, status } = await response.json()]; the actor answers
    /submit with a submission or with the text of the 500 response, other
    bodies do not occur there. *)
Definition submission_of (response : Response)
    : F (option string * SubmissionStatus) :=
  match body response with
  | JsonSubmission id status => fret (id, status)
  | _ => fthrow (ThrownError "Unexpected token in JSON")
  end.

(** [await response.json()] for the answer of /backup. *)
Definition entries_of (response : Response) : F Storage :=
  match body response with
  | JsonEntries data => fret data
  | _ => fthrow (ThrownError "Unexpected token in JSON")
  end.

(** [`${response.status} ${response.statusText}`] *)
Definition statusLine (response : Response) : F string :=
  fasks (fun b =>
    pretty (status response) +:+ " " +:+ statusText b response).

(** [`users/${userId}`] for [string | null] *)
Definition users_key (userId : option string) : string :=
  "users/" +:+ match userId with
               | Some userId => userId
               | None => "null"
               end.

Module Store.

Definition submit (url userId : string)
    : F (option string * SubmissionStatus) :=
  logging (
    let+ response :=
      resourcesStore_fetch
        (mkRequest "http://resources/submit" "/submit" None "POST"
           (Ok (mkJson url userId "" empty_storage))) in
    if negb (ok response)
    then fthrow (ThrownError "Fail submitting the resource")
    else
      let+ result := submission_of response in
      match snd result with
      | PUBLISHED => waitUntil (removeCache "resources")
      | _ => fret tt
      end ;;+
      fret result).

Definition refresh (userId resourceId : string) : F unit :=
  logging (
    let+ response :=
      resourcesStore_fetch
        (mkRequest "http://resources/refresh" "/refresh" None "POST"
           (Ok (mkJson "" userId resourceId empty_storage))) in
    if negb (ok response)
    then fthrow (ThrownError
           "Refresh failed; Resource is not updated on the ResourcesStore")
    else waitUntil (removeCache ("resources/" +:+ resourceId))).

Definition view (userId : option string) (resourceId : string) : F unit :=
  logging (
    match userId with
    | Some userId =>
        if truthy userId
        then userStore (fun b => userStore_view b userId resourceId)
        else fret tt
    | None => fret tt
    end ;;+
    waitUntil (removeCache (users_key userId)) ;;+
    waitUntil
      (resourcesStore_fetch
         (mkRequest "http://resources/view" "/view" None "PUT"
            (Ok (mkJson "" "" resourceId empty_storage))))).

Definition bookmark (userId resourceId : string) : F unit :=
  logging (
    userStore (fun b => userStore_bookmark b userId resourceId) ;;+
    waitUntil (removeCache (users_key (Some userId))) ;;+
    waitUntil
      (resourcesStore_fetch
         (mkRequest "http://resources/bookmark" "/bookmark" None "PUT"
            (Ok (mkJson "" userId resourceId empty_storage))))).

Definition unbookmark (userId resourceId : string) : F unit :=
  logging (
    userStore (fun b => userStore_unbookmark b userId resourceId) ;;+
    waitUntil (removeCache (users_key (Some userId))) ;;+
    waitUntil
      (resourcesStore_fetch
         (mkRequest "http://resources/bookmark" "/bookmark" None "DELETE"
            (Ok (mkJson "" userId resourceId empty_storage))))).

Definition backupResources : F Storage :=
  logging (
    let+ response :=
      resourcesStore_fetch
        (mkRequest "http://resources/backup" "/backup" None "POST" no_body) in
    if negb (ok response)
    then
      let+ line := statusLine response in
      fthrow (ThrownError
        ("Backup resources failed; ResourcesStore rejected with " +:+ line))
    else entries_of response).

Definition restoreResources (data : Storage) : F unit :=
  logging (
    let+ response :=
      resourcesStore_fetch
        (mkRequest "http://resources/restore" "/restore" None "POST"
           (Ok (mkJson "" "" "" data))) in
    if negb (ok response)
    then
      let+ line := statusLine response in
      fthrow (ThrownError
        ("Restore resources failed; ResourcesStore rejected with " +:+ line))
    else fret tt).

End Store.

(** The bindings of the concrete deployment. *)
Definition bindings0 : Bindings :=
  mkBindings env0 true
    (fun _ _ => Ok tt) (fun _ _ => Ok tt) (fun _ _ => Ok tt)
    (fun _ => "").

(** Bindings whose user store rejects. *)
Definition bindings_rejecting : Bindings :=
  mkBindings env0 true
    (fun _ _ => Throw (ThrownError "user store unavailable"))
    (fun _ _ => Throw (ThrownError "user store unavailable"))
    (fun _ _ => Throw (ThrownError "user store unavailable"))
    (fun _ => "").

(** The facade over the freshly constructed actor, and over the actor that
    holds the docs resource. *)
Definition world0 : World := mkWorld sys0 [] [].
Definition world1 : World := mkWorld sys1 [] [].

(** The requests the facade sends for view, bookmark and unbookmark. *)
Definition view_request (resourceId : string) : Request :=
  mkRequest "http://resources/view" "/view" None "PUT"
    (Ok (mkJson "" "" resourceId empty_storage)).

Definition bookmark_request (method userId resourceId : string) : Request :=
  mkRequest "http://resources/bookmark" "/bookmark" None method
    (Ok (mkJson "" userId resourceId empty_storage)).

(** * Properties *)

(** ** Basic facts *)

Create HintDb exec.
#[local] Hint Unfold bind ret throw gets modify call asks try_catch detached
  storage_get storage_get_index_URL storage_get_index_PackageName
  storage_put storage_put_index_URL storage_put_index_PackageName
  storage_list storage_put_entries PAGE_get PAGE_put CONTENT_put
  Date_now newId checkSafe value run stored untyped_call
  refresh_fields bookmark_fields unbookmark_fields : exec.

(** Unfolds the monad and the primitive operations. *)
Ltac exec := repeat autounfold with exec in *.

(** Splits on every [match] that is left and closes what is immediate. *)
Ltac cases :=
  repeat case_match;
  repeat match goal with
  | H : _ <$> _ = Some _ |- _ => apply fmap_Some in H as (? & ? & ?)
  | H : _ <$> _ = None |- _ => apply fmap_None in H
  end;
  simplify_eq; cbn in *.

Lemma truthy_length (s : string) : String.length s = 12%nat -> truthy s = true.
Proof. destruct s; [discriminate | reflexivity]. Qed.

Lemma same_records_refl s : same_records s s.
Proof. repeat split. Qed.

Lemma same_records_trans s1 s2 s3 :
  same_records s1 s2 -> same_records s2 s3 -> same_records s1 s3.
Proof.
  intros (A1 & A2 & A3 & A4) (B1 & B2 & B3 & B4).
  repeat split; congruence.
Qed.

(** [loadPage] writes to the page store only. *)
Lemma loadPage_frame url e s r s1 :
  loadPage url e s = (r, s1) ->
  same_records s s1 /\ store_ready s1 = store_ready s /\ nonce s1 = nonce s.
Proof.
  unfold loadPage. exec. intros H. cases; repeat split.
Qed.

(** The two ways [loadPage] yields a page. *)
Lemma loadPage_inv url e s page s1 :
  loadPage url e s = (Ok page, s1) ->
  (PAGE s !! url = Some page /\ s1 = s) \/
  (PAGE s !! url = None /\
   exists p0 d b,
     scrapeHTML e url (USER_AGENT e) = Ok p0 /\
     getPageDetails e (Page.url p0) = Ok d /\
     safeBrowsing e (Page.url p0) = Ok b /\
     page = spread p0 d b (toISOString e (clock s)) (toISOString e (clock s)) /\
     PAGE s1 = <[Page.url page := page]> (PAGE s)).
Proof.
  unfold loadPage. exec. intros H. cases.
  - left. split; reflexivity.
  - right. split; [reflexivity|]. eexists _, _, _. repeat split; eauto.
Qed.

(** ** submit, case by case *)

Lemma submit_throws userId url e s x s1 :
  loadPage url e s = (Throw x, s1) ->
  submit userId url e s = (Throw x, s1).
Proof. intros H. unfold submit, bind. rewrite H. reflexivity. Qed.

(** A URL that the index knows: the registered id comes back. *)
Lemma submit_indexed userId url e s page s1 id :
  loadPage url e s = (Ok page, s1) ->
  resourceIdByURL s !! Page.url page = Some id ->
  truthy id = true ->
  submit userId url e s = (Ok (Some id, RESUBMITTED), s1).
Proof.
  intros H Hid Ht. destruct (loadPage_frame _ _ _ _ _ H) as ((_ & Hi & _) & _).
  unfold submit, bind. rewrite H. exec. rewrite Hi, Hid. cbn. rewrite Ht.
  reflexivity.
Qed.

(** An unsafe page whose URL the index does not know: nothing is created. *)
Lemma submit_unsafe_fresh userId url e s page s1 :
  loadPage url e s = (Ok page, s1) ->
  Page.isSafe page = false ->
  truthy_id (resourceIdByURL s !! Page.url page) = false ->
  submit userId url e s = (Ok (None, INVALID), s1).
Proof.
  intros H Hsafe Hid.
  destruct (loadPage_frame _ _ _ _ _ H) as ((_ & Hi & _) & _).
  unfold submit, bind. rewrite H. exec. rewrite Hi, Hid. cbn.
  unfold createResource. rewrite Hsafe. reflexivity.
Qed.

(** A safe page whose URL the index does not know: one record is created
    and registered. *)
Lemma submit_safe_fresh userId url e s page s1 :
  loadPage url e s = (Ok page, s1) ->
  Page.isSafe page = true ->
  truthy_id (resourceIdByURL s !! Page.url page) = false ->
  truthy (generateId e (nonce s)) = true ->
  let id := generateId e (nonce s) in
  let summary := newSummary e s1 page userId in
  exists sA,
    submit userId url e s = (Ok (Some id, PUBLISHED), sA) /\
    summaries (storage sA) = <[id := summary]> (summaries (storage s)) /\
    resourceIdByURL sA = <[Page.url page := id]> (resourceIdByURL s) /\
    index_URL (storage sA) = Some (resourceIdByURL sA) /\
    PAGE sA = PAGE s1 /\
    CONTENT sA =
      <["resources/" +:+ id :=
          (mkResource summary page
             (integrationsOf e page (Object_keys (resourceIdByPackageName s))),
           mkMetadata (mkResource summary page
             (integrationsOf e page
                (Object_keys (resourceIdByPackageName s)))))]> (CONTENT s) /\
    resourceIdByPackageName sA =
      (if String.eqb (Page.category page) "package"
       then <[Page.title page := id]> (resourceIdByPackageName s)
       else resourceIdByPackageName s) /\
    store_ready sA = store_ready s.
Proof.
  intros H Hsafe Hid Ht id summary.
  destruct (loadPage_frame _ _ _ _ _ H) as ((Hst & Hi & Hp & Hc) & Hr & Hn).
  unfold submit, bind. rewrite H. exec. rewrite Hi, Hid. cbn.
  unfold createResource. rewrite Hsafe. cbn.
  unfold updateResource, updateResourceCache. exec. cbn.
  subst id summary. unfold newSummary. rewrite Hn.
  destruct (String.eqb (Page.category page) "package"); cbn;
    rewrite Ht; cbn; eexists; (split; [reflexivity|]); cbn;
    rewrite ?Hst, ?Hi, ?Hp, ?Hc, ?Hr; repeat split.
Qed.

(** ** Resolving a URL again *)

Lemma loadPage_resolves url e s page s1 :
  loadPage url e s = (Ok page, s1) ->
  resolves_to e url (Page.url page) (PAGE s1).
Proof.
  intros H. destruct (loadPage_inv _ _ _ _ _ H)
    as [[Hp ->]|(Hnone & p0 & d & b & H1 & H2 & H3 & -> & HP)].
  - left. eauto.
  - rewrite HP. cbn.
    destruct (decide (default (Page.url p0) (PageDetails.url d) = url))
      as [Heq|Hne].
    + left. eexists. rewrite Heq, lookup_insert_eq. split; [reflexivity|].
      cbn. exact Heq.
    + right. rewrite lookup_insert_ne by exact Hne. split; [exact Hnone|].
      exists p0, d, b. repeat split; assumption.
Qed.

Lemma resolves_loadPage url u e s :
  resolves_to e url u (PAGE s) ->
  exists page s1, loadPage url e s = (Ok page, s1) /\ Page.url page = u.
Proof.
  intros [(p & Hp & Hu)|(Hnone & p0 & d & b & H1 & H2 & H3 & Hu)];
    unfold loadPage; exec.
  - rewrite Hp. eauto.
  - rewrite Hnone, H1, H2, H3. cbn. eauto.
Qed.

(** A later call for a registered URL: same id, and nothing is created. *)
Lemma resubmit userId url u e s id :
  resolves_to e url u (PAGE s) ->
  resourceIdByURL s !! u = Some id ->
  truthy id = true ->
  exists s1,
    submit userId url e s = (Ok (Some id, RESUBMITTED), s1) /\
    same_records s s1 /\
    resolves_to e url u (PAGE s1).
Proof.
  intros Hres Hid Ht.
  destruct (resolves_loadPage _ _ _ _ Hres) as (page & s1 & Hload & <-).
  exists s1. split; [eapply submit_indexed; eassumption|].
  split; [eapply loadPage_frame; eassumption|].
  eapply loadPage_resolves; eassumption.
Qed.

Lemma resubmit_each users : forall url u e s id,
  resolves_to e url u (PAGE s) ->
  resourceIdByURL s !! u = Some id ->
  truthy id = true ->
  Forall (fun r => r = Ok (Some id, RESUBMITTED))
    (fst (submit_each users url e s)) /\
  same_records s (snd (submit_each users url e s)).
Proof.
  induction users as [|userId users IH]; intros url u e s id Hres Hid Ht; cbn.
  - split; [constructor | apply same_records_refl].
  - destruct (resubmit userId url u e s id Hres Hid Ht)
      as (s1 & Hs & Hsame & Hres1).
    rewrite Hs. cbn.
    assert (Hid1 : resourceIdByURL s1 !! u = Some id).
    { destruct Hsame as (_ & -> & _). exact Hid. }
    destruct (IH url u e s1 id Hres1 Hid1 Ht) as [HF Hs2].
    split; [constructor; [reflexivity | exact HF]|].
    eapply same_records_trans; eassumption.
Qed.

(** ** Deduplicated submission *)

(** C1.  A URL whose page is safe and that is not registered yet is
    submitted by [userA] and then, any number of times, by the users of
    [users] (the same or other ones), the scraper answering the same way
    throughout.  The first call answers PUBLISHED with the generated id and
    creates one summary and one index entry; every later call answers
    RESUBMITTED with that same id, and the later calls leave the durable
    storage (summaries and index blobs), the two in-memory indices and the
    content store as the first call left them. *)
Theorem submit_dedup_idempotent (e : Env) (s : Sys) (userA : string)
    (users : list string) (url : string) (page : Page.t) (s1 : Sys) :
  loadPage url e s = (Ok page, s1) ->
  Page.isSafe page = true ->
  truthy_id (resourceIdByURL s !! Page.url page) = false ->
  String.length (generateId e (nonce s)) = 12%nat ->
  value (submit userA url) e s = Ok (Some (generateId e (nonce s)), PUBLISHED)
  /\ summaries (storage (run (submit userA url) e s)) =
       <[generateId e (nonce s) := newSummary e s1 page userA]>
         (summaries (storage s))
  /\ resourceIdByURL (run (submit userA url) e s) =
       <[Page.url page := generateId e (nonce s)]> (resourceIdByURL s)
  /\ Forall (fun r => r = Ok (Some (generateId e (nonce s)), RESUBMITTED))
       (fst (submit_each users url e (run (submit userA url) e s)))
  /\ same_records (run (submit userA url) e s)
       (snd (submit_each users url e (run (submit userA url) e s))).
Proof.
  intros Hload Hsafe Hfresh Hlen.
  pose proof (truthy_length _ Hlen) as Ht.
  destruct (submit_safe_fresh userA url e s page s1 Hload Hsafe Hfresh Ht)
    as (sA & HsA & Hsum & Hidx & _ & HP & _).
  unfold value, run. rewrite HsA. cbn.
  split; [reflexivity|]. split; [exact Hsum|]. split; [exact Hidx|].
  apply resubmit_each with (u := Page.url page).
  - rewrite HP. eapply loadPage_resolves; eassumption.
  - rewrite Hidx. apply lookup_insert_eq.
  - exact Ht.
Qed.

Lemma submit_dedup_idempotent_witness :
  loadPage docs_url env0 sys0
    = (Ok docs_loaded, run (loadPage docs_url) env0 sys0)
  /\ Page.isSafe docs_loaded = true
  /\ truthy_id (resourceIdByURL sys0 !! Page.url docs_loaded) = false
  /\ String.length (generateId env0 (nonce sys0)) = 12%nat
  /\ value (submit "userA" docs_url) env0 sys0
       = Ok (Some "Xk3v9QmT2LpA", PUBLISHED)
  /\ Forall (fun r => r = Ok (Some "Xk3v9QmT2LpA", RESUBMITTED))
       (fst (submit_each ["userB"; "userA"] docs_url env0 sys1)).
Proof.
  assert (H1 : loadPage docs_url env0 sys0
               = (Ok docs_loaded, run (loadPage docs_url) env0 sys0))
    by (vm_compute; reflexivity).
  assert (H2 : Page.isSafe docs_loaded = true) by reflexivity.
  assert (H3 : truthy_id (resourceIdByURL sys0 !! Page.url docs_loaded)
               = false) by (vm_compute; reflexivity).
  assert (H4 : String.length (generateId env0 (nonce sys0)) = 12%nat)
    by reflexivity.
  pose proof (submit_dedup_idempotent env0 sys0 "userA" ["userB"; "userA"]
                docs_url docs_loaded _ H1 H2 H3 H4) as (R1 & _ & _ & R2 & _).
  repeat split; assumption.
Defined.

(** ** The safety gate *)

(** C2, as the code has it.  A call of [submit] whose page is flagged unsafe
    and whose page URL has no id registered in the URL index answers
    [{id: null, status: INVALID}] and leaves the durable storage, the URL
    index, the package-name index and the content store unchanged. *)
Theorem submit_unsafe_invalid (e : Env) (s : Sys) (userId url : string)
    (page : Page.t) (s1 : Sys) :
  loadPage url e s = (Ok page, s1) ->
  Page.isSafe page = false ->
  truthy_id (resourceIdByURL s !! Page.url page) = false ->
  value (submit userId url) e s = Ok (None, INVALID) /\
  same_records s (run (submit userId url) e s).
Proof.
  intros Hload Hsafe Hfresh. unfold value, run.
  rewrite (submit_unsafe_fresh _ _ _ _ _ _ Hload Hsafe Hfresh). cbn.
  split; [reflexivity|]. eapply loadPage_frame; eassumption.
Qed.

Lemma submit_unsafe_invalid_witness :
  loadPage docs_url env_flagged sys0
    = (Ok (spread docs_page no_details false
             "2022-02-02T00:00:00.000Z" "2022-02-02T00:00:00.000Z"),
       run (loadPage docs_url) env_flagged sys0)
  /\ truthy_id (resourceIdByURL sys0 !! docs_url) = false
  /\ value (submit "userA" docs_url) env_flagged sys0 = Ok (None, INVALID)
  /\ same_records sys0 (run (submit "userA" docs_url) env_flagged sys0).
Proof.
  assert (H1 : loadPage docs_url env_flagged sys0
    = (Ok (spread docs_page no_details false
             "2022-02-02T00:00:00.000Z" "2022-02-02T00:00:00.000Z"),
       run (loadPage docs_url) env_flagged sys0)) by (vm_compute; reflexivity).
  assert (H3 : truthy_id (resourceIdByURL sys0 !! docs_url) = false)
    by (vm_compute; reflexivity).
  split; [exact H1|]. split; [exact H3|].
  exact (submit_unsafe_invalid env_flagged sys0 "userA" docs_url _ _
           H1 eq_refl H3).
Defined.

(** C2 as stated fails.  The docs URL is registered.  Submitting another
    address of the same page while the safety check flags it scrapes a page
    with [isSafe] false, and the answer is RESUBMITTED with the registered
    id, not INVALID.  The same happens for the docs URL itself once a
    refresh has stored its page as unsafe. *)
Lemma submit_unsafe_registered_counterexample :
  loadPage alias_url env_flagged sys1
    = (Ok docs_scraped_flagged, run (loadPage alias_url) env_flagged sys1)
  /\ Page.isSafe docs_scraped_flagged = false
  /\ value (submit "userB" alias_url) env_flagged sys1
       = Ok (Some "Xk3v9QmT2LpA", RESUBMITTED)
  /\ value (submit "userB" alias_url) env_flagged sys1 <> Ok (None, INVALID)
  /\ loadPage docs_url env_flagged sys_flagged = (Ok docs_flagged, sys_flagged)
  /\ Page.isSafe docs_flagged = false
  /\ value (submit "userB" docs_url) env_flagged sys_flagged
       = Ok (Some "Xk3v9QmT2LpA", RESUBMITTED).
Proof.
  split; [vm_compute; reflexivity|].
  split; [reflexivity|].
  split; [vm_compute; reflexivity|].
  split; [vm_compute; discriminate|].
  split; [vm_compute; reflexivity|].
  split; [reflexivity|].
  vm_compute; reflexivity.
Qed.

(** ** The id and the status of a submission *)

Lemma submit_safe_value userId url e s page s1 :
  loadPage url e s = (Ok page, s1) ->
  Page.isSafe page = true ->
  truthy_id (resourceIdByURL s !! Page.url page) = false ->
  value (submit userId url) e s = Ok (Some (generateId e (nonce s)), PUBLISHED).
Proof.
  intros H Hsafe Hid.
  destruct (loadPage_frame _ _ _ _ _ H) as ((Hst & Hi & Hp & Hc) & Hr & Hn).
  unfold value, submit, bind. rewrite H. exec. rewrite Hi, Hid. cbn.
  unfold createResource. rewrite Hsafe. cbn.
  unfold updateResource, updateResourceCache. exec. cbn. rewrite Hn.
  destruct (String.eqb (Page.category page) "package"); cbn;
    destruct (truthy (generateId e (nonce s))); reflexivity.
Qed.

(** C10.  Whenever [submit] returns, the id is null exactly when the status
    is INVALID; with PUBLISHED the id is the one just generated, with
    RESUBMITTED it is the id the URL index already held for the page's
    URL. *)
Theorem submit_id_null_iff_invalid (e : Env) (s : Sys) (userId url : string)
    (id : option string) (st : SubmissionStatus) :
  value (submit userId url) e s = Ok (id, st) ->
  (id = None <-> st = INVALID) /\
  (st = PUBLISHED -> id = Some (generateId e (nonce s))) /\
  (st = RESUBMITTED ->
     exists page s1 registered,
       loadPage url e s = (Ok page, s1) /\
       resourceIdByURL s !! Page.url page = Some registered /\
       id = Some registered).
Proof.
  intros H.
  destruct (loadPage url e s) as [[page|x] s1] eqn:Hload.
  2: { unfold value in H. rewrite (submit_throws _ _ _ _ _ _ Hload) in H.
       discriminate. }
  destruct (truthy_id (resourceIdByURL s !! Page.url page)) eqn:Hid.
  - destruct (resourceIdByURL s !! Page.url page) as [i|] eqn:Hi;
      [|discriminate].
    unfold value in H.
    rewrite (submit_indexed _ _ _ _ _ _ _ Hload Hi Hid) in H.
    injection H as <- <-.
    split; [split; discriminate|]. split; [discriminate|].
    intros _. exists page, s1, i. auto.
  - destruct (Page.isSafe page) eqn:Hsafe.
    + rewrite (submit_safe_value _ _ _ _ _ _ Hload Hsafe Hid) in H.
      injection H as <- <-.
      split; [split; discriminate|]. split; [reflexivity|]. discriminate.
    + unfold value in H.
      rewrite (submit_unsafe_fresh _ _ _ _ _ _ Hload Hsafe Hid) in H.
      injection H as <- <-.
      split; [split; reflexivity|]. split; discriminate.
Qed.

Lemma submit_id_null_iff_invalid_witness :
  value (submit "userB" docs_url) env0 sys1
    = Ok (Some "Xk3v9QmT2LpA", RESUBMITTED)
  /\ (Some "Xk3v9QmT2LpA" = None <-> RESUBMITTED = INVALID).
Proof.
  assert (H : value (submit "userB" docs_url) env0 sys1
              = Ok (Some "Xk3v9QmT2LpA", RESUBMITTED))
    by (vm_compute; reflexivity).
  split; [exact H|].
  exact (proj1 (submit_id_null_iff_invalid env0 sys1 "userB" docs_url _ _ H)).
Defined.

(** ** View counts *)




Lemma view_missing e s rid :
  stored (storage s) rid = None ->
  view (Some rid) e s = (Ok false, s).
Proof.
  intros Hr.
  unfold view, getResourceOrNull, getResource, storage_get, bind, gets, ret.
  destruct (truthy rid); [rewrite Hr|]; reflexivity.
Qed.





(** ** Bookmarks *)

#[local] Arguments includes : simpl never.

Lemma includes_In u l : includes u l = true <-> In u l.
Proof.
  unfold includes. rewrite existsb_exists. split.
  - intros (x & Hx & Heq). apply String.eqb_eq in Heq. subst. exact Hx.
  - intros H. exists u. split; [exact H | apply String.eqb_refl].
Qed.

Lemma includes_not_In u l : includes u l = false <-> ~ In u l.
Proof.
  rewrite <- includes_In. destruct (includes u l); split; congruence.
Qed.

(** [concat] yields a list that differs from the stored one. *)
Lemma bookmark_array_same u l :
  snd (bookmark_array u l) = l -> fst (bookmark_array u l) = StoredArray.
Proof.
  unfold bookmark_array. cbn. destruct (includes u l); cbn; [reflexivity|].
  intros H. apply (f_equal (@length string)) in H.
  rewrite length_app in H. cbn in H. lia.
Qed.

(** [filter] is only called when it removes something. *)
Lemma unbookmark_array_same u l :
  snd (unbookmark_array u l) = l -> fst (unbookmark_array u l) = StoredArray.
Proof.
  unfold unbookmark_array. cbn.
  destruct (includes u l) eqn:Hin; cbn; [|reflexivity].
  intros H. apply includes_In in Hin. rewrite <- H in Hin.
  apply filter_In in Hin. destruct Hin as [_ Hneq].
  rewrite String.eqb_refl in Hneq. discriminate.
Qed.

Lemma bookmark_present e s u rid r :
  truthy rid = true ->
  summaries (storage s) !! rid = Some r ->
  fst (bookmark_array u (ResourceSummary.bookmarked r)) = StoredArray ->
  bookmark u (Some rid) e s = (Ok true, s).
Proof.
  intros Ht Hr Hsame. unfold bookmark, getResourceOrNull, getResource.
  rewrite Ht. exec. rewrite Hr. cbn. rewrite Hsame. reflexivity.
Qed.

Lemma bookmark_absent e s u rid r :
  truthy rid = true ->
  summaries (storage s) !! rid = Some r ->
  ResourceSummary.id r = rid ->
  includes u (ResourceSummary.bookmarked r) = false ->
  exists s',
    bookmark u (Some rid) e s = (Ok true, s') /\
    summaries (storage s') =
      <[rid := with_bookmarked r (ResourceSummary.bookmarked r ++ [u])%list]>
        (summaries (storage s)).
Proof.
  intros Ht Hr Hid Hin. subst rid.
  unfold bookmark, getResourceOrNull, getResource.
  rewrite Ht. exec. rewrite Hr. cbn. unfold bookmark_array. cbn.
  rewrite Hin. cbn. unfold updateResource, updateResourceCache. exec. cbn.
  destruct (PAGE s !! ResourceSummary.url r); cbn;
    eexists; (split; [reflexivity|]); reflexivity.
Qed.

Lemma unbookmark_unchanged e s u rid r :
  truthy rid = true ->
  summaries (storage s) !! rid = Some r ->
  fst (unbookmark_array u (ResourceSummary.bookmarked r)) = StoredArray ->
  unbookmark u (Some rid) e s = (Ok true, s).
Proof.
  intros Ht Hr Hsame. unfold unbookmark, getResourceOrNull, getResource.
  rewrite Ht. exec. rewrite Hr. cbn. rewrite Hsame. reflexivity.
Qed.

Lemma count_occ_once (u : string) l :
  NoDup l -> In u l -> count_occ string_dec l u = 1%nat.
Proof.
  intros Hnd%NoDup_ListNoDup Hin.
  pose proof (proj1 (NoDup_count_occ string_dec l) Hnd u) as Hle.
  pose proof (proj1 (count_occ_In string_dec l u) Hin) as Hgt.
  lia.
Qed.

(** C4.  For a stored resource whose [bookmarked] list has no duplicate,
    two calls of [bookmark] for user [u] both return true and leave [u]
    exactly once in the stored list; [unbookmark] for a user who is not in
    the list returns true and leaves the whole state as it was; and in both
    operations, whenever the resulting list equals the stored one, nothing
    is written (the state, effects included, is unchanged). *)
Theorem bookmark_idempotent (e : Env) (s : Sys) (u rid : string)
    (r : ResourceSummary.t) :
  truthy rid = true ->
  summaries (storage s) !! rid = Some r ->
  ResourceSummary.id r = rid ->
  NoDup (ResourceSummary.bookmarked r) ->
  (value (bookmark u (Some rid)) e s = Ok true /\
   value (bookmark u (Some rid)) e (run (bookmark u (Some rid)) e s) = Ok true /\
   exists r2,
     summaries
       (storage (run (bookmark u (Some rid)) e
                   (run (bookmark u (Some rid)) e s))) !! rid = Some r2 /\
     count_occ string_dec (ResourceSummary.bookmarked r2) u = 1%nat /\
     NoDup (ResourceSummary.bookmarked r2)) /\
  (~ In u (ResourceSummary.bookmarked r) ->
   unbookmark u (Some rid) e s = (Ok true, s)) /\
  (snd (bookmark_array u (ResourceSummary.bookmarked r))
     = ResourceSummary.bookmarked r ->
   bookmark u (Some rid) e s = (Ok true, s)) /\
  (snd (unbookmark_array u (ResourceSummary.bookmarked r))
     = ResourceSummary.bookmarked r ->
   unbookmark u (Some rid) e s = (Ok true, s)).
Proof.
  intros Ht Hr Hid Hnd. unfold value, run. repeat apply conj.
  - destruct (includes u (ResourceSummary.bookmarked r)) eqn:Hin.
    + rewrite (bookmark_present e s u rid r Ht Hr)
        by (unfold bookmark_array; cbn; rewrite Hin; reflexivity).
      reflexivity.
    + destruct (bookmark_absent e s u rid r Ht Hr Hid Hin) as (s' & -> & _).
      reflexivity.
  - destruct (includes u (ResourceSummary.bookmarked r)) eqn:Hin.
    + assert (Hp : bookmark u (Some rid) e s = (Ok true, s)).
      { apply (bookmark_present e s u rid r Ht Hr).
        unfold bookmark_array; cbn; rewrite Hin; reflexivity. }
      rewrite Hp. cbn. rewrite Hp. reflexivity.
    + destruct (bookmark_absent e s u rid r Ht Hr Hid Hin) as (s' & Hb & Hs).
      rewrite Hb. cbn.
      erewrite bookmark_present; [reflexivity | exact Ht | |].
      * rewrite Hs. apply lookup_insert_eq.
      * unfold bookmark_array. cbn.
        replace (includes u (ResourceSummary.bookmarked r ++ [u])) with true;
          [reflexivity|].
        symmetry. apply includes_In, in_or_app. right. left. reflexivity.
  - destruct (includes u (ResourceSummary.bookmarked r)) eqn:Hin.
    + assert (Hp : bookmark u (Some rid) e s = (Ok true, s)).
      { apply (bookmark_present e s u rid r Ht Hr).
        unfold bookmark_array; cbn; rewrite Hin; reflexivity. }
      rewrite Hp. cbn. rewrite Hp. cbn.
      exists r. split; [exact Hr|]. split; [|exact Hnd].
      apply count_occ_once; [exact Hnd | apply includes_In; exact Hin].
    + destruct (bookmark_absent e s u rid r Ht Hr Hid Hin) as (s' & Hb & Hs).
      assert (Hr' : summaries (storage s') !! rid =
        Some (with_bookmarked r (ResourceSummary.bookmarked r ++ [u])%list)).
      { rewrite Hs. apply lookup_insert_eq. }
      assert (Hin' : In u (ResourceSummary.bookmarked r ++ [u])).
      { apply in_or_app. right. left. reflexivity. }
      rewrite Hb. cbn.
      erewrite bookmark_present; [| exact Ht | exact Hr' |].
      2: { unfold bookmark_array. cbn.
           rewrite (proj2 (includes_In _ _) Hin'). reflexivity. }
      cbn. eexists. split; [exact Hr'|]. cbn.
      apply includes_not_In in Hin.
      assert (Hnd' : NoDup (ResourceSummary.bookmarked r ++ [u])).
      { apply NoDup_app. split; [exact Hnd|]. split.
        - intros x Hx [->|[]]%list_elem_of_In. apply Hin.
          apply list_elem_of_In. exact Hx.
        - apply NoDup_singleton. }
      split; [|exact Hnd'].
      apply count_occ_once; assumption.
  - intros Hnot. apply (unbookmark_unchanged e s u rid r Ht Hr).
    unfold unbookmark_array. cbn.
    rewrite (proj2 (includes_not_In _ _) Hnot). reflexivity.
  - intros Hsame. apply (bookmark_present e s u rid r Ht Hr).
    apply bookmark_array_same. exact Hsame.
  - intros Hsame. apply (unbookmark_unchanged e s u rid r Ht Hr).
    apply unbookmark_array_same. exact Hsame.
Qed.

Lemma bookmark_idempotent_witness :
  truthy "Xk3v9QmT2LpA" = true
  /\ summaries (storage sys1) !! "Xk3v9QmT2LpA" = Some docs_summary
  /\ NoDup (ResourceSummary.bookmarked docs_summary)
  /\ ~ In "userB" (ResourceSummary.bookmarked docs_summary)
  /\ (exists r2,
       summaries
         (storage (run (bookmark "userA" (Some "Xk3v9QmT2LpA")) env0
                     (run (bookmark "userA" (Some "Xk3v9QmT2LpA")) env0 sys1)))
         !! "Xk3v9QmT2LpA" = Some r2 /\
       count_occ string_dec (ResourceSummary.bookmarked r2) "userA" = 1%nat)
  /\ unbookmark "userB" (Some "Xk3v9QmT2LpA") env0 sys1 = (Ok true, sys1).
Proof.
  assert (H1 : truthy "Xk3v9QmT2LpA" = true) by reflexivity.
  assert (H2 : summaries (storage sys1) !! "Xk3v9QmT2LpA" = Some docs_summary)
    by (vm_compute; reflexivity).
  assert (H3 : NoDup (ResourceSummary.bookmarked docs_summary))
    by (simpl; constructor).
  assert (H4 : ~ In "userB" (ResourceSummary.bookmarked docs_summary))
    by (simpl; tauto).
  destruct (bookmark_idempotent env0 sys1 "userA" "Xk3v9QmT2LpA" docs_summary
              H1 H2 eq_refl H3) as ((_ & _ & r2 & Hr2 & Hc & _) & _).
  destruct (bookmark_idempotent env0 sys1 "userB" "Xk3v9QmT2LpA" docs_summary
              H1 H2 eq_refl H3) as (_ & Hun & _).
  exact (conj H1 (conj H2 (conj H3 (conj H4
           (conj (ex_intro _ r2 (conj Hr2 Hc)) (Hun H4)))))).
Defined.

(** ** Refresh *)

Lemma refresh_missing userId rid e s :
  stored (storage s) rid = None ->
  refresh userId rid e s = (Ok false, s).
Proof.
  intros Hr. unfold refresh, getResource, storage_get, bind, gets, ret.
  rewrite Hr. reflexivity.
Qed.




(** ** The metadata sidecar *)

Lemma length_slice0 n : forall s,
  String.length (slice0 n s) = Nat.min n (String.length s).
Proof.
  unfold slice0. induction n as [|n IH]; intros [|c s]; cbn; try reflexivity.
  rewrite IH. reflexivity.
Qed.

Lemma prefix_slice0 n : forall s, String.prefix (slice0 n s) s = true.
Proof.
  unfold slice0. induction n as [|n IH]; intros [|c s]; cbn; try reflexivity.
  rewrite IH. destruct (Ascii.ascii_dec c c); [reflexivity | congruence].
Qed.

Section ContentInvariant.

Variable Q : gmap string (Resource.t * ResourceMetadata.t) -> Prop.

Hypothesis Q_put : forall content key resource,
  Q content -> Q (<[key := (resource, mkMetadata resource)]> content).

Lemma keeps_ret {A} (a : A) : keeps Q (ret a).
Proof. intros e s H. exact H. Qed.

Lemma keeps_throw {A} x : keeps Q (@throw A x).
Proof. intros e s H. exact H. Qed.

Lemma keeps_gets {A} (f : Sys -> A) : keeps Q (gets f).
Proof. intros e s H. exact H. Qed.

Lemma keeps_call {A} (f : Env -> Result A) : keeps Q (call f).
Proof. intros e s H. exact H. Qed.

Lemma keeps_asks {A} (f : Env -> A) : keeps Q (asks f).
Proof. intros e s H. exact H. Qed.

Lemma keeps_modify (f : Sys -> Sys) :
  (forall s, CONTENT (f s) = CONTENT s) -> keeps Q (modify f).
Proof. intros Hf e s H. cbn. rewrite Hf. exact H. Qed.

Lemma keeps_bind {A B} (m : M A) (k : A -> M B) :
  keeps Q m -> (forall a, keeps Q (k a)) -> keeps Q (bind m k).
Proof.
  intros Hm Hk e s H. unfold bind.
  specialize (Hm e s H). destruct (m e s) as [[a|x] s']; cbn in *.
  - apply Hk. exact Hm.
  - exact Hm.
Qed.

Lemma keeps_try_catch {A} (m : M A) (h : Thrown -> M A) :
  keeps Q m -> (forall x, keeps Q (h x)) -> keeps Q (try_catch m h).
Proof.
  intros Hm Hh e s H. unfold try_catch.
  specialize (Hm e s H). destruct (m e s) as [[a|x] s']; cbn in *.
  - exact Hm.
  - apply Hh. exact Hm.
Qed.

Lemma keeps_detached (m : M unit) : keeps Q m -> keeps Q (detached m).
Proof.
  intros Hm. apply keeps_try_catch; [exact Hm|].
  intros x. apply keeps_modify. reflexivity.
Qed.

Lemma keeps_CONTENT_put key resource :
  keeps Q (CONTENT_put key resource (mkMetadata resource)).
Proof. intros e s H. cbn. apply Q_put. exact H. Qed.

(** One step of a proof that a computation keeps [Q]. *)
Ltac keeps_step :=
  match goal with
  | |- keeps _ (bind _ _) => apply keeps_bind; [|intros ?]
  | |- keeps _ (ret _) => apply keeps_ret
  | |- keeps _ (throw _) => apply keeps_throw
  | |- keeps _ (gets _) => apply keeps_gets
  | |- keeps _ (call _) => apply keeps_call
  | |- keeps _ (asks _) => apply keeps_asks
  | |- keeps _ (modify _) => apply keeps_modify; reflexivity
  | |- keeps _ (detached _) => apply keeps_detached
  | |- keeps _ (try_catch _ _) => apply keeps_try_catch; [|intros ?]
  | |- keeps _ (CONTENT_put _ _ (mkMetadata _)) => apply keeps_CONTENT_put
  | |- keeps _ (match ?x with _ => _ end) => destruct x
  | |- keeps _ _ => assumption
  end.

Ltac keeps_all := repeat keeps_step.

Lemma keeps_storage_put key value : keeps Q (storage_put key value).
Proof. unfold storage_put. keeps_all. Qed.

Lemma keeps_PAGE_put key page : keeps Q (PAGE_put key page).
Proof. unfold PAGE_put. keeps_all. Qed.

Lemma keeps_Date_now : keeps Q Date_now.
Proof. intros e s H. exact H. Qed.

Lemma keeps_newId : keeps Q newId.
Proof. intros e s H. exact H. Qed.

Lemma keeps_updateResourceCache summary pageData :
  keeps Q (updateResourceCache summary pageData).
Proof. unfold updateResourceCache, PAGE_get. keeps_all. Qed.

Lemma keeps_updateResource resource page :
  keeps Q (updateResource resource page).
Proof.
  unfold updateResource. keeps_all;
    [apply keeps_storage_put | apply keeps_updateResourceCache].
Qed.

Lemma keeps_getResourceOrNull resourceId :
  keeps Q (getResourceOrNull resourceId).
Proof. unfold getResourceOrNull, getResource, storage_get. keeps_all. Qed.

Lemma keeps_createResource page userId :
  keeps Q (createResource page userId).
Proof.
  unfold createResource, storage_put_index_PackageName.
  keeps_all;
    first [apply keeps_newId | apply keeps_Date_now
          | apply keeps_updateResource].
Qed.

Lemma keeps_loadPage url : keeps Q (loadPage url).
Proof.
  unfold loadPage, PAGE_get, checkSafe.
  keeps_all; first [apply keeps_Date_now | apply keeps_PAGE_put].
Qed.

Lemma keeps_submit userId url : keeps Q (submit userId url).
Proof.
  unfold submit, storage_put_index_URL.
  keeps_all; first [apply keeps_loadPage | apply keeps_createResource].
Qed.

Lemma keeps_refresh userId resourceId : keeps Q (refresh userId resourceId).
Proof.
  unfold refresh, refresh_fields, untyped_call, getResource, storage_get,
    PAGE_get, checkSafe.
  keeps_all;
    first [apply keeps_Date_now | apply keeps_PAGE_put
          | apply keeps_updateResource].
Qed.

Lemma keeps_getDetails resourceId : keeps Q (getDetails resourceId).
Proof.
  unfold getDetails, untyped_call.
  keeps_all;
    first [apply keeps_getResourceOrNull | apply keeps_updateResourceCache].
Qed.

Lemma keeps_view resourceId : keeps Q (view resourceId).
Proof.
  unfold view, untyped_call.
  keeps_all;
    first [apply keeps_getResourceOrNull | apply keeps_updateResource].
Qed.

Lemma keeps_bookmark userId resourceId :
  keeps Q (bookmark userId resourceId).
Proof.
  unfold bookmark, bookmark_fields, untyped_call.
  keeps_all;
    first [apply keeps_getResourceOrNull | apply keeps_updateResource].
Qed.

Lemma keeps_unbookmark userId resourceId :
  keeps Q (unbookmark userId resourceId).
Proof.
  unfold unbookmark, unbookmark_fields, untyped_call.
  keeps_all;
    first [apply keeps_getResourceOrNull | apply keeps_updateResource].
Qed.

Lemma keeps_initialise : keeps Q initialise.
Proof.
  unfold initialise, createResourceStore, storage_get_index_URL,
    storage_get_index_PackageName.
  keeps_all.
Qed.

Lemma keeps_handle request : keeps Q (handle request).
Proof.
  unfold handle, storage_list, storage_put_entries.
  keeps_all;
    first [apply keeps_submit | apply keeps_refresh | apply keeps_getDetails
          | apply keeps_view | apply keeps_bookmark | apply keeps_unbookmark
          | apply keeps_initialise].
Qed.

Lemma keeps_fetch request : keeps Q (fetch request).
Proof.
  unfold fetch, on_exception. keeps_all. apply keeps_handle.
Qed.

End ContentInvariant.

Lemma sidecars_derived_put content key resource :
  sidecars_derived content ->
  sidecars_derived (<[key := (resource, mkMetadata resource)]> content).
Proof.
  intros H k r m. rewrite lookup_insert.
  case_decide; [intros [= <- <-]; reflexivity | apply H].
Qed.

(** C8.  The metadata attached to a Resource in the content store is a
    function of that Resource alone: [updateResourceCache], the only writer,
    stores the Resource together with [mkMetadata] of it; in that metadata
    the description is the first 80 characters of the Resource's description
    (the whole of it when it is shorter, none when there is none) and
    [bookmarkCounts] is the length of the Resource's [bookmarked] list; and
    every request the actor handles keeps all entries of the content store
    in that form. *)
Theorem sidecar_from_resource (request : Request) (e : Env) (s : Sys) :
  (forall summary pageData s',
     updateResourceCache summary pageData e s = (Ok tt, s') ->
     exists resource,
       CONTENT s' =
         <["resources/" +:+ ResourceSummary.id summary :=
             (resource, mkMetadata resource)]> (CONTENT s) /\
       Resource.id resource = ResourceSummary.id summary /\
       Resource.bookmarked resource = ResourceSummary.bookmarked summary) /\
  (forall resource,
     ResourceMetadata.description (mkMetadata resource)
       = slice0 80 <$> Resource.description resource /\
     (forall d,
        ResourceMetadata.description (mkMetadata resource) = Some d ->
        (String.length d <= 80)%nat /\
        exists full,
          Resource.description resource = Some full /\
          String.prefix d full = true /\
          String.length d = Nat.min 80 (String.length full)) /\
     ResourceMetadata.bookmarkCounts (mkMetadata resource)
       = length (Resource.bookmarked resource)) /\
  (sidecars_derived (CONTENT s) ->
   sidecars_derived (CONTENT (run (fetch request) e s))).
Proof.
  split; [|split].
  - intros summary pageData s'. unfold updateResourceCache. exec.
    intros H. cases; eexists; repeat split.
  - intros resource. split; [reflexivity|]. split; [|reflexivity].
    cbn. intros d Hd. destruct (Resource.description resource) as [full|];
      [|discriminate].
    injection Hd as <-. rewrite length_slice0. split; [lia|].
    exists full. split; [reflexivity|]. split; [apply prefix_slice0|reflexivity].
  - apply (keeps_fetch sidecars_derived sidecars_derived_put).
Qed.

Lemma sidecar_from_resource_witness :
  sidecars_derived (CONTENT sys0)
  /\ sidecars_derived
       (CONTENT (run (fetch (submit_request "userA" docs_url)) env0 sys0)).
Proof.
  assert (H : sidecars_derived (CONTENT sys0)).
  { intros key resource metadata Hk. vm_compute in Hk. discriminate. }
  exact (conj H
    (proj2 (proj2 (sidecar_from_resource
                     (submit_request "userA" docs_url) env0 sys0)) H)).
Defined.

(** ** Backup and restore *)

Lemma put_entries_self (st : Storage) : put_entries st st = st.
Proof.
  destruct st as [sm iu ip]. unfold put_entries. cbn.
  f_equal.
  - apply map_eq. intros k. rewrite lookup_union.
    destruct (sm !! k); reflexivity.
  - destruct iu; reflexivity.
  - destruct ip; reflexivity.
Qed.

Lemma fetch_backup request e s :
  store_ready s = true ->
  req_pathname request = "/backup" ->
  req_method request = "POST" ->
  fetch request e s =
    (Ok (mkResponse (JsonEntries (storage s)) 200),
     emit (LoggerReport (mkResponse (JsonEntries (storage s)) 200)) s).
Proof.
  intros Hready Hpath Hmethod. unfold fetch, handle. exec.
  rewrite Hready, Hpath, Hmethod. reflexivity.
Qed.

Lemma fetch_restore request j e s :
  store_ready s = true ->
  req_pathname request = "/restore" ->
  req_method request = "POST" ->
  req_json request = Ok j ->
  exists s',
    fetch request e s = (Ok OK, s') /\
    storage s' = put_entries (json_entries j) (storage s) /\
    store_ready s' = true /\
    resourceIdByURL s' = default ∅ (index_URL (storage s')) /\
    resourceIdByPackageName s' = default ∅ (index_PackageName (storage s')) /\
    PAGE s' = PAGE s /\
    CONTENT s' = CONTENT s.
Proof.
  intros Hready Hpath Hmethod Hjson.
  unfold fetch, handle, initialise, createResourceStore. exec.
  rewrite Hready, Hpath, Hmethod, Hjson. cbn.
  eexists. split; [reflexivity|]. cbn. repeat split.
Qed.

(** C5.  On an initialised actor, the backup request answers with the whole
    durable key space.  Restoring that dump leaves the key space (summaries
    and both index blobs) exactly as it was before the backup and runs the
    initialisation again, so that the in-memory indices are the ones read
    from the restored storage; a later [submit] whose page URL was registered
    in the URL index before the backup therefore answers RESUBMITTED with the
    registered id and creates nothing. *)
Theorem restore_backup_roundtrip (e : Env) (s : Sys)
    (backupReq restoreReq : Request) (j : Json) :
  store_ready s = true ->
  req_pathname backupReq = "/backup" ->
  req_method backupReq = "POST" ->
  req_pathname restoreReq = "/restore" ->
  req_method restoreReq = "POST" ->
  req_json restoreReq = Ok j ->
  value (fetch backupReq) e s = Ok (mkResponse (JsonEntries (storage s)) 200) /\
  (json_entries j = storage s ->
   let s' := run (fetch restoreReq) e (run (fetch backupReq) e s) in
   value (fetch restoreReq) e (run (fetch backupReq) e s) = Ok OK /\
   storage s' = storage s /\
   store_ready s' = true /\
   resourceIdByURL s' = default ∅ (index_URL (storage s)) /\
   resourceIdByPackageName s' = default ∅ (index_PackageName (storage s)) /\
   PAGE s' = PAGE s /\
   CONTENT s' = CONTENT s /\
   forall userId url page s1 index id,
     loadPage url e s' = (Ok page, s1) ->
     index_URL (storage s) = Some index ->
     index !! Page.url page = Some id ->
     truthy id = true ->
     value (submit userId url) e s' = Ok (Some id, RESUBMITTED) /\
     same_records s' (run (submit userId url) e s')).
Proof.
  intros Hready Hbp Hbm Hrp Hrm Hjson.
  pose proof (fetch_backup backupReq e s Hready Hbp Hbm) as Hb.
  unfold value, run. rewrite Hb. cbn [fst snd].
  split; [reflexivity|]. intros Hdump.
  destruct (fetch_restore restoreReq j e
              (emit (LoggerReport (mkResponse (JsonEntries (storage s)) 200)) s)
              Hready Hrp Hrm Hjson)
    as (s' & Hr & Hst & Hrd & Hiu & Hip & HP & HC).
  rewrite Hr. cbn [fst snd]. cbn in Hst, HP, HC.
  rewrite Hdump, put_entries_self in Hst.
  rewrite Hst in Hiu, Hip.
  repeat (split; [assumption || reflexivity|]).
  intros userId url page s1 index id Hload Hindex Hid Ht.
  assert (Hreg : resourceIdByURL s' !! Page.url page = Some id).
  { rewrite Hiu, Hindex. exact Hid. }
  rewrite (submit_indexed userId url e s' page s1 id Hload Hreg Ht).
  cbn. split; [reflexivity|]. eapply loadPage_frame; eassumption.
Qed.

Lemma restore_backup_roundtrip_witness :
  store_ready sys1 = true
  /\ value (fetch backup_request) env0 sys1
       = Ok (mkResponse (JsonEntries (storage sys1)) 200)
  /\ storage (run (fetch (restore_request (storage sys1))) env0
                (run (fetch backup_request) env0 sys1)) = storage sys1
  /\ value (submit "userB" docs_url) env0
       (run (fetch (restore_request (storage sys1))) env0
          (run (fetch backup_request) env0 sys1))
     = Ok (Some "Xk3v9QmT2LpA", RESUBMITTED).
Proof.
  assert (H1 : store_ready sys1 = true) by reflexivity.
  destruct (restore_backup_roundtrip env0 sys1 backup_request
              (restore_request (storage sys1))
              (mkJson "" "" "" (storage sys1))
              H1 eq_refl eq_refl eq_refl eq_refl eq_refl) as [R1 R2].
  destruct (R2 eq_refl) as (_ & R3 & _ & _ & _ & _ & _ & R4).
  assert (Hload : loadPage docs_url env0
            (run (fetch (restore_request (storage sys1))) env0
               (run (fetch backup_request) env0 sys1))
          = (Ok docs_loaded,
             run (fetch (restore_request (storage sys1))) env0
               (run (fetch backup_request) env0 sys1)))
    by (vm_compute; reflexivity).
  assert (Hindex : index_URL (storage sys1)
                   = Some (<[docs_url := "Xk3v9QmT2LpA"]> ∅))
    by (vm_compute; reflexivity).
  assert (Hid : (<[docs_url := "Xk3v9QmT2LpA"]> ∅ : gmap string string)
                  !! Page.url docs_loaded = Some "Xk3v9QmT2LpA")
    by (vm_compute; reflexivity).
  exact (conj H1 (conj R1 (conj R3
    (proj1 (R4 "userB" docs_url _ _ _ _ Hload Hindex Hid eq_refl))))).
Defined.

(** ** getDetails *)

Lemma getResource_stored rid r e s :
  summaries (storage s) !! rid = Some r ->
  getResource rid e s = (Ok (Some (Summary r)), s).
Proof.
  intros Hr. unfold getResource. exec. rewrite Hr. destruct r. reflexivity.
Qed.

Lemma getResource_missing rid e s :
  stored (storage s) rid = None ->
  getResource rid e s = (Ok None, s).
Proof.
  intros Hr. unfold getResource, storage_get, bind, gets, ret.
  rewrite Hr. reflexivity.
Qed.

(** C6, as the code has it.  [getDetails] returns null, and changes
    nothing, when the id is null or empty or when the storage holds nothing
    under it.  When a summary is stored for the id, the value it returns
    has the fields of that summary as they are stored, and the storage is
    left as it was; when the page store holds a page for the summary's URL,
    the content-store entry of the resource is rebuilt from the summary and
    that page, with the metadata computed from it; when it holds none, the
    content store is left as it was and the failure stays an unhandled
    rejection. *)
Theorem getDetails_spec (e : Env) (s : Sys) :
  getDetails None e s = (Ok None, s) /\
  getDetails (Some "") e s = (Ok None, s) /\
  (forall rid,
     stored (storage s) rid = None ->
     getDetails (Some rid) e s = (Ok None, s)) /\
  (forall rid r,
     truthy rid = true ->
     summaries (storage s) !! rid = Some r ->
     value (getDetails (Some rid)) e s = Ok (Some (Summary r)) /\
     storage (run (getDetails (Some rid)) e s) = storage s /\
     match PAGE s !! ResourceSummary.url r with
     | Some page =>
         CONTENT (run (getDetails (Some rid)) e s) =
           <["resources/" +:+ ResourceSummary.id r :=
               (mkResource r page
                  (integrationsOf e page
                     (Object_keys (resourceIdByPackageName s))),
                mkMetadata
                  (mkResource r page
                     (integrationsOf e page
                        (Object_keys (resourceIdByPackageName s)))))]>
             (CONTENT s)
     | None =>
         CONTENT (run (getDetails (Some rid)) e s) = CONTENT s /\
         effects (run (getDetails (Some rid)) e s) =
           UnhandledRejection
             (ThrownError "No page data found for the corresponding URL")
           :: effects s
     end).
Proof.
  split; [reflexivity|]. split; [reflexivity|]. split.
  - intros rid Hr. unfold getDetails, getResourceOrNull, bind.
    destruct (truthy rid); [|reflexivity].
    rewrite (getResource_missing rid e s Hr). reflexivity.
  - intros rid r Ht Hr. unfold value, run, getDetails, getResourceOrNull, bind.
    rewrite Ht, (getResource_stored rid r e s Hr).
    unfold updateResourceCache. exec.
    destruct (PAGE s !! ResourceSummary.url r); cbn; repeat split.
Qed.

Lemma getDetails_spec_witness :
  truthy "Xk3v9QmT2LpA" = true
  /\ summaries (storage sys1) !! "Xk3v9QmT2LpA" = Some docs_summary
  /\ stored (storage sys1) "unknownId000" = None
  /\ getDetails (Some "unknownId000") env0 sys1 = (Ok None, sys1)
  /\ value (getDetails (Some "Xk3v9QmT2LpA")) env0 sys1
     = Ok (Some (Summary docs_summary)).
Proof.
  assert (H1 : truthy "Xk3v9QmT2LpA" = true) by reflexivity.
  assert (H2 : summaries (storage sys1) !! "Xk3v9QmT2LpA" = Some docs_summary)
    by (vm_compute; reflexivity).
  assert (H3 : stored (storage sys1) "unknownId000" = None)
    by (vm_compute; reflexivity).
  destruct (getDetails_spec env0 sys1) as (_ & _ & A & B).
  exact (conj H1 (conj H2 (conj H3 (conj (A _ H3) (proj1 (B _ _ H1 H2)))))).
Defined.

(** C6 as stated fails.  After a dump whose summary has no page in the page
    store was restored, the details request for its id is answered 200 and
    the content store gets no entry for it: no sidecar is rebuilt before
    the answer.  And with the docs URL published, no summary is stored under
    index/URL, yet the details request for that key is answered 200, with
    the object built from the URL index, not 404. *)
Lemma getDetails_counterexample :
  summaries (storage sys_restored) !! "Qw8eRt1yUi2o" = Some foreign_summary
  /\ value (fetch (details_request "Qw8eRt1yUi2o")) env0 sys_restored
       = Ok (mkResponse (JsonSummary foreign_summary) 200)
  /\ CONTENT (run (fetch (details_request "Qw8eRt1yUi2o")) env0 sys_restored)
       !! "resources/Qw8eRt1yUi2o" = None
  /\ CONTENT (run (fetch (details_request "Qw8eRt1yUi2o")) env0 sys_restored)
       = CONTENT sys_restored
  /\ summaries (storage sys1) !! "index/URL" = None
  /\ value (fetch (details_request "index/URL")) env0 sys1
       = Ok (mkResponse
               (JsonFields
                  (IndexRecord.mk None None None None None None None None))
               200).
Proof.
  split; [vm_compute; reflexivity|].
  split; [vm_compute; reflexivity|].
  split; [vm_compute; reflexivity|].
  split; [vm_compute; reflexivity|].
  split; vm_compute; reflexivity.
Qed.

(** ** The RPC boundary *)

Lemma fetch_returned request e s response s1 :
  handle request e s = (Ok response, s1) ->
  fetch request e s = (Ok response, emit (LoggerReport response) s1).
Proof. intros H. unfold fetch. exec. rewrite H. reflexivity. Qed.

Lemma fetch_thrown request e s x s1 :
  handle request e s = (Throw x, s1) ->
  fetch request e s =
    (Ok InternalServerError,
     emit (LoggerReport InternalServerError)
       (match x with
        | ThrownError message =>
            emit (LoggerLog (failure_message request message))
              (emit (LoggerError x) s1)
        | ThrownValue _ => s1
        end)).
Proof.
  intros H. unfold fetch, on_exception. exec. rewrite H.
  destruct x; reflexivity.
Qed.

(** C9, as the code has it.  [fetch] never throws: it always returns a
    response, which it reports to the logger.  Whatever the body of its try
    block throws, the uninitialised store included, is caught and answered
    with the one generic 500 response, which carries nothing of the thrown
    value; an instance of Error is logged with its message before that, any
    other thrown value is not logged.  When the body returns, its response
    is passed on and no error is logged. *)
Theorem fetch_never_throws (request : Request) (e : Env) (s : Sys) :
  (exists response rest,
     value (fetch request) e s = Ok response /\
     effects (run (fetch request) e s) = LoggerReport response :: rest) /\
  (forall x s1,
     handle request e s = (Throw x, s1) ->
     value (fetch request) e s = Ok InternalServerError /\
     effects (run (fetch request) e s) =
       match x with
       | ThrownError message =>
           LoggerReport InternalServerError
           :: LoggerLog (failure_message request message)
           :: LoggerError x :: effects s1
       | ThrownValue _ => LoggerReport InternalServerError :: effects s1
       end) /\
  (forall response s1,
     handle request e s = (Ok response, s1) ->
     value (fetch request) e s = Ok response /\
     effects (run (fetch request) e s) = LoggerReport response :: effects s1) /\
  (store_ready s = false ->
   handle request e s = (Throw (ThrownError ""), s)).
Proof.
  split; [|split; [|split]].
  - unfold value, run.
    destruct (handle request e s) as [[response|x] s1] eqn:H.
    + rewrite (fetch_returned _ _ _ _ _ H). cbn. eauto.
    + rewrite (fetch_thrown _ _ _ _ _ H). cbn. eauto.
  - intros x s1 H. unfold value, run. rewrite (fetch_thrown _ _ _ _ _ H).
    destruct x; split; reflexivity.
  - intros response s1 H. unfold value, run.
    rewrite (fetch_returned _ _ _ _ _ H). split; reflexivity.
  - intros Hready. unfold handle. exec. rewrite Hready. reflexivity.
Qed.

Lemma fetch_never_throws_witness :
  store_ready sys_null = false
  /\ handle (submit_request "userA" docs_url) env0 sys_null
       = (Throw (ThrownError ""), sys_null)
  /\ value (fetch (submit_request "userA" docs_url)) env0 sys_null
       = Ok InternalServerError
  /\ handle (submit_request "userA" docs_url) env_down sys0
       = (Throw (ThrownError "connection refused"), sys0)
  /\ effects (run (fetch (submit_request "userA" docs_url)) env_down sys0)
       = [LoggerReport InternalServerError;
          LoggerLog (failure_message (submit_request "userA" docs_url)
                       "connection refused");
          LoggerError (ThrownError "connection refused")].
Proof.
  assert (H1 : store_ready sys_null = false) by reflexivity.
  destruct (fetch_never_throws (submit_request "userA" docs_url) env0 sys_null)
    as (_ & A & _ & B).
  assert (H2 : handle (submit_request "userA" docs_url) env_down sys0
               = (Throw (ThrownError "connection refused"), sys0))
    by (vm_compute; reflexivity).
  destruct (fetch_never_throws (submit_request "userA" docs_url) env_down sys0)
    as (_ & C & _ & _).
  exact (conj H1 (conj (B H1) (conj (proj1 (A _ _ (B H1)))
           (conj H2 (proj2 (C _ _ H2)))))).
Defined.

(** C9 as stated fails twice over.  A rejection with a value that is not an
    Error is caught and answered with 500, but nothing of it is logged.  And
    the Error thrown by the rebuild that the details handler starts without
    awaiting never reaches the catch clause: the response is 200 and no
    error is logged. *)
Lemma fetch_unlogged_counterexample :
  handle (submit_request "userA" docs_url) env_rejecting sys0
    = (Throw (ThrownValue "timeout"), sys0)
  /\ value (fetch (submit_request "userA" docs_url)) env_rejecting sys0
       = Ok InternalServerError
  /\ List.filter is_error_log
       (effects (run (fetch (submit_request "userA" docs_url))
                   env_rejecting sys0)) = []
  /\ value (fetch (details_request "Qw8eRt1yUi2o")) env0 sys_restored
       = Ok (mkResponse (JsonSummary foreign_summary) 200)
  /\ effects (run (fetch (details_request "Qw8eRt1yUi2o")) env0 sys_restored)
       = LoggerReport (mkResponse (JsonSummary foreign_summary) 200)
         :: UnhandledRejection
              (ThrownError "No page data found for the corresponding URL")
         :: effects sys_restored
  /\ List.filter is_error_log
       (effects (run (fetch (details_request "Qw8eRt1yUi2o"))
                   env0 sys_restored)) = [].
Proof.
  split; [vm_compute; reflexivity|].
  split; [vm_compute; reflexivity|].
  split; [vm_compute; reflexivity|].
  split; [vm_compute; reflexivity|].
  split; vm_compute; reflexivity.
Qed.

(** ** Well-formed states

    The hypotheses on stored records used above (a record is stored under
    its own id, its bookmarks have no duplicate) and the agreement of the
    in-memory indices with storage hold in every state the actor reaches
    from well-formed storage, as long as the dumps it is asked to restore
    are well-formed. *)

Lemma summaries_wf_insert m r :
  summaries_wf m -> NoDup (ResourceSummary.bookmarked r) ->
  summaries_wf (<[ResourceSummary.id r := r]> m).
Proof.
  intros H Hn k r'. rewrite lookup_insert.
  case_decide; [intros [= <-]; subst; split; auto | apply H].
Qed.

Lemma summaries_wf_union m1 m2 :
  summaries_wf m1 -> summaries_wf m2 -> summaries_wf (m1 ∪ m2).
Proof.
  intros H1 H2 k r [H|[_ H]]%lookup_union_Some_raw; [apply H1 | apply H2]; exact H.
Qed.

Lemma NoDup_bookmark_array u l :
  NoDup l -> NoDup (snd (bookmark_array u l)).
Proof.
  intros Hnd. unfold bookmark_array. cbn.
  destruct (includes u l) eqn:Hin; cbn; [exact Hnd|].
  apply includes_not_In in Hin. apply NoDup_app. split; [exact Hnd|].
  split; [|apply NoDup_singleton].
  intros x Hx [->|[]]%list_elem_of_In. apply Hin, list_elem_of_In, Hx.
Qed.

Lemma NoDup_unbookmark_array u l :
  NoDup l -> NoDup (snd (unbookmark_array u l)).
Proof.
  intros Hnd. unfold unbookmark_array. cbn.
  destruct (includes u l); cbn; [|exact Hnd].
  apply NoDup_ListNoDup, List.NoDup_filter, NoDup_ListNoDup, Hnd.
Qed.

(** Closes the routine goals of a well-formedness proof. *)
Ltac wf_goal :=
  repeat match goal with
  | |- well_formed _ => split; [|split]; cbn
  | |- summaries_wf (<[_ := _]> _) =>
      apply (summaries_wf_insert _ (ResourceSummary.mk _ _ _ _ _ _ _ _)); cbn
  | H : summaries_wf ?m, H' : ?m !! _ = Some ?r
    |- NoDup (ResourceSummary.bookmarked ?r) => exact (proj2 (H _ _ H'))
  | |- NoDup [] => constructor
  | |- _ => assumption || reflexivity
  end.

Lemma well_formed_same_records s s' :
  same_records s s' -> well_formed s -> well_formed s'.
Proof.
  intros (A & B & C & _) (Hs & Hu & Hp). unfold well_formed.
  rewrite A, B, C. auto.
Qed.

Lemma updateResource_wf resource page e s :
  well_formed s -> NoDup (ResourceSummary.bookmarked resource) ->
  well_formed (snd (updateResource resource page e s)).
Proof.
  intros (Hs & Hu & Hp) Hn. unfold updateResource, updateResourceCache. exec.
  cases; wf_goal; apply summaries_wf_insert; assumption.
Qed.

Lemma view_wf rid e s : well_formed s -> well_formed (snd (view rid e s)).
Proof.
  intros (Hs & Hu & Hp).
  unfold view, getResourceOrNull, getResource, updateResource,
    updateResourceCache. exec.
  cases; wf_goal.
Qed.

Lemma getDetails_wf rid e s :
  well_formed s -> well_formed (snd (getDetails rid e s)).
Proof.
  intros (Hs & Hu & Hp).
  unfold getDetails, getResourceOrNull, getResource, updateResourceCache. exec.
  cases; wf_goal.
Qed.

Lemma bookmark_wf u rid e s :
  well_formed s -> well_formed (snd (bookmark u rid e s)).
Proof.
  intros (Hs & Hu & Hp).
  unfold bookmark, getResourceOrNull, getResource, updateResource,
    updateResourceCache. exec.
  cases; wf_goal;
    try match goal with
    | H : summaries _ !! _ = Some ?r |- NoDup (snd (bookmark_array ?u _)) =>
        apply (NoDup_bookmark_array u _ (proj2 (Hs _ _ H)))
    end.
Qed.

Lemma unbookmark_wf u rid e s :
  well_formed s -> well_formed (snd (unbookmark u rid e s)).
Proof.
  intros (Hs & Hu & Hp).
  unfold unbookmark, getResourceOrNull, getResource, updateResource,
    updateResourceCache. exec.
  cases; wf_goal;
    try match goal with
    | H : summaries _ !! _ = Some ?r |- NoDup (snd (unbookmark_array ?u _)) =>
        apply (NoDup_unbookmark_array u _ (proj2 (Hs _ _ H)))
    end.
Qed.

Lemma refresh_wf u rid e s :
  well_formed s -> well_formed (snd (refresh u rid e s)).
Proof.
  intros (Hs & Hu & Hp).
  unfold refresh, getResource, updateResource, updateResourceCache. exec.
  cases; wf_goal.
Qed.

Lemma submit_wf u url e s :
  well_formed s -> well_formed (snd (submit u url e s)).
Proof.
  intros Hwf. unfold submit, bind.
  destruct (loadPage url e s) as [[page|x] s1] eqn:Hload; cbn.
  2: { eapply well_formed_same_records; [|exact Hwf].
       eapply loadPage_frame; eassumption. }
  assert (Hwf1 : well_formed s1).
  { eapply well_formed_same_records; [|exact Hwf].
    eapply loadPage_frame; eassumption. }
  clear Hload Hwf. destruct Hwf1 as (Hs & Hu & Hp).
  unfold createResource, updateResource, updateResourceCache. exec.
  cases; wf_goal.
Qed.

Lemma restore_wf data e s :
  summaries_wf (summaries (storage s)) ->
  summaries_wf (summaries data) ->
  well_formed (snd ((storage_put_entries data ;; initialise) e s)).
Proof.
  intros Hs Hd. unfold initialise, createResourceStore. exec. cbn.
  wf_goal. apply summaries_wf_union; assumption.
Qed.


Lemma bind_preserved {A B} (P : Sys -> Prop) (m : M A) (k : A -> M B) e s :
  P (snd (m e s)) ->
  (forall a s1, m e s = (Ok a, s1) -> P s1 -> P (snd (k a e s1))) ->
  P (snd (bind m k e s)).
Proof.
  intros Hm Hk. unfold bind. destruct (m e s) as [[a|x] s1]; cbn in *.
  - apply Hk; [reflexivity | exact Hm].
  - exact Hm.
Qed.

(** A route of [handle] that parses the body and calls one method. *)
Ltac wf_handler lemma :=
  apply bind_preserved; [cbn; assumption|];
  intros ? ? _ ?;
  apply bind_preserved; [apply lemma; assumption|];
  intros [] ? _ ?; assumption.

Lemma handle_wf request e s :
  well_formed s ->
  summaries_wf (summaries (dump_of request)) ->
  well_formed (snd (handle request e s)).
Proof.
  intros Hwf Hd. unfold handle.
  apply bind_preserved; [exact Hwf|]. intros ready s1 [= <- <-] _.
  destruct (negb (store_ready s)); [exact Hwf|].
  repeat match goal with
  | |- well_formed (snd ((if ?c then _ else _) _ _)) => destruct c
  end.
  - wf_handler submit_wf.
  - wf_handler refresh_wf.
  - apply bind_preserved; [apply getDetails_wf; assumption|].
    intros [] ? _ ?; assumption.
  - wf_handler view_wf.
  - wf_handler bookmark_wf.
  - wf_handler unbookmark_wf.
  - exact Hwf.
  - unfold dump_of in Hd. unfold call at 1.
    apply bind_preserved; [exact Hwf|]. intros j s1 Hj _.
    injection Hj as Hj <-. rewrite Hj in Hd.
    pose proof (restore_wf (json_entries j) e s (proj1 Hwf) Hd) as Hr.
    unfold bind in *. cbn in *. exact Hr.
  - exact Hwf.
Qed.

Lemma fetch_wf request e s :
  well_formed s ->
  summaries_wf (summaries (dump_of request)) ->
  well_formed (run (fetch request) e s).
Proof.
  intros Hwf Hd. pose proof (handle_wf request e s Hwf Hd) as H.
  unfold run, fetch, on_exception. exec.
  destruct (handle request e s) as [[response|[message|v]] s1]; exact H.
Qed.

Lemma ResourcesStore_wf e st pages content :
  summaries_wf (summaries st) -> well_formed (ResourcesStore e st pages content).
Proof. intros H. split; [exact H|]. split; reflexivity. Qed.

Lemma serve_wf requests : forall s,
  well_formed s ->
  Forall (fun r => summaries_wf (summaries (dump_of (snd r)))) requests ->
  well_formed (serve requests s).
Proof.
  induction requests as [|[e request] requests IH]; intros s Hwf Hall; cbn.
  - exact Hwf.
  - inversion Hall as [|? ? Hd Hrest]; subst. apply IH; [|exact Hrest].
    apply fetch_wf; assumption.
Qed.

(** ** The end-to-end scenario of the specification *)

Example end_to_end_scenario :
  let s1 := run (submit "userA" docs_url) env0 sys0 in
  let s2 := run (submit "userB" docs_url) env0 s1 in
  let s3 := run (view (Some "Xk3v9QmT2LpA")) env0 s2 in
  let s4 := run (view (Some "Xk3v9QmT2LpA")) env0 s3 in
  let s5 := run (bookmark "userA" (Some "Xk3v9QmT2LpA")) env0 s4 in
  let s6 := run (bookmark "userA" (Some "Xk3v9QmT2LpA")) env0 s5 in
  value (submit "userA" docs_url) env0 sys0
    = Ok (Some "Xk3v9QmT2LpA", PUBLISHED)
  /\ value (submit "userB" docs_url) env0 s1
       = Ok (Some "Xk3v9QmT2LpA", RESUBMITTED)
  /\ ResourceSummary.viewCounts
       <$> summaries (storage s4) !! "Xk3v9QmT2LpA" = Some 2
  /\ ResourceSummary.bookmarked
       <$> summaries (storage s6) !! "Xk3v9QmT2LpA" = Some ["userA"]
  /\ (fun entry => ResourceMetadata.bookmarkCounts (snd entry))
       <$> CONTENT s6 !! "resources/Xk3v9QmT2LpA" = Some 1%nat.
Proof. vm_compute. repeat split. Qed.

(** * Properties beyond the specification *)

(** ** Requests that find nothing or cannot be read *)

Lemma is_route_true path method request :
  is_route path method request = true ->
  req_pathname request = path /\ req_method request = method.
Proof.
  unfold is_route. intros [H1 H2]%andb_true_iff.
  split; apply String.eqb_eq; assumption.
Qed.

(** Evaluates the route tests of [handle] for a request of a known route. *)
Ltac route H :=
  apply is_route_true in H; destruct H as [Hpath Hmethod];
  unfold fetch, handle; exec; rewrite ?Hpath, ?Hmethod; cbn.

Lemma fetch_unrouted request e s :
  store_ready s = true ->
  routed request = false ->
  fetch request e s = (Ok NotFound, reported NotFound s).
Proof.
  intros Hready Hr. unfold routed, is_route in Hr.
  repeat (apply orb_false_elim in Hr; destruct Hr as [Hr ?]).
  unfold fetch, handle. exec. rewrite Hready. cbn.
  repeat match goal with
  | H : _ && _ = false |- _ => rewrite H; clear H
  end.
  reflexivity.
Qed.

Lemma getResourceOrNull_missing rid e s :
  stored (storage s) rid = None ->
  getResourceOrNull (Some rid) e s = (Ok None, s).
Proof.
  intros Hr. unfold getResourceOrNull.
  destruct (truthy rid); [|reflexivity]. apply getResource_missing, Hr.
Qed.

(** X1.  On an initialised actor, a request that matches no route, and a
    refresh, details, view, bookmark or unbookmark request for an id under
    which the storage holds nothing (no summary and, for the keys index/URL
    and index/PackageName, no index blob), is answered 404 "Not found" and
    changes nothing: the only effect is the logger's report of that
    response. *)
Theorem unknown_id_not_found (request : Request) (e : Env) (s : Sys) :
  store_ready s = true ->
  (routed request = false \/
   (is_route "/details" "GET" request = true /\
    forall rid, req_resourceId request = Some rid ->
                stored (storage s) rid = None) \/
   (exists j,
      req_json request = Ok j /\
      stored (storage s) (json_resourceId j) = None /\
      (is_route "/refresh" "POST" request = true \/
       is_route "/view" "PUT" request = true \/
       is_route "/bookmark" "PUT" request = true \/
       is_route "/bookmark" "DELETE" request = true))) ->
  fetch request e s = (Ok NotFound, reported NotFound s).
Proof.
  intros Hready [Hun|[[Hd Hnone]|(j & Hj & Hnone & Hroute)]].
  - apply fetch_unrouted; assumption.
  - route Hd. rewrite Hready. cbn. unfold getDetails, bind.
    destruct (req_resourceId request) as [rid|] eqn:Hrid.
    + rewrite (getResourceOrNull_missing rid e s (Hnone rid eq_refl)).
      reflexivity.
    + reflexivity.
  - destruct Hroute as [H|[H|[H|H]]]; route H; rewrite Hready, Hj; cbn.
    + rewrite (refresh_missing _ _ e s Hnone). reflexivity.
    + rewrite (view_missing e s _ Hnone). reflexivity.
    + unfold bookmark, bind.
      rewrite (getResourceOrNull_missing _ e s Hnone). reflexivity.
    + unfold unbookmark, bind.
      rewrite (getResourceOrNull_missing _ e s Hnone). reflexivity.
Qed.

Lemma handle_unreadable request e s x :
  store_ready s = true ->
  needs_body request = true ->
  req_json request = Throw x ->
  handle request e s = (Throw x, s).
Proof.
  intros Hready Hneeds Hj. unfold needs_body, is_route in Hneeds.
  unfold handle. exec. rewrite Hready, Hj. cbn.
  repeat match goal with
  | |- context [if ?c then _ else _] => destruct c eqn:?
  end; try reflexivity; exfalso;
  repeat match goal with
  | H : _ && _ = true |- _ =>
      apply andb_true_iff in H;
      destruct H as [?%String.eqb_eq ?%String.eqb_eq]
  | H : req_pathname _ = _ |- _ => rewrite H in *; clear H
  | H : req_method _ = _ |- _ => rewrite H in *; clear H
  end;
  cbn in Hneeds; discriminate.
Qed.

(** X2.  On an initialised actor, a submit, refresh, view, bookmark,
    unbookmark or restore request whose body cannot be parsed is answered
    with the 500 response, the parse error being what the handler throws;
    storage, the indices, the content store and the page store stay as they
    were. *)
Theorem unreadable_body_rejected (request : Request) (e : Env) (s : Sys)
    (x : Thrown) :
  store_ready s = true ->
  needs_body request = true ->
  req_json request = Throw x ->
  handle request e s = (Throw x, s) /\
  value (fetch request) e s = Ok InternalServerError /\
  same_records s (run (fetch request) e s) /\
  PAGE (run (fetch request) e s) = PAGE s.
Proof.
  intros Hready Hneeds Hj.
  pose proof (handle_unreadable request e s x Hready Hneeds Hj) as H.
  split; [exact H|]. unfold value, run.
  rewrite (fetch_thrown request e s x s H).
  destruct x; repeat split.
Qed.

(** ** Collaborators that reject *)

(** X3.  When the scraper, the page details or the safety check rejects,
    [submit] (for a URL with no stored page) and [refresh] (for a stored
    record) throw that very rejection and leave the whole state as it was:
    no page, record, index entry or content entry is written. *)
Theorem rejection_changes_nothing (e : Env) (s : Sys) (userId : string)
    (x : Thrown) :
  (forall url,
     PAGE s !! url = None ->
     submit_rejection e url = Some x ->
     submit userId url e s = (Throw x, s)) /\
  (forall rid r,
     summaries (storage s) !! rid = Some r ->
     refresh_rejection e (ResourceSummary.url r) = Some x ->
     refresh userId rid e s = (Throw x, s)).
Proof.
  split.
  - intros url Hpage Hrej. unfold submit_rejection in Hrej.
    unfold submit, loadPage. exec. rewrite Hpage.
    destruct (scrapeHTML e url (USER_AGENT e)) as [p0|y]; cbn;
      [|congruence].
    destruct (getPageDetails e (Page.url p0)) as [d|y]; cbn; [|congruence].
    destruct (safeBrowsing e (Page.url p0)) as [b|y]; cbn; congruence.
  - intros rid r Hr Hrej. unfold refresh_rejection in Hrej.
    unfold refresh, getResource. exec. rewrite Hr. cbn.
    destruct (scrapeHTML e (ResourceSummary.url r) (USER_AGENT e)) as [p0|y];
      cbn; [|congruence].
    destruct (getPageDetails e (ResourceSummary.url r)) as [d|y]; cbn;
      [|congruence].
    destruct (safeBrowsing e (ResourceSummary.url r)) as [b|y]; cbn;
      congruence.
Qed.

Lemma rejection_changes_nothing_witness :
  PAGE sys0 !! docs_url = None
  /\ submit_rejection env_down docs_url
       = Some (ThrownError "connection refused")
  /\ submit "userA" docs_url env_down sys0
       = (Throw (ThrownError "connection refused"), sys0)
  /\ summaries (storage sys1) !! "Xk3v9QmT2LpA" = Some docs_summary
  /\ refresh "userA" "Xk3v9QmT2LpA" env_down sys1
       = (Throw (ThrownError "connection refused"), sys1).
Proof.
  assert (H1 : PAGE sys0 !! docs_url = None) by (vm_compute; reflexivity).
  assert (H2 : submit_rejection env_down docs_url
               = Some (ThrownError "connection refused")) by reflexivity.
  assert (H3 : summaries (storage sys1) !! "Xk3v9QmT2LpA" = Some docs_summary)
    by (vm_compute; reflexivity).
  exact (conj H1 (conj H2
    (conj (proj1 (rejection_changes_nothing env_down sys0 "userA" _) _ H1 H2)
      (conj H3
        (proj2 (rejection_changes_nothing env_down sys1 "userA" _)
           _ _ H3 eq_refl))))).
Defined.

Lemma unknown_id_not_found_witness :
  store_ready sys1 = true
  /\ routed (mkRequest "http://resources/view" "/view" None "POST" no_body)
       = false
  /\ fetch (mkRequest "http://resources/view" "/view" None "POST" no_body)
       env0 sys1 = (Ok NotFound, reported NotFound sys1)
  /\ fetch (details_request "unknownId000") env0 sys1
       = (Ok NotFound, reported NotFound sys1).
Proof.
  assert (H1 : store_ready sys1 = true) by reflexivity.
  assert (H2 : routed (mkRequest "http://resources/view" "/view" None "POST"
                         no_body) = false) by reflexivity.
  assert (H3 : forall rid,
             req_resourceId (details_request "unknownId000") = Some rid ->
             stored (storage sys1) rid = None).
  { intros rid [= <-]. vm_compute. reflexivity. }
  exact (conj H1 (conj H2
    (conj (unknown_id_not_found _ env0 sys1 H1 (or_introl H2))
          (unknown_id_not_found (details_request "unknownId000") env0 sys1 H1
             (or_intror (or_introl (conj eq_refl H3))))))).
Defined.

Lemma unreadable_body_rejected_witness :
  store_ready sys1 = true
  /\ needs_body (mkRequest "http://resources/view" "/view" None "PUT" no_body)
       = true
  /\ value (fetch (mkRequest "http://resources/view" "/view" None "PUT"
                     no_body)) env0 sys1 = Ok InternalServerError.
Proof.
  assert (H1 : store_ready sys1 = true) by reflexivity.
  assert (H2 : needs_body (mkRequest "http://resources/view" "/view" None
                             "PUT" no_body) = true) by reflexivity.
  exact (conj H1 (conj H2
    (proj1 (proj2 (unreadable_body_rejected _ env0 sys1 _ H1 H2 eq_refl))))).
Defined.

(** ** What the handlers leave alone *)


Lemma same_indices_trans s1 s2 s3 :
  same_indices s1 s2 -> same_indices s2 s3 -> same_indices s1 s3.
Proof.
  intros (A1 & A2 & A3 & A4) (B1 & B2 & B3 & B4).
  repeat split; congruence.
Qed.

Lemma refresh_same_indices u rid e s :
  same_indices s (snd (refresh u rid e s)).
Proof.
  unfold refresh, getResource, updateResource, updateResourceCache. exec.
  cases; repeat split.
Qed.

Lemma getDetails_same_indices rid e s :
  same_indices s (snd (getDetails rid e s)).
Proof.
  unfold getDetails, getResourceOrNull, getResource, updateResourceCache. exec.
  cases; repeat split.
Qed.

Lemma view_same_indices rid e s : same_indices s (snd (view rid e s)).
Proof.
  unfold view, getResourceOrNull, getResource, updateResource,
    updateResourceCache. exec.
  cases; repeat split.
Qed.

Lemma bookmark_same_indices u rid e s :
  same_indices s (snd (bookmark u rid e s)).
Proof.
  unfold bookmark, getResourceOrNull, getResource, updateResource,
    updateResourceCache. exec.
  cases; repeat split.
Qed.

Lemma unbookmark_same_indices u rid e s :
  same_indices s (snd (unbookmark u rid e s)).
Proof.
  unfold unbookmark, getResourceOrNull, getResource, updateResource,
    updateResourceCache. exec.
  cases; repeat split.
Qed.





(** ** A refresh that changes the URL *)

Lemma refresh_moved u rid r updatedPage pageMetadata isSafe e s :
  summaries (storage s) !! rid = Some r ->
  scrapeHTML e (ResourceSummary.url r) (USER_AGENT e) = Ok updatedPage ->
  getPageDetails e (ResourceSummary.url r) = Ok pageMetadata ->
  safeBrowsing e (ResourceSummary.url r) = Ok isSafe ->
  let page := refreshedPage e s r updatedPage pageMetadata isSafe in
  ResourceSummary.url r <> Page.url page ->
  exists s',
    refresh u rid e s = (Ok true, s') /\
    PAGE s' !! Page.url page = Some page /\
    summaries (storage s') =
      <[ResourceSummary.id r :=
          refreshedSummary r page (toISOString e (clock s)) u]>
        (summaries (storage s)) /\
    ResourceSummary.url
      (refreshedSummary r page (toISOString e (clock s)) u) = Page.url page /\
    nonce s' = nonce s.
Proof.
  intros Hr Hscrape Hdetails Hsafe page Hne. subst page.
  unfold refresh, getResource. exec.
  rewrite Hr. cbn. rewrite Hscrape. cbn. rewrite Hdetails. cbn.
  rewrite Hsafe. cbn.
  unfold refreshedSummary, refreshedPage, updateResource, updateResourceCache
    in *.
  exec. destruct r as [rid' rurl rb rv rca rcb rua rub]. cbn in *.
  destruct (String.eqb rurl
              (default (Page.url updatedPage) (PageDetails.url pageMetadata)))
    eqn:Heq; cbn.
  - apply String.eqb_eq in Heq. contradiction.
  - eexists. split; [reflexivity|]. cbn. repeat split.
    rewrite lookup_insert_ne by exact Hne. apply lookup_insert_eq.
Qed.

(** X5.  [refresh] does not register a changed URL.  When re-scraping moves
    a stored resource to a URL the index does not know and the page is safe,
    a later [submit] of that new URL is not recognised: it answers PUBLISHED
    with a fresh id, and storage then holds two summaries with that URL, the
    refreshed one and the new one. *)
Theorem refresh_then_submit_publishes_again (e e2 : Env) (s : Sys)
    (u u2 rid : string) (r : ResourceSummary.t) (updatedPage : Page.t)
    (pageMetadata : PageDetails.t) :
  summaries (storage s) !! rid = Some r ->
  scrapeHTML e (ResourceSummary.url r) (USER_AGENT e) = Ok updatedPage ->
  getPageDetails e (ResourceSummary.url r) = Ok pageMetadata ->
  safeBrowsing e (ResourceSummary.url r) = Ok true ->
  ResourceSummary.url r
    <> Page.url (refreshedPage e s r updatedPage pageMetadata true) ->
  resourceIdByURL s
    !! Page.url (refreshedPage e s r updatedPage pageMetadata true) = None ->
  String.length (generateId e2 (nonce s)) = 12%nat ->
  generateId e2 (nonce s) <> ResourceSummary.id r ->
  let newUrl := Page.url (refreshedPage e s r updatedPage pageMetadata true) in
  let s' := run (refresh u rid) e s in
  let s'' := run (submit u2 newUrl) e2 s' in
  value (refresh u rid) e s = Ok true /\
  value (submit u2 newUrl) e2 s'
    = Ok (Some (generateId e2 (nonce s)), PUBLISHED) /\
  exists old new,
    summaries (storage s'') !! ResourceSummary.id r = Some old /\
    summaries (storage s'') !! generateId e2 (nonce s) = Some new /\
    ResourceSummary.url old = newUrl /\
    ResourceSummary.url new = newUrl.
Proof.
  intros Hr Hscrape Hdetails Hsafe Hne Hnone Hlen Hfresh newUrl s' s''.
  destruct (refresh_moved u rid r updatedPage pageMetadata true e s
              Hr Hscrape Hdetails Hsafe Hne)
    as (s1 & Href & Hpage & Hsum & Hurl & Hnonce).
  pose proof (refresh_same_indices u rid e s) as (Hidx & _).
  rewrite Href in Hidx. cbn [fst snd] in Hidx.
  subst s'' s'. unfold value, run. rewrite Href. cbn [fst snd] in *.
  split; [reflexivity|].
  assert (Hload : loadPage newUrl e2 s1
            = (Ok (refreshedPage e s r updatedPage pageMetadata true), s1)).
  { unfold loadPage. exec. fold newUrl in Hpage. rewrite Hpage. reflexivity. }
  assert (Hunknown : truthy_id
            (resourceIdByURL s1
               !! Page.url (refreshedPage e s r updatedPage pageMetadata true))
            = false).
  { rewrite Hidx, Hnone. reflexivity. }
  rewrite <- Hnonce in Hlen, Hfresh |- *.
  destruct (submit_safe_fresh u2 newUrl e2 s1 _ s1 Hload eq_refl Hunknown
              (truthy_length _ Hlen))
    as (sA & HsA & HsumA & _).
  rewrite HsA. cbn [fst snd]. split; [reflexivity|].
  eexists _, _. rewrite HsumA, Hsum.
  split; [|split; [apply lookup_insert_eq|]].
  - rewrite lookup_insert_ne by exact Hfresh. apply lookup_insert_eq.
  - split; [exact Hurl | reflexivity].
Qed.

Lemma refresh_then_submit_publishes_again_witness :
  summaries (storage sys1) !! "Xk3v9QmT2LpA" = Some docs_summary
  /\ resourceIdByURL sys1 !! moved_url = None
  /\ value (submit "userB" moved_url) env_moved
       (run (refresh "userA" "Xk3v9QmT2LpA") env_moved sys1)
     = Ok (Some "b7RzW0cYh5Ns", PUBLISHED).
Proof.
  assert (H1 : summaries (storage sys1) !! "Xk3v9QmT2LpA" = Some docs_summary)
    by (vm_compute; reflexivity).
  assert (H2 : resourceIdByURL sys1 !! moved_url = None)
    by (vm_compute; reflexivity).
  assert (H3 : ResourceSummary.url docs_summary <>
     Page.url (refreshedPage env_moved sys1 docs_summary moved_page
                 no_details true)) by (vm_compute; discriminate).
  assert (H4 : generateId env_moved (nonce sys1)
               <> ResourceSummary.id docs_summary)
    by (vm_compute; discriminate).
  exact (conj H1 (conj H2
    (proj1 (proj2
      (refresh_then_submit_publishes_again env_moved env_moved sys1
         "userA" "userB" "Xk3v9QmT2LpA" docs_summary moved_page no_details
         H1 eq_refl eq_refl eq_refl H3 H2 eq_refl H4))))).
Defined.

(** ** One record at a time *)

(** Closes the goals of a proof that other records are not touched. *)
Ltac other_record :=
  cbn; try reflexivity;
  repeat match goal with
  | |- context [<[_ := _]> _ !! _] => rewrite lookup_insert_ne by congruence
  end;
  try reflexivity.

(** X6.  The handlers that work on one stored record write to that record
    only: after [view], [bookmark], [unbookmark], [getDetails] or [refresh]
    for a stored record, every summary stored under another id is what it
    was, and the first four leave the page store as it was. *)
Theorem other_records_untouched (e : Env) (s : Sys) (u rid k : string)
    (r : ResourceSummary.t) :
  summaries (storage s) !! rid = Some r ->
  k <> ResourceSummary.id r ->
  (summaries (storage (run (view (Some rid)) e s)) !! k
     = summaries (storage s) !! k /\
   PAGE (run (view (Some rid)) e s) = PAGE s) /\
  (summaries (storage (run (bookmark u (Some rid)) e s)) !! k
     = summaries (storage s) !! k /\
   PAGE (run (bookmark u (Some rid)) e s) = PAGE s) /\
  (summaries (storage (run (unbookmark u (Some rid)) e s)) !! k
     = summaries (storage s) !! k /\
   PAGE (run (unbookmark u (Some rid)) e s) = PAGE s) /\
  (summaries (storage (run (getDetails (Some rid)) e s)) !! k
     = summaries (storage s) !! k /\
   PAGE (run (getDetails (Some rid)) e s) = PAGE s) /\
  summaries (storage (run (refresh u rid) e s)) !! k
    = summaries (storage s) !! k.
Proof.
  intros Hr Hk. unfold run.
  repeat apply conj.
  - unfold view, getResourceOrNull, getResource, updateResource,
      updateResourceCache. exec. cases; other_record.
  - unfold view, getResourceOrNull, getResource, updateResource,
      updateResourceCache. exec. cases; reflexivity.
  - unfold bookmark, getResourceOrNull, getResource, updateResource,
      updateResourceCache. exec. cases; other_record.
  - unfold bookmark, getResourceOrNull, getResource, updateResource,
      updateResourceCache. exec. cases; reflexivity.
  - unfold unbookmark, getResourceOrNull, getResource, updateResource,
      updateResourceCache. exec. cases; other_record.
  - unfold unbookmark, getResourceOrNull, getResource, updateResource,
      updateResourceCache. exec. cases; reflexivity.
  - unfold getDetails, getResourceOrNull, getResource, updateResourceCache.
    exec. cases; other_record.
  - unfold getDetails, getResourceOrNull, getResource, updateResourceCache.
    exec. cases; reflexivity.
  - unfold refresh, getResource, updateResource, updateResourceCache.
    exec. cases; other_record.
Qed.

(** ** Removing a bookmark *)

Lemma In_without u x l : In x (without u l) <-> In x l /\ x <> u.
Proof.
  unfold without. rewrite filter_In, negb_true_iff, String.eqb_neq. tauto.
Qed.

Lemma without_absent u l : ~ In u l -> without u l = l.
Proof.
  intros Hnot. unfold without. induction l as [|x l IH]; [reflexivity|].
  cbn. destruct (String.eqb x u) eqn:Heq; cbn.
  - apply String.eqb_eq in Heq. subst. exfalso. apply Hnot. left. reflexivity.
  - f_equal. apply IH. intros H. apply Hnot. right. exact H.
Qed.

Lemma without_app_last u l : ~ In u l -> without u (l ++ [u]) = l.
Proof.
  intros Hnot. unfold without. rewrite List.filter_app. cbn.
  rewrite String.eqb_refl. cbn. rewrite app_nil_r.
  apply without_absent, Hnot.
Qed.

Lemma with_bookmarked_same r :
  with_bookmarked r (ResourceSummary.bookmarked r) = r.
Proof. destruct r. reflexivity. Qed.

Lemma unbookmark_state e s u rid r :
  truthy rid = true ->
  summaries (storage s) !! rid = Some r ->
  ResourceSummary.id r = rid ->
  exists s',
    unbookmark u (Some rid) e s = (Ok true, s') /\
    summaries (storage s') =
      <[rid := with_bookmarked r (without u (ResourceSummary.bookmarked r))]>
        (summaries (storage s)).
Proof.
  intros Ht Hr Hid. subst rid.
  destruct (includes u (ResourceSummary.bookmarked r)) eqn:Hin.
  - unfold unbookmark, getResourceOrNull, getResource.
    rewrite Ht. exec. rewrite Hr. cbn. unfold unbookmark_array. cbn.
    rewrite Hin. cbn. unfold updateResource, updateResourceCache. exec. cbn.
    destruct (PAGE s !! ResourceSummary.url r); cbn;
      eexists; (split; [reflexivity|]); reflexivity.
  - exists s. split.
    + apply (unbookmark_unchanged e s u _ r Ht Hr).
      unfold unbookmark_array. cbn. rewrite Hin. reflexivity.
    + apply includes_not_In in Hin.
      rewrite (without_absent u _ Hin), with_bookmarked_same.
      symmetry. apply insert_id. exact Hr.
Qed.

(** X7.  [unbookmark] on a stored record returns true and leaves the record
    with every occurrence of the user removed from [bookmarked], also when
    the list held the user more than once; the other users stay, in their
    order, and no other field of the record changes. *)
Theorem unbookmark_removes_user (e : Env) (s : Sys) (u rid : string)
    (r : ResourceSummary.t) :
  truthy rid = true ->
  summaries (storage s) !! rid = Some r ->
  ResourceSummary.id r = rid ->
  value (unbookmark u (Some rid)) e s = Ok true /\
  summaries (storage (run (unbookmark u (Some rid)) e s)) !! rid
    = Some (with_bookmarked r (without u (ResourceSummary.bookmarked r))) /\
  ~ In u (without u (ResourceSummary.bookmarked r)) /\
  (forall x, In x (without u (ResourceSummary.bookmarked r))
             <-> In x (ResourceSummary.bookmarked r) /\ x <> u).
Proof.
  intros Ht Hr Hid.
  destruct (unbookmark_state e s u rid r Ht Hr Hid) as (s' & Hun & Hs).
  unfold value, run. rewrite Hun. cbn [fst snd].
  split; [reflexivity|]. split; [rewrite Hs; apply lookup_insert_eq|].
  split; [|intros x; apply In_without].
  intros H. apply In_without in H. destruct H as [_ H]. apply H. reflexivity.
Qed.

Lemma storage_ext (a b : Storage) :
  summaries a = summaries b ->
  index_URL a = index_URL b ->
  index_PackageName a = index_PackageName b ->
  a = b.
Proof. destruct a, b. cbn. intros -> -> ->. reflexivity. Qed.

(** X8.  Bookmarking and then unbookmarking is a round trip on storage:
    for a stored record that does not hold the user yet, [bookmark] followed
    by [unbookmark] for that user both return true and leave the durable
    storage (every summary and both index blobs) exactly as it was before
    the two calls. *)
Theorem bookmark_unbookmark_roundtrip (e : Env) (s : Sys) (u rid : string)
    (r : ResourceSummary.t) :
  truthy rid = true ->
  summaries (storage s) !! rid = Some r ->
  ResourceSummary.id r = rid ->
  ~ In u (ResourceSummary.bookmarked r) ->
  value (bookmark u (Some rid)) e s = Ok true /\
  value (unbookmark u (Some rid)) e (run (bookmark u (Some rid)) e s)
    = Ok true /\
  storage (run (unbookmark u (Some rid)) e (run (bookmark u (Some rid)) e s))
    = storage s.
Proof.
  intros Ht Hr Hid Hnot.
  pose proof (bookmark_same_indices u (Some rid) e s) as (_ & _ & Hb1 & Hb2).
  destruct (bookmark_absent e s u rid r Ht Hr Hid
              (proj2 (includes_not_In _ _) Hnot)) as (s1 & Hb & Hs1).
  unfold value, run. rewrite Hb in *. cbn [fst snd] in *.
  split; [reflexivity|].
  pose proof (unbookmark_same_indices u (Some rid) e s1) as (_ & _ & Hu1 & Hu2).
  assert (Hr1 : summaries (storage s1) !! rid
            = Some (with_bookmarked r
                      (ResourceSummary.bookmarked r ++ [u])%list)).
  { rewrite Hs1. apply lookup_insert_eq. }
  destruct (unbookmark_state e s1 u rid _ Ht Hr1 Hid) as (s2 & Hun & Hs2).
  rewrite Hun in *. cbn [fst snd] in *.
  split; [reflexivity|].
  apply storage_ext; [|congruence|congruence].
  rewrite Hs2, Hs1, insert_insert_eq.
  change (with_bookmarked
            (with_bookmarked r (ResourceSummary.bookmarked r ++ [u])%list)
            (without u
               (ResourceSummary.bookmarked
                  (with_bookmarked r
                     (ResourceSummary.bookmarked r ++ [u])%list))))
    with (with_bookmarked r
            (without u (ResourceSummary.bookmarked r ++ [u])%list)).
  rewrite (without_app_last u _ Hnot), with_bookmarked_same.
  apply insert_id. exact Hr.
Qed.

Lemma other_records_untouched_witness :
  summaries (storage sys_restored) !! "Qw8eRt1yUi2o" = Some foreign_summary
  /\ "Xk3v9QmT2LpA" <> ResourceSummary.id foreign_summary
  /\ summaries
       (storage (run (view (Some "Qw8eRt1yUi2o")) env0 sys_restored))
       !! "Xk3v9QmT2LpA"
     = summaries (storage sys_restored) !! "Xk3v9QmT2LpA".
Proof.
  assert (H1 : summaries (storage sys_restored) !! "Qw8eRt1yUi2o"
               = Some foreign_summary) by (vm_compute; reflexivity).
  assert (H2 : "Xk3v9QmT2LpA" <> ResourceSummary.id foreign_summary)
    by (vm_compute; discriminate).
  exact (conj H1 (conj H2
    (proj1 (proj1 (other_records_untouched env0 sys_restored "userA"
                     "Qw8eRt1yUi2o" "Xk3v9QmT2LpA" foreign_summary H1 H2))))).
Defined.

Lemma unbookmark_removes_user_witness :
  truthy "Qw8eRt1yUi2o" = true
  /\ summaries (storage sys_restored) !! "Qw8eRt1yUi2o" = Some foreign_summary
  /\ summaries
       (storage (run (unbookmark "userC" (Some "Qw8eRt1yUi2o")) env0
                   sys_restored)) !! "Qw8eRt1yUi2o"
     = Some (with_bookmarked foreign_summary
               (without "userC" (ResourceSummary.bookmarked foreign_summary))).
Proof.
  assert (H1 : truthy "Qw8eRt1yUi2o" = true) by reflexivity.
  assert (H2 : summaries (storage sys_restored) !! "Qw8eRt1yUi2o"
               = Some foreign_summary) by (vm_compute; reflexivity).
  exact (conj H1 (conj H2
    (proj1 (proj2 (unbookmark_removes_user env0 sys_restored "userC"
                     "Qw8eRt1yUi2o" foreign_summary H1 H2 eq_refl))))).
Defined.

Lemma bookmark_unbookmark_roundtrip_witness :
  truthy "Xk3v9QmT2LpA" = true
  /\ summaries (storage sys1) !! "Xk3v9QmT2LpA" = Some docs_summary
  /\ ~ In "userB" (ResourceSummary.bookmarked docs_summary)
  /\ storage (run (unbookmark "userB" (Some "Xk3v9QmT2LpA")) env0
                (run (bookmark "userB" (Some "Xk3v9QmT2LpA")) env0 sys1))
     = storage sys1.
Proof.
  assert (H1 : truthy "Xk3v9QmT2LpA" = true) by reflexivity.
  assert (H2 : summaries (storage sys1) !! "Xk3v9QmT2LpA" = Some docs_summary)
    by (vm_compute; reflexivity).
  assert (H3 : ~ In "userB" (ResourceSummary.bookmarked docs_summary))
    by (simpl; tauto).
  exact (conj H1 (conj H2 (conj H3
    (proj2 (proj2 (bookmark_unbookmark_roundtrip env0 sys1 "userB"
                     "Xk3v9QmT2LpA" docs_summary H1 H2 eq_refl H3)))))).
Defined.

(** ** Invariants of the requests *)

Section RequestInvariant.

Variable P : Sys -> Prop.
Variable dump_ok : Storage -> Prop.

Hypothesis P_emit : forall x s, P s -> P (emit x s).
Hypothesis P_submit : forall u url e s, P s -> P (snd (submit u url e s)).
Hypothesis P_refresh : forall u rid e s, P s -> P (snd (refresh u rid e s)).
Hypothesis P_getDetails : forall rid e s, P s -> P (snd (getDetails rid e s)).
Hypothesis P_view : forall rid e s, P s -> P (snd (view rid e s)).
Hypothesis P_bookmark :
  forall u rid e s, P s -> P (snd (bookmark u rid e s)).
Hypothesis P_unbookmark :
  forall u rid e s, P s -> P (snd (unbookmark u rid e s)).
Hypothesis P_restore : forall data e s,
  P s -> dump_ok data ->
  P (snd ((storage_put_entries data ;; initialise) e s)).

(** A route of [handle] that parses the body and calls one method. *)
Ltac kept_handler lemma :=
  apply bind_preserved; [cbn; assumption|];
  intros ? ? _ ?;
  apply bind_preserved; [apply lemma; assumption|];
  intros ? ? _ ?; assumption.

Lemma handle_kept request e s :
  P s -> dump_ok (dump_of request) -> P (snd (handle request e s)).
Proof.
  intros HP Hd. unfold handle.
  apply bind_preserved; [exact HP|]. intros ready s1 [= <- <-] _.
  destruct (negb (store_ready s)); [exact HP|].
  repeat match goal with
  | |- P (snd ((if ?c then _ else _) _ _)) => destruct c
  end.
  - kept_handler P_submit.
  - kept_handler P_refresh.
  - apply bind_preserved; [apply P_getDetails; assumption|].
    intros ? ? _ ?; assumption.
  - kept_handler P_view.
  - kept_handler P_bookmark.
  - kept_handler P_unbookmark.
  - exact HP.
  - unfold dump_of in Hd. unfold call at 1.
    apply bind_preserved; [exact HP|]. intros j s1 Hj _.
    injection Hj as Hj <-. rewrite Hj in Hd.
    pose proof (P_restore (json_entries j) e s HP Hd) as Hr.
    unfold initialise, createResourceStore in *. exec. exact Hr.
  - exact HP.
Qed.

Lemma fetch_kept request e s :
  P s -> dump_ok (dump_of request) -> P (run (fetch request) e s).
Proof.
  intros HP Hd. pose proof (handle_kept request e s HP Hd) as H.
  unfold run, fetch, on_exception. exec.
  destruct (handle request e s) as [[response|[message|v]] s1]; cbn in *;
    repeat apply P_emit; exact H.
Qed.

Lemma serve_kept requests : forall s,
  P s ->
  Forall (fun r => dump_ok (dump_of (snd r))) requests ->
  P (serve requests s).
Proof.
  induction requests as [|[e request] requests IH]; intros s HP Hall; cbn.
  - exact HP.
  - inversion Hall as [|? ? Hd Hrest]; subst. apply IH; [|exact Hrest].
    apply fetch_kept; assumption.
Qed.

End RequestInvariant.

(** ** Records are never deleted *)

(** Closes the goals of a proof that a stored id stays stored. *)
Ltac stays :=
  cbn; rewrite ?lookup_insert_is_Some'; auto.

Lemma submit_stays k u url e s :
  is_Some (summaries (storage s) !! k) ->
  is_Some (summaries (storage (snd (submit u url e s))) !! k).
Proof.
  intros Hk. unfold submit, bind.
  destruct (loadPage url e s) as [[page|x] s1] eqn:Hload; cbn;
    destruct (loadPage_frame _ _ _ _ _ Hload) as ((Hst & _) & _);
    rewrite <- Hst in Hk; [|exact Hk].
  clear Hload Hst.
  unfold createResource, updateResource, updateResourceCache. exec.
  cases; stays.
Qed.

Lemma refresh_stays k u rid e s :
  is_Some (summaries (storage s) !! k) ->
  is_Some (summaries (storage (snd (refresh u rid e s))) !! k).
Proof.
  intros Hk. unfold refresh, getResource, updateResource, updateResourceCache.
  exec. cases; stays.
Qed.

Lemma getDetails_stays k rid e s :
  is_Some (summaries (storage s) !! k) ->
  is_Some (summaries (storage (snd (getDetails rid e s))) !! k).
Proof.
  intros Hk.
  unfold getDetails, getResourceOrNull, getResource, updateResourceCache.
  exec. cases; stays.
Qed.

Lemma view_stays k rid e s :
  is_Some (summaries (storage s) !! k) ->
  is_Some (summaries (storage (snd (view rid e s))) !! k).
Proof.
  intros Hk. unfold view, getResourceOrNull, getResource, updateResource,
    updateResourceCache.
  exec. cases; stays.
Qed.

Lemma bookmark_stays k u rid e s :
  is_Some (summaries (storage s) !! k) ->
  is_Some (summaries (storage (snd (bookmark u rid e s))) !! k).
Proof.
  intros Hk. unfold bookmark, getResourceOrNull, getResource, updateResource,
    updateResourceCache.
  exec. cases; stays.
Qed.

Lemma unbookmark_stays k u rid e s :
  is_Some (summaries (storage s) !! k) ->
  is_Some (summaries (storage (snd (unbookmark u rid e s))) !! k).
Proof.
  intros Hk. unfold unbookmark, getResourceOrNull, getResource,
    updateResource, updateResourceCache.
  exec. cases; stays.
Qed.

Lemma restore_stays k data e s :
  is_Some (summaries (storage s) !! k) ->
  is_Some (summaries
             (storage (snd ((storage_put_entries data ;; initialise) e s)))
             !! k).
Proof.
  intros Hk. unfold initialise, createResourceStore. exec. cbn.
  apply lookup_union_is_Some. right. exact Hk.
Qed.

(** X9.  No request ever deletes a record: an id that has a stored summary
    still has one after any sequence of requests, restores included (a
    restore writes the entries of its dump over storage and removes
    nothing). *)
Theorem records_never_deleted (requests : list (Env * Request)) (s : Sys)
    (k : string) :
  is_Some (summaries (storage s) !! k) ->
  is_Some (summaries (storage (serve requests s)) !! k).
Proof.
  intros Hk.
  apply (serve_kept (fun s => is_Some (summaries (storage s) !! k))
           (fun _ => True)); auto.
  - intros; apply submit_stays; assumption.
  - intros; apply refresh_stays; assumption.
  - intros; apply getDetails_stays; assumption.
  - intros; apply view_stays; assumption.
  - intros; apply bookmark_stays; assumption.
  - intros; apply unbookmark_stays; assumption.
  - intros; apply restore_stays; assumption.
  - apply Forall_forall. auto.
Qed.

Lemma records_never_deleted_witness :
  is_Some (summaries (storage sys1) !! "Xk3v9QmT2LpA")
  /\ is_Some
       (summaries
          (storage
             (serve [(env0, restore_request foreign_dump);
                     (env_moved,
                      mkRequest "http://resources/refresh" "/refresh" None
                        "POST" (json_of "" "userB" "Xk3v9QmT2LpA"));
                     (env0, submit_request "userB" moved_url)] sys1))
          !! "Xk3v9QmT2LpA").
Proof.
  assert (H : is_Some (summaries (storage sys1) !! "Xk3v9QmT2LpA"))
    by (vm_compute; eauto).
  exact (conj H (records_never_deleted _ sys1 _ H)).
Defined.

(** ** The index only holds ids of stored records *)

Lemma index_backed_kept s s' :
  index_backed s ->
  resourceIdByURL s' = resourceIdByURL s ->
  (forall k, is_Some (summaries (storage s) !! k) ->
             is_Some (summaries (storage s') !! k)) ->
  index_backed s'.
Proof.
  intros Hb Hi Hs u id Hu. rewrite Hi in Hu. apply Hs. eapply Hb. exact Hu.
Qed.

Lemma submit_index_backed u url e s :
  index_backed s -> index_backed (snd (submit u url e s)).
Proof.
  intros Hb. unfold submit, bind.
  destruct (loadPage url e s) as [[page|x] s1] eqn:Hload; cbn;
    destruct (loadPage_frame _ _ _ _ _ Hload) as ((Hst & Hi & _) & _).
  2: { eapply index_backed_kept; [exact Hb | exact Hi |].
       intros k. rewrite Hst. auto. }
  assert (Hb1 : index_backed s1).
  { eapply index_backed_kept; [exact Hb | exact Hi |].
    intros k. rewrite Hst. auto. }
  clear Hload Hst Hi Hb. unfold index_backed in *.
  unfold createResource, updateResource, updateResourceCache. exec.
  cases; intros u' id'; rewrite ?lookup_insert; intros;
    simplify_eq; repeat case_decide; simplify_eq;
    first [by eexists | eauto].
Qed.

Lemma restore_consistent data e s :
  consistent s -> dump_ok data ->
  consistent (snd ((storage_put_entries data ;; initialise) e s)).
Proof.
  intros [Hwf Hb] [Hd Hdb].
  split; [apply restore_wf; [apply Hwf | exact Hd]|].
  destruct Hwf as (_ & Hu & _). unfold index_backed in *.
  unfold initialise, createResourceStore. exec. cbn.
  intros u id Hid. apply lookup_union_is_Some.
  destruct (index_URL data) as [index|] eqn:Hindex; cbn in Hid.
  - left. eapply Hdb; eauto.
  - right. apply (Hb u). rewrite Hu. exact Hid.
Qed.

Lemma consistent_kept s s' :
  consistent s -> well_formed s' ->
  resourceIdByURL s' = resourceIdByURL s ->
  (forall k, is_Some (summaries (storage s) !! k) ->
             is_Some (summaries (storage s') !! k)) ->
  consistent s'.
Proof.
  intros [_ Hb] Hwf Hi Hs. split; [exact Hwf|].
  eapply index_backed_kept; eassumption.
Qed.

Lemma fetch_consistent request e s :
  consistent s -> dump_ok (dump_of request) ->
  consistent (run (fetch request) e s).
Proof.
  apply (fetch_kept consistent dump_ok).
  - intros x s0 H. exact H.
  - intros u url e0 s0 [Hwf Hb].
    split; [apply submit_wf, Hwf | apply submit_index_backed, Hb].
  - intros u rid e0 s0 H. eapply consistent_kept; [exact H | | |].
    + apply refresh_wf, H.
    + apply refresh_same_indices.
    + intros k. apply refresh_stays.
  - intros rid e0 s0 H. eapply consistent_kept; [exact H | | |].
    + apply getDetails_wf, H.
    + apply getDetails_same_indices.
    + intros k. apply getDetails_stays.
  - intros rid e0 s0 H. eapply consistent_kept; [exact H | | |].
    + apply view_wf, H.
    + apply view_same_indices.
    + intros k. apply view_stays.
  - intros u rid e0 s0 H. eapply consistent_kept; [exact H | | |].
    + apply bookmark_wf, H.
    + apply bookmark_same_indices.
    + intros k. apply bookmark_stays.
  - intros u rid e0 s0 H. eapply consistent_kept; [exact H | | |].
    + apply unbookmark_wf, H.
    + apply unbookmark_same_indices.
    + intros k. apply unbookmark_stays.
  - intros data e0 s0. apply restore_consistent.
Qed.

(** X10.  The invariants of a running actor.  Constructed on storage whose
    summaries are stored under their own ids with duplicate-free bookmarks
    and whose URL index only holds ids of stored summaries, the actor keeps,
    through any sequence of requests whose restore dumps are of that kind
    too: every summary stored under its own id, no duplicate in any
    [bookmarked] list, the in-memory indices equal to the index blobs of
    storage, and every id of the URL index backed by a stored summary. *)
Theorem reachable_states_consistent (e0 : Env) (st : Storage)
    (pages : gmap string Page.t)
    (content : gmap string (Resource.t * ResourceMetadata.t))
    (requests : list (Env * Request)) :
  dump_ok st ->
  Forall (fun r => dump_ok (dump_of (snd r))) requests ->
  well_formed (serve requests (ResourcesStore e0 st pages content)) /\
  index_backed (serve requests (ResourcesStore e0 st pages content)).
Proof.
  intros [Hwf Hb] Hall.
  induction requests as [|[e request] requests IH] using rev_ind.
  - split; [apply ResourcesStore_wf, Hwf|].
    intros u id Hid. cbn in *.
    destruct (index_URL st) as [index|] eqn:Hindex; cbn in Hid.
    + eapply Hb; eauto.
    + rewrite lookup_empty in Hid. discriminate.
  - apply Forall_app in Hall. destruct Hall as [Hall Hlast].
    inversion Hlast as [|? ? Hd _]; subst.
    assert (Hserve : forall l s,
              serve (l ++ [(e, request)]) s
              = run (fetch request) e (serve l s)).
    { induction l as [|[e1 r1] l IHl]; intros s; cbn; [reflexivity|].
      apply IHl. }
    rewrite Hserve. apply fetch_consistent; [apply IH, Hall | exact Hd].
Qed.

Lemma view_true rid r e s :
  truthy rid = true ->
  summaries (storage s) !! rid = Some r ->
  value (view (Some rid)) e s = Ok true.
Proof.
  intros Ht Hr. unfold value, view, getResourceOrNull, bind.
  rewrite Ht, (getResource_stored rid r e s Hr).
  unfold detached, try_catch.
  destruct (updateResource _ None e s) as [[[]|x] s1]; reflexivity.
Qed.

Lemma getDetails_value rid r e s :
  truthy rid = true ->
  summaries (storage s) !! rid = Some r ->
  value (getDetails (Some rid)) e s = Ok (Some (Summary r)).
Proof.
  intros Ht Hr. unfold value, getDetails, getResourceOrNull, bind.
  rewrite Ht, (getResource_stored rid r e s Hr).
  unfold detached, try_catch.
  destruct (updateResourceCache r None e s) as [[[]|x] s1]; reflexivity.
Qed.

(** X11.  An id that [submit] hands out can be used.  In a state whose URL
    index only holds ids of stored summaries, whenever [submit] returns a
    non-null id (PUBLISHED or RESUBMITTED, the generated ids being 12
    characters long), that id has a stored summary afterwards, so that
    [view] of it returns true and [getDetails] of it returns that summary. *)
Theorem submitted_id_is_stored (e e' : Env) (s : Sys) (userId url id : string)
    (st : SubmissionStatus) :
  index_backed s ->
  String.length (generateId e (nonce s)) = 12%nat ->
  value (submit userId url) e s = Ok (Some id, st) ->
  exists r,
    summaries (storage (run (submit userId url) e s)) !! id = Some r /\
    value (view (Some id)) e' (run (submit userId url) e s) = Ok true /\
    value (getDetails (Some id)) e' (run (submit userId url) e s)
      = Ok (Some (Summary r)).
Proof.
  intros Hb Hlen H.
  assert (Hgoal : truthy id = true /\
            is_Some (summaries (storage (run (submit userId url) e s)) !! id)).
  { destruct (loadPage url e s) as [[page|x] s1] eqn:Hload.
    2: { unfold value in H. rewrite (submit_throws _ _ _ _ _ _ Hload) in H.
         discriminate. }
    destruct (truthy_id (resourceIdByURL s !! Page.url page)) eqn:Hid.
    - destruct (resourceIdByURL s !! Page.url page) as [i|] eqn:Hi;
        [|discriminate].
      unfold value, run in *.
      rewrite (submit_indexed _ _ _ _ _ _ _ Hload Hi Hid) in *.
      injection H as <- <-. split; [exact Hid|]. cbn.
      destruct (loadPage_frame _ _ _ _ _ Hload) as ((-> & _) & _).
      eapply Hb. exact Hi.
    - destruct (Page.isSafe page) eqn:Hsafe.
      + destruct (submit_safe_fresh userId url e s page s1 Hload Hsafe Hid
                    (truthy_length _ Hlen)) as (sA & HsA & Hsum & _).
        unfold value, run in *. rewrite HsA in *. injection H as <- <-.
        split; [apply truthy_length, Hlen|]. cbn. rewrite Hsum.
        rewrite lookup_insert_eq. eauto.
      + unfold value in H.
        rewrite (submit_unsafe_fresh _ _ _ _ _ _ Hload Hsafe Hid) in H.
        discriminate. }
  destruct Hgoal as [Ht [r Hr]]. exists r.
  split; [exact Hr|]. split.
  - eapply view_true; eassumption.
  - apply getDetails_value; assumption.
Qed.

Lemma empty_dump_ok : dump_ok empty_storage.
Proof.
  split.
  - intros k r H. vm_compute in H. discriminate.
  - intros index u id H. discriminate.
Qed.

Lemma foreign_dump_ok : dump_ok foreign_dump.
Proof.
  split.
  - intros k r H. unfold foreign_dump in H. cbn in H.
    apply lookup_singleton_Some in H. destruct H as [<- <-].
    split; [reflexivity|]. apply NoDup_singleton.
  - intros index u id H. discriminate.
Qed.

Lemma reachable_states_consistent_witness :
  dump_ok empty_storage
  /\ Forall (fun r => dump_ok (dump_of (snd r)))
       [(env0, submit_request "userA" docs_url);
        (env0, restore_request foreign_dump);
        (env0, details_request "Qw8eRt1yUi2o")]
  /\ index_backed
       (serve [(env0, submit_request "userA" docs_url);
               (env0, restore_request foreign_dump);
               (env0, details_request "Qw8eRt1yUi2o")]
          (ResourcesStore env0 empty_storage ∅ ∅)).
Proof.
  assert (H : Forall (fun r => dump_ok (dump_of (snd r)))
       [(env0, submit_request "userA" docs_url);
        (env0, restore_request foreign_dump);
        (env0, details_request "Qw8eRt1yUi2o")]).
  { constructor; [exact empty_dump_ok|].
    constructor; [exact foreign_dump_ok|].
    constructor; [exact empty_dump_ok|]. constructor. }
  exact (conj empty_dump_ok (conj H
    (proj2 (reachable_states_consistent env0 empty_storage ∅ ∅ _
              empty_dump_ok H)))).
Defined.

Lemma submitted_id_is_stored_witness :
  index_backed sys1
  /\ value (submit "userB" docs_url) env0 sys1
       = Ok (Some "Xk3v9QmT2LpA", RESUBMITTED)
  /\ value (view (Some "Xk3v9QmT2LpA")) env_down
       (run (submit "userB" docs_url) env0 sys1) = Ok true.
Proof.
  assert (H1 : index_backed sys1).
  { apply (submit_index_backed "userA" docs_url env0 sys0).
    intros u id H. vm_compute in H. discriminate. }
  assert (H2 : value (submit "userB" docs_url) env0 sys1
               = Ok (Some "Xk3v9QmT2LpA", RESUBMITTED))
    by (vm_compute; reflexivity).
  destruct (submitted_id_is_stored env0 env_down sys1 "userB" docs_url _ _
              H1 eq_refl H2) as (r & _ & Hv & _).
  exact (conj H1 (conj H2 Hv)).
Defined.

(** ** Restoring a dump *)

Lemma put_entries_twice data st :
  put_entries data (put_entries data st) = put_entries data st.
Proof.
  unfold put_entries. cbn. apply storage_ext; cbn.
  - apply map_eq. intros k. rewrite !lookup_union.
    destruct (summaries data !! k), (summaries st !! k); reflexivity.
  - destruct (index_URL data); reflexivity.
  - destruct (index_PackageName data); reflexivity.
Qed.

(** X12.  A restore writes the entries of the dump over storage and deletes
    nothing: afterwards every summary of the dump is stored as the dump has
    it, every summary the dump does not mention is what it was, an index
    blob is replaced only when the dump has one, and the in-memory indices
    are the ones storage then holds.  Restoring the same dump a second time
    changes neither storage nor the indices. *)
Theorem restore_overwrites_and_keeps (request : Request) (j : Json)
    (e e' : Env) (s : Sys) :
  store_ready s = true ->
  is_route "/restore" "POST" request = true ->
  req_json request = Ok j ->
  value (fetch request) e s = Ok OK /\
  (forall k r,
     summaries (json_entries j) !! k = Some r ->
     summaries (storage (run (fetch request) e s)) !! k = Some r) /\
  (forall k,
     summaries (json_entries j) !! k = None ->
     summaries (storage (run (fetch request) e s)) !! k
       = summaries (storage s) !! k) /\
  index_URL (storage (run (fetch request) e s))
    = match index_URL (json_entries j) with
      | Some index => Some index
      | None => index_URL (storage s)
      end /\
  index_PackageName (storage (run (fetch request) e s))
    = match index_PackageName (json_entries j) with
      | Some index => Some index
      | None => index_PackageName (storage s)
      end /\
  resourceIdByURL (run (fetch request) e s)
    = default ∅ (index_URL (storage (run (fetch request) e s))) /\
  resourceIdByPackageName (run (fetch request) e s)
    = default ∅ (index_PackageName (storage (run (fetch request) e s))) /\
  storage (run (fetch request) e' (run (fetch request) e s))
    = storage (run (fetch request) e s) /\
  same_indices (run (fetch request) e s)
    (run (fetch request) e' (run (fetch request) e s)).
Proof.
  intros Hready Hroute Hj.
  apply is_route_true in Hroute. destruct Hroute as [Hpath Hmethod].
  destruct (fetch_restore request j e s Hready Hpath Hmethod Hj)
    as (s1 & Hf & Hst & Hr1 & Hu & Hp & _).
  destruct (fetch_restore request j e' s1 Hr1 Hpath Hmethod Hj)
    as (s2 & Hf2 & Hst2 & _ & Hu2 & Hp2 & _).
  unfold value, run. rewrite Hf. cbn [fst snd]. rewrite Hf2. cbn [fst snd].
  assert (Hsame : storage s2 = storage s1).
  { rewrite Hst2, Hst. apply put_entries_twice. }
  split; [reflexivity|].
  split.
  { intros k r Hk. rewrite Hst. cbn. rewrite lookup_union, Hk.
    destruct (summaries (storage s) !! k); reflexivity. }
  split.
  { intros k Hk. rewrite Hst. cbn. rewrite lookup_union, Hk.
    destruct (summaries (storage s) !! k); reflexivity. }
  split; [rewrite Hst; reflexivity|]. split; [rewrite Hst; reflexivity|].
  split; [exact Hu|]. split; [exact Hp|].
  split; [exact Hsame|].
  unfold same_indices. rewrite Hu2, Hp2, Hu, Hp, Hsame. repeat split.
Qed.

Lemma restore_overwrites_and_keeps_witness :
  store_ready sys1 = true
  /\ value (fetch (restore_request foreign_dump)) env0 sys1 = Ok OK
  /\ summaries
       (storage (run (fetch (restore_request foreign_dump)) env0 sys1))
       !! "Xk3v9QmT2LpA" = summaries (storage sys1) !! "Xk3v9QmT2LpA"
  /\ summaries
       (storage (run (fetch (restore_request foreign_dump)) env0 sys1))
       !! "Qw8eRt1yUi2o" = Some foreign_summary.
Proof.
  assert (H1 : store_ready sys1 = true) by reflexivity.
  destruct (restore_overwrites_and_keeps (restore_request foreign_dump)
              (mkJson "" "" "" foreign_dump) env0 env0 sys1
              H1 eq_refl eq_refl) as (R1 & R2 & R3 & _).
  assert (H2 : summaries foreign_dump !! "Xk3v9QmT2LpA" = None)
    by (vm_compute; reflexivity).
  assert (H3 : summaries foreign_dump !! "Qw8eRt1yUi2o" = Some foreign_summary)
    by (vm_compute; reflexivity).
  exact (conj H1 (conj R1 (conj (R3 _ H2) (R2 _ _ H3)))).
Defined.

(** ** A stored page is reused *)

Lemma loadPage_stored url page e s :
  PAGE s !! url = Some page -> loadPage url e s = (Ok page, s).
Proof. intros H. unfold loadPage. exec. rewrite H. reflexivity. Qed.

(** X13.  [submit] never consults the scraper, the page details or the
    safety check for a URL the page store has a page for: its result and
    the state it leaves are the same in any two environments that agree on
    the id generator, the clock and the integration detection.  A stored
    verdict therefore sticks: when the stored page is unsafe and its URL is
    not registered, [submit] answers INVALID and changes nothing, whatever
    the safety check would answer now. *)
Theorem stored_page_is_reused (s : Sys) (userId url : string)
    (page : Page.t) :
  PAGE s !! url = Some page ->
  (forall e1 e2,
     generateId e1 = generateId e2 ->
     toISOString e1 = toISOString e2 ->
     getIntegrations e1 = getIntegrations e2 ->
     getIntegrationsFromPage e1 = getIntegrationsFromPage e2 ->
     submit userId url e1 s = submit userId url e2 s) /\
  (Page.isSafe page = false ->
   truthy_id (resourceIdByURL s !! Page.url page) = false ->
   forall e, submit userId url e s = (Ok (None, INVALID), s)).
Proof.
  intros Hpage. split.
  - intros e1 e2 Hg Ht Hi Hip. unfold submit, bind.
    rewrite !(loadPage_stored url page _ s Hpage).
    unfold createResource, updateResource, updateResourceCache, integrationsOf.
    exec.
    destruct (truthy_id (resourceIdByURL s !! Page.url page));
      destruct (Page.isSafe page);
      destruct (String.eqb (Page.category page) "package");
      destruct (String.eqb (Page.category page) "repository");
      cbn; rewrite ?Hg, ?Ht, ?Hi, ?Hip;
      try destruct (truthy (generateId e2 (nonce s))); reflexivity.
  - intros Hsafe Hid e.
    apply (submit_unsafe_fresh userId url e s page s); [|exact Hsafe|exact Hid].
    apply loadPage_stored, Hpage.
Qed.

Lemma stored_page_is_reused_witness :
  PAGE sys_flagged !! docs_url = Some docs_flagged
  /\ submit "userB" docs_url env0 sys_flagged
     = submit "userB" docs_url env_down sys_flagged.
Proof.
  assert (H : PAGE sys_flagged !! docs_url = Some docs_flagged)
    by (vm_compute; reflexivity).
  exact (conj H
    (proj1 (stored_page_is_reused sys_flagged "userB" docs_url docs_flagged H)
       env0 env_down eq_refl eq_refl eq_refl eq_refl)).
Defined.

(** ** Packages *)

Lemma In_Object_keys (index : gmap string string) k v :
  index !! k = Some v -> In k (Object_keys index).
Proof.
  intros H. unfold Object_keys. apply list_elem_of_In, list_elem_of_fmap.
  exists (k, v). split; [reflexivity|]. apply elem_of_map_to_list. exact H.
Qed.

(** X14.  Publishing a package registers its title.  When [submit]
    publishes a page of category "package", the package-name index maps the
    page's title to the new id, in memory and in the index blob of storage,
    and the title is among the package names the integrations of later
    resources are computed from; for a page of any other category the
    package-name index and its blob stay as they were.  The integrations of
    the published resource itself are computed from the package names
    registered before it. *)
Theorem package_title_registered (e : Env) (s : Sys) (userId url : string)
    (page : Page.t) (s1 : Sys) :
  loadPage url e s = (Ok page, s1) ->
  Page.isSafe page = true ->
  truthy_id (resourceIdByURL s !! Page.url page) = false ->
  String.length (generateId e (nonce s)) = 12%nat ->
  (Page.category page = "package" ->
   resourceIdByPackageName (run (submit userId url) e s)
     = <[Page.title page := generateId e (nonce s)]>
         (resourceIdByPackageName s) /\
   index_PackageName (storage (run (submit userId url) e s))
     = Some (resourceIdByPackageName (run (submit userId url) e s)) /\
   In (Page.title page)
     (Object_keys (resourceIdByPackageName (run (submit userId url) e s)))) /\
  (Page.category page <> "package" ->
   resourceIdByPackageName (run (submit userId url) e s)
     = resourceIdByPackageName s /\
   index_PackageName (storage (run (submit userId url) e s))
     = index_PackageName (storage s)) /\
  (exists resource metadata,
     CONTENT (run (submit userId url) e s)
       !! ("resources/" +:+ generateId e (nonce s))
       = Some (resource, metadata) /\
     Resource.integrations resource
       = integrationsOf e page (Object_keys (resourceIdByPackageName s))).
Proof.
  intros H Hsafe Hid Hlen. pose proof (truthy_length _ Hlen) as Ht.
  destruct (loadPage_frame _ _ _ _ _ H) as ((Hst & Hi & Hp & Hc) & Hr & Hn).
  unfold run, submit, bind. rewrite H. exec. rewrite Hi, Hid. cbn.
  unfold createResource. rewrite Hsafe. cbn.
  unfold updateResource, updateResourceCache. exec. cbn. rewrite Hn.
  destruct (String.eqb (Page.category page) "package") eqn:Hcat; cbn;
    rewrite Ht; cbn; rewrite ?Hp, ?Hst.
  - apply String.eqb_eq in Hcat. split; [|split].
    + intros _. split; [reflexivity|]. split; [reflexivity|].
      eapply In_Object_keys. apply lookup_insert_eq.
    + intros Hne. contradiction.
    + eexists _, _. rewrite lookup_insert_eq. split; reflexivity.
  - apply String.eqb_neq in Hcat. split; [|split].
    + intros Heq. contradiction.
    + intros _. split; reflexivity.
    + eexists _, _. rewrite lookup_insert_eq. split; reflexivity.
Qed.

Lemma package_title_registered_witness :
  loadPage package_url env_package sys0
    = (Ok package_loaded, run (loadPage package_url) env_package sys0)
  /\ truthy_id (resourceIdByURL sys0 !! Page.url package_loaded) = false
  /\ Page.category package_loaded = "package"
  /\ resourceIdByPackageName
       (run (submit "userA" package_url) env_package sys0)
     = <[Page.title package_loaded := generateId env_package (nonce sys0)]>
         (resourceIdByPackageName sys0).
Proof.
  assert (H1 : loadPage package_url env_package sys0
    = (Ok package_loaded, run (loadPage package_url) env_package sys0))
    by (vm_compute; reflexivity).
  assert (H2 : truthy_id (resourceIdByURL sys0 !! Page.url package_loaded)
               = false) by (vm_compute; reflexivity).
  assert (H3 : Page.category package_loaded = "package") by reflexivity.
  exact (conj H1 (conj H2 (conj H3
    (proj1 (proj1 (package_title_registered env_package sys0 "userA"
                     package_url package_loaded _ H1 eq_refl H2 eq_refl)
              H3))))).
Defined.

(** ** Eviction and reconstruction of the actor *)





(** * The facade *)

Create HintDb facade.
#[local] Hint Unfold fret fbind fthrow fasks logging waitUntil removeCache
  resourcesStore_fetch userStore submission_of entries_of statusLine : facade.

(** Unfolds the facade's monad and helpers. *)
Ltac fexec := repeat autounfold with facade in *.

Lemma fetch_submit url userId e s :
  store_ready s = true ->
  fetch (mkRequest "http://resources/submit" "/submit" None "POST"
           (Ok (mkJson url userId "" empty_storage))) e s
  = match submit userId url e s with
    | (Ok result, s') =>
        (Ok (mkResponse (JsonSubmission (fst result) (snd result)) 201),
         reported (mkResponse (JsonSubmission (fst result) (snd result)) 201)
           s')
    | (Throw x, s') =>
        (Ok InternalServerError,
         reported InternalServerError
           (match x with
            | ThrownError message =>
                emit (LoggerLog
                        (failure_message
                           (mkRequest "http://resources/submit" "/submit" None
                              "POST" (Ok (mkJson url userId "" empty_storage)))
                           message))
                  (emit (LoggerError x) s')
            | ThrownValue _ => s'
            end))
    end.
Proof.
  intros Hready.
  destruct (submit userId url e s) as [[result|x] s'] eqn:Hs.
  - apply fetch_returned. unfold handle. exec. rewrite Hready. cbn.
    rewrite Hs. reflexivity.
  - apply fetch_thrown. unfold handle. exec. rewrite Hready. cbn.
    rewrite Hs. reflexivity.
Qed.

(** X16.  The facade's [submit] over an initialised actor.  Whenever the
    actor's [submit] returns, the facade returns that same id and status,
    INVALID with a null id included, logs nothing, and calls
    [removeCache('resources')] exactly when the status is PUBLISHED.
    Whenever the actor's [submit] throws, whatever it throws, the facade
    throws the Error "Fail submitting the resource" instead, logs it when a
    logger is bound, and removes nothing from the cache. *)
Theorem facade_submit (b : Bindings) (w : World) (url userId : string) :
  store_ready (actor w) = true ->
  (forall id st s',
     submit userId url (actorEnv b) (actor w) = (Ok (id, st), s') ->
     fst (Store.submit url userId b w) = Ok (id, st) /\
     removed (snd (Store.submit url userId b w))
       = match st with
         | PUBLISHED => "resources" :: removed w
         | _ => removed w
         end /\
     logged (snd (Store.submit url userId b w)) = logged w /\
     same_records s' (actor (snd (Store.submit url userId b w)))) /\
  (forall x s',
     submit userId url (actorEnv b) (actor w) = (Throw x, s') ->
     fst (Store.submit url userId b w)
       = Throw (ThrownError "Fail submitting the resource") /\
     removed (snd (Store.submit url userId b w)) = removed w /\
     logged (snd (Store.submit url userId b w))
       = if LOGGER b
         then ThrownError "Fail submitting the resource" :: logged w
         else logged w).
Proof.
  intros Hready. split.
  - intros id st s' Hs. unfold Store.submit. fexec.
    rewrite (fetch_submit url userId _ _ Hready), Hs. cbn.
    destruct st; cbn; repeat split.
  - intros x s' Hs. unfold Store.submit. fexec.
    rewrite (fetch_submit url userId _ _ Hready), Hs. cbn.
    destruct (LOGGER b); repeat split.
Qed.

Lemma fetch_refresh_status userId rid e s :
  store_ready s = true ->
  exists response s'',
    fetch (mkRequest "http://resources/refresh" "/refresh" None "POST"
             (Ok (mkJson "" userId rid empty_storage))) e s
      = (Ok response, s'') /\
    status response
      = match fst (refresh userId rid e s) with
        | Ok true => 200%nat
        | Ok false => 404%nat
        | Throw _ => 500%nat
        end.
Proof.
  intros Hready.
  destruct (refresh userId rid e s) as [[success|x] s'] eqn:Hs.
  - eexists _, _. split.
    + apply fetch_returned. unfold handle. exec. rewrite Hready. cbn.
      rewrite Hs. reflexivity.
    + destruct success; reflexivity.
  - eexists _, _. split.
    + apply fetch_thrown. unfold handle. exec. rewrite Hready. cbn.
      rewrite Hs. reflexivity.
    + reflexivity.
Qed.

(** X17.  The facade's [refresh] over an initialised actor succeeds exactly
    when the actor's [refresh] returns true, and then calls [removeCache] for
    [resources/{resourceId}].  When the actor's [refresh] returns false or
    throws, the facade throws the Error "Refresh failed; Resource is not
    updated on the ResourcesStore", logs it when a logger is bound and
    removes nothing from the cache.  The actor's [refresh] returns false
    when the storage holds nothing under the id: an unknown id is an error
    at the facade. *)
Theorem facade_refresh (b : Bindings) (w : World) (userId rid : string) :
  store_ready (actor w) = true ->
  (fst (refresh userId rid (actorEnv b) (actor w)) = Ok true ->
   fst (Store.refresh userId rid b w) = Ok tt /\
   removed (snd (Store.refresh userId rid b w))
     = ("resources/" +:+ rid) :: removed w /\
   logged (snd (Store.refresh userId rid b w)) = logged w) /\
  (fst (refresh userId rid (actorEnv b) (actor w)) <> Ok true ->
   fst (Store.refresh userId rid b w)
     = Throw (ThrownError
         "Refresh failed; Resource is not updated on the ResourcesStore") /\
   removed (snd (Store.refresh userId rid b w)) = removed w /\
   logged (snd (Store.refresh userId rid b w))
     = if LOGGER b
       then ThrownError
              "Refresh failed; Resource is not updated on the ResourcesStore"
            :: logged w
       else logged w) /\
  (stored (storage (actor w)) rid = None ->
   fst (refresh userId rid (actorEnv b) (actor w)) = Ok false).
Proof.
  intros Hready.
  destruct (fetch_refresh_status userId rid (actorEnv b) (actor w) Hready)
    as (response & s'' & Hf & Hstatus).
  split; [|split].
  - intros Hs. rewrite Hs in Hstatus. unfold Store.refresh. fexec.
    rewrite Hf. cbn. unfold ok. rewrite Hstatus. cbn. repeat split.
  - intros Hs. unfold Store.refresh. fexec. rewrite Hf. cbn.
    unfold ok. rewrite Hstatus.
    destruct (fst (refresh userId rid (actorEnv b) (actor w)))
      as [[|]|y]; [congruence| |]; cbn; destruct (LOGGER b); repeat split.
  - intros Hnone. rewrite (refresh_missing _ _ _ _ Hnone). reflexivity.
Qed.

(** X18.  The facade's [view], [bookmark] and [unbookmark] never look at
    the resource actor's answer.  When the user store accepts the call (or,
    for [view], is not asked because the user id is null or empty), the
    method returns normally, has called [removeCache] for the user's key
    ([users/null] for a null id) and has sent the request to the actor,
    whether the actor answers 200, 404 for an unknown resource or 500.  When
    the user store rejects, that rejection is re-thrown unchanged and logged,
    the actor is not called and nothing is removed from the cache. *)
Theorem facade_marks_ignore_actor (b : Bindings) (w : World)
    (u rid : string) :
  (forall userId,
     userId = None \/ userId = Some "" \/
     (userId = Some u /\ userStore_view b u rid = Ok tt) ->
     Store.view userId rid b w
       = (Ok tt,
          mkWorld (run (fetch (view_request rid)) (actorEnv b) (actor w))
            (users_key userId :: removed w) (logged w))) /\
  (userStore_bookmark b u rid = Ok tt ->
   Store.bookmark u rid b w
     = (Ok tt,
        mkWorld (run (fetch (bookmark_request "PUT" u rid)) (actorEnv b)
                   (actor w))
          (users_key (Some u) :: removed w) (logged w))) /\
  (userStore_unbookmark b u rid = Ok tt ->
   Store.unbookmark u rid b w
     = (Ok tt,
        mkWorld (run (fetch (bookmark_request "DELETE" u rid)) (actorEnv b)
                   (actor w))
          (users_key (Some u) :: removed w) (logged w))) /\
  (forall x,
     (truthy u = true -> userStore_view b u rid = Throw x ->
      Store.view (Some u) rid b w
        = (Throw x,
           mkWorld (actor w) (removed w)
             (if LOGGER b then x :: logged w else logged w))) /\
     (userStore_bookmark b u rid = Throw x ->
      Store.bookmark u rid b w
        = (Throw x,
           mkWorld (actor w) (removed w)
             (if LOGGER b then x :: logged w else logged w))) /\
     (userStore_unbookmark b u rid = Throw x ->
      Store.unbookmark u rid b w
        = (Throw x,
           mkWorld (actor w) (removed w)
             (if LOGGER b then x :: logged w else logged w)))).
Proof.
  destruct w as [s rem logs].
  split; [|split; [|split]].
  - intros userId [->|[->|[-> Hv]]]; unfold Store.view; fexec; cbn.
    + reflexivity.
    + reflexivity.
    + destruct (truthy u); [rewrite Hv|]; reflexivity.
  - intros Hb. unfold Store.bookmark. fexec. rewrite Hb. reflexivity.
  - intros Hb. unfold Store.unbookmark. fexec. rewrite Hb. reflexivity.
  - intros x. split; [|split].
    + intros Ht Hv. unfold Store.view. fexec. rewrite Ht, Hv. cbn.
      destruct (LOGGER b); reflexivity.
    + intros Hb. unfold Store.bookmark. fexec. rewrite Hb. cbn.
      destruct (LOGGER b); reflexivity.
    + intros Hb. unfold Store.unbookmark. fexec. rewrite Hb. cbn.
      destruct (LOGGER b); reflexivity.
Qed.

(** X19.  Backup and restore through the facade.  Over an initialised
    actor, [backupResources] returns the actor's whole storage and
    [restoreResources] of that dump returns normally and leaves the storage
    as it was; neither logs anything.  Over an actor whose store was never
    created, both throw an Error whose message ends with the status 500 and
    the status text of the response, and log it when a logger is bound. *)
Theorem facade_backup_restore (b : Bindings) (w : World) :
  (store_ready (actor w) = true ->
   fst (Store.backupResources b w) = Ok (storage (actor w)) /\
   logged (snd (Store.backupResources b w)) = logged w /\
   fst (Store.restoreResources (storage (actor w)) b
          (snd (Store.backupResources b w))) = Ok tt /\
   storage
     (actor (snd (Store.restoreResources (storage (actor w)) b
                    (snd (Store.backupResources b w)))))
     = storage (actor w)) /\
  (store_ready (actor w) = false ->
   fst (Store.backupResources b w)
     = Throw (ThrownError
         ("Backup resources failed; ResourcesStore rejected with 500 "
          +:+ statusText b InternalServerError)) /\
   (forall data,
      fst (Store.restoreResources data b w)
        = Throw (ThrownError
            ("Restore resources failed; ResourcesStore rejected with 500 "
             +:+ statusText b InternalServerError)))).
Proof.
  destruct w as [s rem logs]. cbn [actor]. split.
  - intros Hready.
    pose proof (fetch_backup backup_request (actorEnv b) s Hready
                  eq_refl eq_refl) as Hb.
    unfold backup_request in Hb.
    unfold Store.backupResources. fexec. cbn. rewrite Hb. cbn.
    split; [reflexivity|]. split; [reflexivity|].
    destruct (fetch_restore (restore_request (storage s))
                (mkJson "" "" "" (storage s)) (actorEnv b)
                (emit (LoggerReport
                         (mkResponse (JsonEntries (storage s)) 200)) s)
                Hready eq_refl eq_refl eq_refl)
      as (s' & Hr & Hst & _).
    unfold restore_request in Hr.
    unfold Store.restoreResources. fexec. cbn. rewrite Hr. cbn.
    split; [reflexivity|]. rewrite Hst. cbn. apply put_entries_self.
  - intros Hnot.
    assert (Hh : forall request,
              fetch request (actorEnv b) s
              = (Ok InternalServerError,
                 reported InternalServerError
                   (emit (LoggerLog (failure_message request ""))
                      (emit (LoggerError (ThrownError "")) s)))).
    { intros request. apply (fetch_thrown request _ s (ThrownError "") s).
      unfold handle. exec. rewrite Hnot. reflexivity. }
    split.
    + unfold Store.backupResources. fexec. rewrite Hh. cbn.
      destruct (LOGGER b); reflexivity.
    + intros data. unfold Store.restoreResources. fexec. rewrite Hh. cbn.
      destruct (LOGGER b); reflexivity.
Qed.

Lemma facade_submit_witness :
  store_ready (actor world0) = true
  /\ fst (Store.submit docs_url "userA" bindings0 world0)
     = Ok (Some "Xk3v9QmT2LpA", PUBLISHED)
  /\ fst (Store.submit docs_url "userA"
            (mkBindings env_down true (fun _ _ => Ok tt) (fun _ _ => Ok tt)
               (fun _ _ => Ok tt) (fun _ => "")) world0)
     = Throw (ThrownError "Fail submitting the resource").
Proof.
  assert (H : store_ready (actor world0) = true) by (vm_compute; reflexivity).
  assert (Hs : submit "userA" docs_url env0 sys0
               = (Ok (Some "Xk3v9QmT2LpA", PUBLISHED), sys1))
    by (vm_compute; reflexivity).
  assert (Hd : submit "userA" docs_url env_down sys0
               = (Throw (ThrownError "connection refused"),
                  run (submit "userA" docs_url) env_down sys0))
    by (vm_compute; reflexivity).
  exact (conj H (conj
    (proj1 (proj1 (facade_submit bindings0 world0 docs_url "userA" H)
              _ _ _ Hs))
    (proj1 (proj2 (facade_submit
                     (mkBindings env_down true (fun _ _ => Ok tt)
                        (fun _ _ => Ok tt) (fun _ _ => Ok tt) (fun _ => ""))
                     world0 docs_url "userA" H)
              _ _ Hd)))).
Defined.

Lemma facade_refresh_witness :
  store_ready (actor world1) = true
  /\ fst (refresh "userA" "Xk3v9QmT2LpA" env0 sys1) = Ok true
  /\ fst (Store.refresh "userA" "Xk3v9QmT2LpA" bindings0 world1) = Ok tt
  /\ fst (refresh "userA" "b7RzW0cYh5Ns" env0 sys1) <> Ok true
  /\ fst (Store.refresh "userA" "b7RzW0cYh5Ns" bindings0 world1)
     = Throw (ThrownError
         "Refresh failed; Resource is not updated on the ResourcesStore").
Proof.
  assert (H : store_ready (actor world1) = true) by (vm_compute; reflexivity).
  assert (Ht : fst (refresh "userA" "Xk3v9QmT2LpA" env0 sys1) = Ok true)
    by (vm_compute; reflexivity).
  assert (Hf : fst (refresh "userA" "b7RzW0cYh5Ns" env0 sys1) <> Ok true)
    by (vm_compute; discriminate).
  exact (conj H (conj Ht (conj
    (proj1 (proj1 (facade_refresh bindings0 world1 "userA" "Xk3v9QmT2LpA" H)
              Ht))
    (conj Hf
       (proj1 (proj1 (proj2 (facade_refresh bindings0 world1 "userA"
                               "b7RzW0cYh5Ns" H))
                 Hf)))))).
Defined.

Lemma facade_marks_ignore_actor_witness :
  userStore_bookmark bindings0 "userB" "b7RzW0cYh5Ns" = Ok tt
  /\ Store.bookmark "userB" "b7RzW0cYh5Ns" bindings0 world1
     = (Ok tt,
        mkWorld
          (run (fetch (bookmark_request "PUT" "userB" "b7RzW0cYh5Ns")) env0
             sys1)
          ["users/userB"] [])
  /\ userStore_view bindings_rejecting "userB" "Xk3v9QmT2LpA"
     = Throw (ThrownError "user store unavailable")
  /\ Store.view (Some "userB") "Xk3v9QmT2LpA" bindings_rejecting world1
     = (Throw (ThrownError "user store unavailable"),
        mkWorld sys1 [] [ThrownError "user store unavailable"]).
Proof.
  assert (Hb : userStore_bookmark bindings0 "userB" "b7RzW0cYh5Ns" = Ok tt)
    by reflexivity.
  assert (Hv : userStore_view bindings_rejecting "userB" "Xk3v9QmT2LpA"
               = Throw (ThrownError "user store unavailable"))
    by reflexivity.
  exact (conj Hb (conj
    (proj1 (proj2 (facade_marks_ignore_actor bindings0 world1 "userB"
                     "b7RzW0cYh5Ns")) Hb)
    (conj Hv
       (proj1 (proj2 (proj2 (proj2
                 (facade_marks_ignore_actor bindings_rejecting world1 "userB"
                    "Xk3v9QmT2LpA")))
                 (ThrownError "user store unavailable"))
          eq_refl Hv)))).
Defined.

Lemma facade_backup_restore_witness :
  store_ready (actor world1) = true
  /\ fst (Store.backupResources bindings0 world1) = Ok (storage sys1)
  /\ store_ready (actor (mkWorld sys_null [] [])) = false
  /\ fst (Store.backupResources bindings0 (mkWorld sys_null [] []))
     = Throw (ThrownError
         "Backup resources failed; ResourcesStore rejected with 500 ").
Proof.
  assert (H : store_ready (actor world1) = true) by (vm_compute; reflexivity).
  assert (Hn : store_ready (actor (mkWorld sys_null [] [])) = false)
    by reflexivity.
  exact (conj H (conj
    (proj1 (proj1 (facade_backup_restore bindings0 world1) H))
    (conj Hn
       (proj1 (proj2 (facade_backup_restore bindings0
                        (mkWorld sys_null [] [])) Hn))))).
Defined.

(** * The keys of the index blobs *)

(** X20.  Resource ids share the key space of the storage with the two
    index blobs, and no method tells them apart.  For the key index/URL or
    index/PackageName, once its blob is in the storage and no summary is
    stored under the key, [view] and [bookmark] return true, [getDetails]
    returns the object built from the blob, and [refresh] and [unbookmark]
    return true or throw, whatever the environment: none of them answers
    that the id is unknown. *)
Theorem index_key_is_found (e : Env) (s : Sys) (u key : string)
    (index : gmap string string) :
  summaries (storage s) !! key = None ->
  (key = "index/URL" /\ index_URL (storage s) = Some index) \/
  (key = "index/PackageName" /\ index_PackageName (storage s) = Some index) ->
  stored (storage s) key = Some (StoredIndex index) /\
  value (view (Some key)) e s = Ok true /\
  value (bookmark u (Some key)) e s = Ok true /\
  (exists resource,
     value (getDetails (Some key)) e s = Ok (Some (Fields resource)) /\
     IndexRecord.id resource = index !! "id" /\
     IndexRecord.url resource = index !! "url") /\
  value (refresh u key) e s <> Ok false /\
  value (unbookmark u (Some key)) e s <> Ok false.
Proof.
  intros Hnone Hkey.
  assert (Hst : stored (storage s) key = Some (StoredIndex index)).
  { unfold stored. rewrite Hnone.
    destruct Hkey as [[-> ->]|[-> ->]]; reflexivity. }
  assert (Ht : truthy key = true) by (destruct Hkey as [[-> _]|[-> _]]; reflexivity).
  assert (Hget : forall e0 s0, storage s0 = storage s ->
            getResource key e0 s0
            = (Ok (Some (Fields (IndexRecord.mk
                 (index !! "id") (index !! "url") (index !! "bookmarked")
                 (index !! "viewCounts") (index !! "createdAt")
                 (index !! "createdBy") (index !! "updatedAt")
                 (index !! "updatedBy")))), s0)).
  { intros e0 s0 Hs0.
    unfold getResource, storage_get, bind, gets, ret. rewrite Hs0, Hst.
    reflexivity. }
  split; [exact Hst|].
  split; [|split; [|split; [|split]]].
  - unfold value, view, getResourceOrNull, bind. rewrite Ht, Hget by reflexivity.
    exec. cases; reflexivity.
  - unfold value, bookmark, getResourceOrNull, bind.
    rewrite Ht, Hget by reflexivity. exec. cases; reflexivity.
  - eexists. unfold value, getDetails, getResourceOrNull, bind.
    rewrite Ht, Hget by reflexivity. exec. cases; repeat split.
  - unfold value, refresh, bind. rewrite Hget by reflexivity. exec.
    cases; discriminate.
  - unfold value, unbookmark, getResourceOrNull, bind.
    rewrite Ht, Hget by reflexivity. exec. cases; discriminate.
Qed.

Lemma index_key_is_found_witness :
  summaries (storage sys1) !! "index/URL" = None
  /\ index_URL (storage sys1) = Some {[docs_url := "Xk3v9QmT2LpA"]}
  /\ value (view (Some "index/URL")) env0 sys1 = Ok true
  /\ value (bookmark "userB" (Some "index/URL")) env0 sys1 = Ok true.
Proof.
  assert (H1 : summaries (storage sys1) !! "index/URL" = None)
    by (vm_compute; reflexivity).
  assert (H2 : index_URL (storage sys1) = Some {[docs_url := "Xk3v9QmT2LpA"]})
    by (vm_compute; reflexivity).
  pose proof (index_key_is_found env0 sys1 "userB" "index/URL" _ H1
                (or_introl (conj eq_refl H2))) as (_ & A & B & _).
  exact (conj H1 (conj H2 (conj A B))).
Defined.
